(** * ffmap-backend, [lib/nodes.py]: a shallow embedding and its properties

    The module under study merges three feeds (nodeinfo, statistics and
    batman-adv vis data) into one dictionary of node records.  It is written
    in Python and works on JSON documents, so the embedding consists of

    - a universe of JSON values with the Python operations the module
      applies to them (subscript, [in], iteration, truth value, [+], [/],
      [-]), each returning either a value or the exception Python raises;
    - a state-and-exception monad in which a [try]/[except] block keeps the
      mutations made before the exception was raised;
    - naive datetimes with [isoformat], [strptime] for the one format the
      module uses, and the [days] attribute of a difference;
    - the functions of [nodes.py], one definition each, under their own
      names.

    Dictionaries are association lists in insertion order, as Python
    iterates them.  The heap is tree shaped: documents come from a JSON
    parser, so two node records never share a sub-object, and an in-place
    update of a nested dictionary is an update at a path. *)

From Stdlib Require Import ZArith List String Ascii Bool Lia Permutation.
From Stdlib Require Import Floats.
Import ListNotations.

Local Open Scope string_scope.
Local Open Scope list_scope.
Local Open Scope Z_scope.

(* ===================================================================== *)
(** * Results and exceptions *)
(* ===================================================================== *)

(** The exception classes the module can meet on JSON input. *)
Inductive exn : Type :=
| KeyError
| TypeError
| ZeroDivisionError
| AttributeError
| OverflowError
| ValueError
| IndexError.

Definition exn_eqb (a b : exn) : bool :=
  match a, b with
  | KeyError, KeyError
  | TypeError, TypeError
  | ZeroDivisionError, ZeroDivisionError
  | AttributeError, AttributeError
  | OverflowError, OverflowError
  | ValueError, ValueError
  | IndexError, IndexError => true
  | _, _ => false
  end.

(** The outcome of evaluating a Python expression.  [Unmodelled] marks the
    one situation the embedding declines to describe: a JSON scalar that is
    not a string (a number, a boolean, [null]) used as a dictionary key or
    as a set element.  Python accepts these; the embedding keys every
    dictionary by strings, as JSON objects are.  A run that reaches such a
    point stops there with the state it has built so far. *)
Inductive result (A : Type) : Type :=
| Ok (a : A)
| Raise (e : exn)
| Unmodelled.

Arguments Ok {A} a.
Arguments Raise {A} e.
Arguments Unmodelled {A}.

Definition rbind {A B : Type} (r : result A) (k : A -> result B) : result B :=
  match r with
  | Ok a => k a
  | Raise e => Raise e
  | Unmodelled => Unmodelled
  end.

Notation "x <- e ;; k" := (rbind e (fun x => k))
  (at level 61, e at next level, right associativity).

(** Sequential [filter] whose predicate may raise. *)
Fixpoint filterM {A : Type} (p : A -> result bool) (l : list A) : result (list A) :=
  match l with
  | [] => Ok []
  | x :: l' =>
      b <- p x ;;
      r <- filterM p l' ;;
      Ok (if b then x :: r else r)
  end.

(** Sequential [map] whose function may raise. *)
Fixpoint mapM {A B : Type} (f : A -> result B) (l : list A) : result (list B) :=
  match l with
  | [] => Ok []
  | x :: l' =>
      y <- f x ;;
      r <- mapM f l' ;;
      Ok (y :: r)
  end.

(** ** Mutable state

    A computation on a mutable object of type [S].  The state is returned
    with every outcome, so the handler of a [try] sees the mutations done
    before the exception. *)
Definition M (S A : Type) : Type := S -> result A * S.

Definition ret {S A : Type} (a : A) : M S A := fun s => (Ok a, s).

Definition bind {S A B : Type} (m : M S A) (k : A -> M S B) : M S B :=
  fun s =>
    match m s with
    | (Ok a, s') => k a s'
    | (Raise e, s') => (Raise e, s')
    | (Unmodelled, s') => (Unmodelled, s')
    end.

Definition lift {S A : Type} (r : result A) : M S A := fun s => (r, s).

Definition modify {S : Type} (f : S -> S) : M S unit := fun s => (Ok tt, f s).

Notation "x <~ e ;; k" := (bind e (fun x => k))
  (at level 61, e at next level, right associativity).
Notation "e ;;; k" := (bind e (fun _ => k))
  (at level 61, right associativity).

(** [for x in l: body(x)]. *)
Fixpoint for_each {S A : Type} (l : list A) (body : A -> M S unit) : M S unit :=
  match l with
  | [] => ret tt
  | x :: l' => body x ;;; for_each l' body
  end.

(** [try: m  except (handled): pass]. *)
Definition try_except {S : Type} (handled : list exn) (m : M S unit) : M S unit :=
  fun s =>
    match m s with
    | (Raise e, s') =>
        if existsb (exn_eqb e) handled then (Ok tt, s') else (Raise e, s')
    | other => other
    end.

(* ===================================================================== *)
(** * Dictionaries *)
(* ===================================================================== *)

(** A Python [dict] with string keys: the pairs in insertion order. *)
Definition dict (A : Type) : Type := list (string * A).

Fixpoint dict_get {A : Type} (k : string) (d : dict A) : option A :=
  match d with
  | [] => None
  | (k', v) :: d' => if String.eqb k k' then Some v else dict_get k d'
  end.

Definition dict_mem {A : Type} (k : string) (d : dict A) : bool :=
  match dict_get k d with Some _ => true | None => false end.

(** [d[k] = v]: an existing key keeps its place, a new one goes last. *)
Fixpoint dict_set {A : Type} (k : string) (v : A) (d : dict A) : dict A :=
  match d with
  | [] => [(k, v)]
  | (k', v') :: d' =>
      if String.eqb k k' then (k', v) :: d' else (k', v') :: dict_set k v d'
  end.

(** [del d[k]] for a key that is present. *)
Fixpoint dict_del {A : Type} (k : string) (d : dict A) : dict A :=
  match d with
  | [] => []
  | (k', v') :: d' =>
      if String.eqb k k' then dict_del k d' else (k', v') :: dict_del k d'
  end.

Definition dict_keys {A : Type} (d : dict A) : list string := map fst d.

(* ===================================================================== *)
(** * JSON values and the Python operations on them *)
(* ===================================================================== *)

(** What [json.load] produces.  A [float] is an IEEE 754 binary64 number in
    the Standard Library's [spec_float] form; a [str] is a sequence of
    characters, each an [ascii] code. *)
#[warnings="-register-all"]
Inductive value : Type :=
| VNone
| VBool (b : bool)
| VInt (z : Z)
| VFloat (f : spec_float)
| VStr (s : string)
| VList (l : list value)
| VDict (d : list (string * value)).

Module Py.

(** [x == k] for a string literal [k]. *)
Definition is_str (k : string) (v : value) : bool :=
  match v with
  | VStr s => String.eqb s k
  | _ => false
  end.

Definition substring_of (k s : string) : bool :=
  match String.index 0 k s with Some _ => true | None => false end.

(** [k in c] for a string literal [k]: key test on a dict, membership on a
    list, substring test on a str; the other JSON types are not iterable. *)
Definition contains (k : string) (c : value) : result bool :=
  match c with
  | VDict d => Ok (dict_mem k d)
  | VList l => Ok (existsb (is_str k) l)
  | VStr s => Ok (substring_of k s)
  | _ => Raise TypeError
  end.

(** [c[k]] for a string literal [k]: only a dict can be subscripted by a
    string. *)
Definition getitem (c : value) (k : string) : result value :=
  match c with
  | VDict d => match dict_get k d with Some v => Ok v | None => Raise KeyError end
  | _ => Raise TypeError
  end.

(** [dict.__getitem__(c, k)]: the unbound method refuses a receiver that is
    not a dict. *)
Definition dict_getitem (c : value) (k : string) : result value := getitem c k.

(** [reduce(f, path, start)]. *)
Fixpoint reduce (f : value -> string -> result value) (path : list string)
    (start : value) : result value :=
  match path with
  | [] => Ok start
  | k :: path' => v <- f start k ;; reduce f path' v
  end.

(** A sequence index: negative indices count from the end. *)
Definition seq_index {A : Type} (l : list A) (i : Z) : result A :=
  let n := Z.of_nat (List.length l) in
  let j := if i <? 0 then i + n else i in
  if (j <? 0) || (n <=? j) then Raise IndexError
  else match nth_error l (Z.to_nat j) with
       | Some x => Ok x
       | None => Raise IndexError
       end.

Definition chars (s : string) : list value :=
  map (fun c => VStr (String c EmptyString)) (list_ascii_of_string s).

(** [c[k]] for a computed [k]. *)
Definition subscript (c k : value) : result value :=
  match c with
  | VDict d =>
      match k with
      | VStr s => getitem c s
      | VList _ | VDict _ => Raise TypeError
      | _ => Raise KeyError
      end
  | VList l =>
      match k with
      | VInt i => seq_index l i
      | VBool b => seq_index l (if b then 1 else 0)
      | _ => Raise TypeError
      end
  | VStr s =>
      match k with
      | VInt i => seq_index (chars s) i
      | VBool b => seq_index (chars s) (if b then 1 else 0)
      | _ => Raise TypeError
      end
  | _ => Raise TypeError
  end.

(** [for x in c]: the elements of a list, the keys of a dict, the
    characters of a str. *)
Definition iter (c : value) : result (list value) :=
  match c with
  | VList l => Ok l
  | VDict d => Ok (map (fun kv => VStr (fst kv)) d)
  | VStr s => Ok (chars s)
  | _ => Raise TypeError
  end.

(** [c.values()]: only a dict has the method. *)
Definition values (c : value) : result (list value) :=
  match c with
  | VDict d => Ok (map snd d)
  | _ => Raise AttributeError
  end.

(** [c.get(k, None)]. *)
Definition get (c : value) (k : string) : result value :=
  match c with
  | VDict d => Ok (match dict_get k d with Some v => v | None => VNone end)
  | _ => Raise AttributeError
  end.

(** [bool(v)]. *)
Definition truthy (v : value) : bool :=
  match v with
  | VNone => false
  | VBool b => b
  | VInt z => negb (z =? 0)
  | VFloat (S754_zero _) => false
  | VFloat _ => true
  | VStr s => negb (String.eqb s "")
  | VList l => match l with [] => false | _ => true end
  | VDict d => match d with [] => false | _ => true end
  end.

(** A value used as a dictionary key or a set element: lists and dicts are
    unhashable. *)
Definition as_key (v : value) : result string :=
  match v with
  | VStr s => Ok s
  | VList _ | VDict _ => Raise TypeError
  | _ => Unmodelled
  end.

(** [v in d] for a dictionary [d] keyed by strings: a hashable value that is
    not a string is not among the keys. *)
Definition key_in {A : Type} (v : value) (d : dict A) : result bool :=
  match v with
  | VStr s => Ok (dict_mem s d)
  | VList _ | VDict _ => Raise TypeError
  | _ => Ok false
  end.

(** ** Mutation *)

(** [c[k] = v] on the object [c]. *)
Definition setitem (k : string) (v : value) : M value unit :=
  fun c =>
    match c with
    | VDict d => (Ok tt, VDict (dict_set k v d))
    | _ => (Raise TypeError, c)
    end.

(** [c.setdefault(k, v)] on the object [c]; the result is [c[k]]. *)
Definition setdefault (k : string) (v : value) : M value value :=
  fun c =>
    match c with
    | VDict d =>
        match dict_get k d with
        | Some old => (Ok old, c)
        | None => (Ok v, VDict (dict_set k v d))
        end
    | _ => (Raise AttributeError, c)
    end.

(** Run [m] on the object [c[k]]: the object is reached through [c], so
    what [m] does to it shows in [c]. *)
Definition at_key {A : Type} (k : string) (m : M value A) : M value A :=
  fun c =>
    match getitem c k with
    | Ok child =>
        let (r, child') := m child in
        (r, match c with VDict d => VDict (dict_set k child' d) | _ => c end)
    | Raise e => (Raise e, c)
    | Unmodelled => (Unmodelled, c)
    end.

End Py.

(* ===================================================================== *)
(** * Numbers *)
(* ===================================================================== *)

Module Num.

(** [float(z)]: the nearest binary64 number, ties to even; an integer
    beyond the largest finite float raises [OverflowError]. *)
Definition float_of_int (z : Z) : result spec_float :=
  match binary_normalize prec emax z 0 false with
  | S754_infinity _ => Raise OverflowError
  | f => Ok f
  end.

(** The integer [z] as an exact quotient operand. *)
Definition exact (z : Z) : spec_float :=
  match z with
  | Z0 => S754_zero false
  | Zpos p => S754_finite false p 0
  | Zneg p => S754_finite true p 0
  end.

(** [a / b] on two ints: the correctly rounded quotient. *)
Definition int_truediv (a b : Z) : result spec_float :=
  if b =? 0 then Raise ZeroDivisionError
  else if a =? 0 then Ok (S754_zero (b <? 0))
  else match SFdiv prec emax (exact a) (exact b) with
       | S754_infinity _ => Raise OverflowError
       | f => Ok f
       end.

(** The numeric types: [bool] is a subclass of [int]. *)
Inductive num : Type :=
| NInt (z : Z)
| NFloat (f : spec_float).

Definition as_num (v : value) : option num :=
  match v with
  | VBool b => Some (NInt (if b then 1 else 0))
  | VInt z => Some (NInt z)
  | VFloat f => Some (NFloat f)
  | _ => None
  end.

Definition to_float (n : num) : result spec_float :=
  match n with
  | NInt z => float_of_int z
  | NFloat f => Ok f
  end.

Definition is_zero (f : spec_float) : bool :=
  match f with S754_zero _ => true | _ => false end.

(** [a + b]. *)
Definition add (a b : value) : result value :=
  match as_num a, as_num b with
  | Some (NInt x), Some (NInt y) => Ok (VInt (x + y))
  | Some x, Some y =>
      fx <- to_float x ;;
      fy <- to_float y ;;
      Ok (VFloat (SFadd prec emax fx fy))
  | _, _ =>
      match a, b with
      | VStr s, VStr t => Ok (VStr (String.append s t))
      | VList l, VList m => Ok (VList (l ++ m))
      | _, _ => Raise TypeError
      end
  end.

(** [a - b]. *)
Definition sub (a b : value) : result value :=
  match as_num a, as_num b with
  | Some (NInt x), Some (NInt y) => Ok (VInt (x - y))
  | Some x, Some y =>
      fx <- to_float x ;;
      fy <- to_float y ;;
      Ok (VFloat (SFsub prec emax fx fy))
  | _, _ => Raise TypeError
  end.

(** [a / b]. *)
Definition truediv (a b : value) : result value :=
  match as_num a, as_num b with
  | Some (NInt x), Some (NInt y) =>
      q <- int_truediv x y ;; Ok (VFloat q)
  | Some x, Some y =>
      fx <- to_float x ;;
      fy <- to_float y ;;
      if is_zero fy then Raise ZeroDivisionError
      else Ok (VFloat (SFdiv prec emax fx fy))
  | _, _ => Raise TypeError
  end.

End Num.

(* ===================================================================== *)
(** * Naive datetimes *)
(* ===================================================================== *)

Module DateTime.

Record datetime : Type := mk {
  year : Z;
  month : Z;
  day : Z;
  hour : Z;
  minute : Z;
  second : Z;
  microsecond : Z
}.

Definition is_leap (y : Z) : bool :=
  (y mod 4 =? 0) && (negb (y mod 100 =? 0) || (y mod 400 =? 0)).

Definition days_in_month (y m : Z) : Z :=
  match m with
  | 1 | 3 | 5 | 7 | 8 | 10 | 12 => 31
  | 4 | 6 | 9 | 11 => 30
  | 2 => if is_leap y then 29 else 28
  | _ => 0
  end.

Definition days_before_year (y : Z) : Z :=
  let p := y - 1 in p * 365 + p / 4 - p / 100 + p / 400.

Definition days_before_month (y m : Z) : Z :=
  fold_right Z.add 0
    (map (days_in_month y) (map Z.of_nat (seq 1 (Z.to_nat (m - 1))))).

(** [date.toordinal()]: 1 is 0001-01-01. *)
Definition toordinal (t : datetime) : Z :=
  days_before_year (year t) + days_before_month (year t) (month t) + day t.

(** What the constructor [datetime(...)] accepts. *)
Definition valid (t : datetime) : bool :=
  (1 <=? year t) && (year t <=? 9999) &&
  (1 <=? month t) && (month t <=? 12) &&
  (1 <=? day t) && (day t <=? days_in_month (year t) (month t)) &&
  (0 <=? hour t) && (hour t <=? 23) &&
  (0 <=? minute t) && (minute t <=? 59) &&
  (0 <=? second t) && (second t <=? 59) &&
  (0 <=? microsecond t) && (microsecond t <=? 999999).

Definition microseconds (t : datetime) : Z :=
  ((toordinal t * 86400 + hour t * 3600 + minute t * 60 + second t) * 1000000)
  + microsecond t.

(** [(a - b).days]: a [timedelta] is normalised with [0 <= seconds < 86400]
    and [0 <= microseconds < 1000000], so its [days] is the floor of the
    difference, negative when [b] is later than [a]. *)
Definition sub_days (a b : datetime) : Z :=
  (microseconds a - microseconds b) / 86400000000.

(** ** [isoformat] *)

Definition digit (n : Z) : ascii := ascii_of_nat (48 + Z.to_nat (n mod 10)).

(** [n] in decimal on [w] digits, zero padded. *)
Fixpoint digits (w : nat) (n : Z) : string :=
  match w with
  | O => ""
  | S w' => String.append (digits w' (n / 10)) (String (digit n) "")
  end.

(** [t.isoformat()]: the fraction is printed only when it is not zero. *)
Definition isoformat (t : datetime) : string :=
  String.append (digits 4 (year t))
  (String.append "-" (String.append (digits 2 (month t))
  (String.append "-" (String.append (digits 2 (day t))
  (String.append "T" (String.append (digits 2 (hour t))
  (String.append ":" (String.append (digits 2 (minute t))
  (String.append ":" (String.append (digits 2 (second t))
  (if microsecond t =? 0 then ""
   else String.append "." (digits 6 (microsecond t))))))))))))).

(** ** [strptime(s, '%Y-%m-%dT%H:%M:%S')]

    [strptime] turns the format into a regular expression, matches it
    against the start of the string ignoring case, and refuses a string
    with characters left over.  The directives stand for
    - [%Y]: [\d\d\d\d]
    - [%m]: [1[0-2]|0[1-9]|[1-9]]
    - [%d]: [3[0-1]|[1-2]\d|0[1-9]|[1-9]| [1-9]]
    - [%H]: [2[0-3]|[0-1]\d|\d]
    - [%M]: [[0-5]\d|\d]
    - [%S]: [6[0-1]|[0-5]\d|\d]
    A parser returns every way to match a prefix, in the order in which the
    backtracking matcher tries them. *)

Definition parser (A : Type) : Type := list ascii -> list (A * list ascii).

Definition code (c : ascii) : Z := Z.of_nat (nat_of_ascii c).

Definition between (lo hi : Z) (c : ascii) : bool :=
  (lo <=? code c - 48) && (code c - 48 <=? hi).

Definition chr (x : ascii) (c : ascii) : bool := Ascii.eqb x c.

(** One character satisfying [p], read as a digit. *)
Definition one (p : ascii -> bool) : parser Z :=
  fun s =>
    match s with
    | c :: r => if p c then [(code c - 48, r)] else []
    | [] => []
    end.

(** Two characters, read as a two-digit number. *)
Definition two (p q : ascii -> bool) : parser Z :=
  fun s =>
    match s with
    | c :: d :: r =>
        if p c && q d then [(10 * (code c - 48) + (code d - 48), r)] else []
    | _ => []
    end.

(** A space followed by one character. *)
Definition spaced (q : ascii -> bool) : parser Z :=
  fun s =>
    match s with
    | c :: d :: r => if chr " " c && q d then [(code d - 48, r)] else []
    | _ => []
    end.

Definition alt {A : Type} (ps : list (parser A)) : parser A :=
  fun s => flat_map (fun p => p s) ps.

Definition seq_ {A B : Type} (p : parser A) (k : A -> parser B) : parser B :=
  fun s => flat_map (fun ar => k (fst ar) (snd ar)) (p s).

Definition lit (p : ascii -> bool) : parser unit :=
  fun s =>
    match s with
    | c :: r => if p c then [(tt, r)] else []
    | [] => []
    end.

Definition any_digit : ascii -> bool := between 0 9.

Definition p_Y : parser Z :=
  seq_ (two any_digit any_digit) (fun hi =>
  seq_ (two any_digit any_digit) (fun lo => fun s => [(100 * hi + lo, s)])).

Definition p_m : parser Z :=
  alt [two (chr "1") (between 0 2); two (chr "0") (between 1 9); one (between 1 9)].

Definition p_d : parser Z :=
  alt [two (chr "3") (between 0 1); two (between 1 2) any_digit;
       two (chr "0") (between 1 9); one (between 1 9); spaced (between 1 9)].

Definition p_H : parser Z :=
  alt [two (chr "2") (between 0 3); two (between 0 1) any_digit; one any_digit].

Definition p_M : parser Z :=
  alt [two (between 0 5) any_digit; one any_digit].

Definition p_S : parser Z :=
  alt [two (chr "6") (between 0 1); two (between 0 5) any_digit; one any_digit].

Definition p_format : parser datetime :=
  seq_ p_Y (fun y =>
  seq_ (lit (chr "-")) (fun _ =>
  seq_ p_m (fun m =>
  seq_ (lit (chr "-")) (fun _ =>
  seq_ p_d (fun d =>
  seq_ (lit (fun c => chr "T" c || chr "t" c)) (fun _ =>
  seq_ p_H (fun h =>
  seq_ (lit (chr ":")) (fun _ =>
  seq_ p_M (fun mi =>
  seq_ (lit (chr ":")) (fun _ =>
  seq_ p_S (fun sec => fun s => [(mk y m d h mi sec 0, s)]))))))))))).

Definition strptime (v : value) : result datetime :=
  match v with
  | VStr s =>
      match p_format (list_ascii_of_string s) with
      | (t, []) :: _ => if valid t then Ok t else Raise ValueError
      | _ => Raise ValueError
      end
  | _ => Raise TypeError
  end.

End DateTime.

(* ===================================================================== *)
(** * [lib/nodes.py] *)
(* ===================================================================== *)

Module Nodes.

Import DateTime.

(** [nodes]: node identifier to node record. *)
Definition store : Type := dict value.

(** [macs]: interface address to node identifier. *)
Definition mac_table : Type := dict string.

(** Run [m] on the record [nodes[node_id]]. *)
Definition at_node {A : Type} (node_id : string) (m : M value A) : M store A :=
  fun nodes =>
    match dict_get node_id nodes with
    | Some node => let (r, node') := m node in (r, dict_set node_id node' nodes)
    | None => (Raise KeyError, nodes)
    end.

(** [start[k1][k2]...]. *)
Fixpoint walk (start : value) (path : list string) : result value :=
  match path with
  | [] => Ok start
  | k :: path' => v <- Py.getitem start k ;; walk v path'
  end.

(** ** [build_mac_table] *)

(** [macs[mac] = node_id]. *)
Definition record (node_id : string) (mac : value) : M mac_table unit :=
  k <~ lift (Py.as_key mac) ;;
  modify (dict_set k node_id).

(** The two [try] blocks run for one node. *)
Definition build_mac_table_node (item : string * value) : M mac_table unit :=
  let (node_id, node) := item in
  try_except [KeyError]
    (macs <~ lift (l <- walk node ["nodeinfo"; "network"; "mesh_interfaces"] ;;
                   Py.iter l) ;;
     for_each macs (record node_id)) ;;;
  try_except [KeyError]
    (uppers <~ lift (m <- walk node ["nodeinfo"; "network"; "mesh"] ;;
                     Py.values m) ;;
     for_each uppers (fun upper_if =>
       lowers <~ lift (i <- Py.getitem upper_if "interfaces" ;; Py.values i) ;;
       for_each lowers (fun lower_if =>
         macs <~ lift (Py.iter lower_if) ;;
         for_each macs (record node_id)))).

Definition build_mac_table (nodes : store) : result mac_table :=
  match for_each nodes build_mac_table_node [] with
  | (Ok _, macs) => Ok macs
  | (Raise e, _) => Raise e
  | (Unmodelled, _) => Unmodelled
  end.

(** ** [prune_nodes], [prune_node] *)

(** Whether the first loop appends the node to [prune]. *)
Definition stale (now : datetime) (days : Z) (node : value) : result bool :=
  has <- Py.contains "lastseen" node ;;
  if negb has then Ok true
  else
    s <- Py.getitem node "lastseen" ;;
    lastseen <- strptime s ;;
    let delta := sub_days now lastseen in
    Ok (delta >=? days).

Definition prune_nodes (nodes : store) (now : datetime) (days : Z)
    : result unit * store :=
  match filterM (fun item => stale now days (snd item)) nodes with
  | Ok prune =>
      (Ok tt, fold_left (fun s item => dict_del (fst item) s) prune nodes)
  | Raise e => (Raise e, nodes)
  | Unmodelled => (Unmodelled, nodes)
  end.

Definition prune_node (nodes : store) (nodeid : string) : result unit * store :=
  if dict_mem nodeid nodes then (Ok tt, dict_del nodeid nodes)
  else (Ok tt, nodes).

(** ** [mark_online] *)

Definition mark_online (now : datetime) : M value unit :=
  Py.setitem "lastseen" (VStr (isoformat now)) ;;;
  Py.setdefault "firstseen" (VStr (isoformat now)) ;;;
  Py.at_key "flags" (Py.setitem "online" (VBool true)).

(** ** [check_uplink], [check_uplink_recursive], [mark_uplink] *)

Definition check_uplink (group : value) : result (list value) :=
  peers <- Py.getitem group "peers" ;;
  each <- Py.iter peers ;;
  filterM (fun peer =>
             status <- Py.subscript peers peer ;;
             if Py.truthy status then Py.contains "established" status
             else Ok false)
          each.

(** The recursion descends into [group['groups']]; it is structural on the
    JSON tree.  [check_uplink_recursive_step] below states the loop body in
    the source's own terms. *)
Fixpoint check_uplink_recursive (groups : value) : result (list value) :=
  match groups with
  | VDict d =>
      (fix loop (d : list (string * value)) : result (list value) :=
         match d with
         | [] => Ok []
         | (_, group) :: rest =>
             own <- check_uplink group ;;
             sub <- match group with
                    | VDict g =>
                        (fix nested (g : list (string * value)) : result (list value) :=
                           match g with
                           | [] => Ok []
                           | (k, v) :: g' =>
                               if String.eqb "groups" k
                               then check_uplink_recursive v
                               else nested g'
                           end) g
                    | _ =>
                        has <- Py.contains "groups" group ;;
                        if has then (_ <- Py.getitem group "groups" ;; Ok [])
                        else Ok []
                    end ;;
             more <- loop rest ;;
             Ok (own ++ sub ++ more)
         end) d
  | _ => Raise AttributeError
  end.

Definition mark_uplink (stats : value) : M value unit :=
  try_except [KeyError]
    (peers <~ lift (g <- walk stats ["mesh_vpn"; "groups"] ;;
                    check_uplink_recursive g) ;;
     match peers with
     | [] => ret tt
     | _ =>
         Py.at_key "flags" (Py.setitem "uplink" (VBool true)) ;;;
         Py.at_key "statistics" (Py.setitem "vpn_peers" (VList peers))
     end).

(** ** [import_nodeinfo] *)

(** [nodes.setdefault(node_id, {'flags': dict()})]. *)
Definition get_or_create (node_id : string) : M store unit :=
  modify (fun nodes =>
            if dict_mem node_id nodes then nodes
            else dict_set node_id (VDict [("flags", VDict [])]) nodes).

(** The loop body, for a document that passed the filter. *)
Definition import_nodeinfo_doc (now : datetime) (assume_online : bool)
    (nodeinfo : value) : M store unit :=
  node_id <~ lift (v <- Py.getitem nodeinfo "node_id" ;; Py.as_key v) ;;
  get_or_create node_id ;;;
  at_node node_id
    (Py.setitem "nodeinfo" nodeinfo ;;;
     Py.at_key "flags" (Py.setitem "online" (VBool false)) ;;;
     Py.at_key "flags" (Py.setitem "uplink" (VBool false)) ;;;
     if assume_online then mark_online now else ret tt).

Definition import_nodeinfo (nodes : store) (nodeinfos : list value)
    (now : datetime) (assume_online : bool) : result unit * store :=
  for_each nodeinfos
    (fun d =>
       has <~ lift (Py.contains "node_id" d) ;;
       if has then import_nodeinfo_doc now assume_online d else ret tt)
    nodes.

(** ** [reset_statistics] *)

Definition reset_statistics (nodes : store) : result unit * store :=
  for_each (dict_keys nodes)
    (fun node_id => at_node node_id (Py.setitem "statistics" (VDict [("clients", VInt 0)])))
    nodes.

(** ** [import_statistics] *)

(** The nested function [add(node, statistics, target, source, f)]. *)
Definition add (statistics : value) (target : string) (source : list string)
    (f : value -> result value) : M value unit :=
  try_except [KeyError; TypeError; ZeroDivisionError]
    (v <~ lift (d <- Py.reduce Py.dict_getitem source statistics ;; f d) ;;
     Py.at_key "statistics" (Py.setitem target v)).

(** [lambda d: d]. *)
Definition identity (d : value) : result value := Ok d.

(** [lambda d: 1 - (d['free'] + d['buffers'] + d['cached']) / d['total']]. *)
Definition memory_usage (d : value) : result value :=
  free <- Py.getitem d "free" ;;
  buffers <- Py.getitem d "buffers" ;;
  s1 <- Num.add free buffers ;;
  cached <- Py.getitem d "cached" ;;
  s2 <- Num.add s1 cached ;;
  total <- Py.getitem d "total" ;;
  q <- Num.truediv s2 total ;;
  Num.sub (VInt 1) q.

(** The six calls of [add] for one document. *)
Definition extract (stats : value) : M value unit :=
  add stats "clients" ["clients"; "total"] identity ;;;
  add stats "uptime" ["uptime"] identity ;;;
  add stats "loadavg" ["loadavg"] identity ;;;
  add stats "memory_usage" ["memory"] memory_usage ;;;
  add stats "rootfs_usage" ["rootfs_usage"] identity ;;;
  add stats "traffic" ["traffic"] identity.

(** The loop body with its two filters. *)
Definition import_statistics_doc (d : value) : M store unit :=
  fun nodes =>
    (has <~ lift (Py.contains "node_id" d) ;;
     if has then
       known <~ lift (v <- Py.getitem d "node_id" ;; Py.key_in v nodes) ;;
       if known then
         node_id <~ lift (v <- Py.getitem d "node_id" ;; Py.as_key v) ;;
         at_node node_id (extract d ;;; mark_uplink d)
       else ret tt
     else ret tt) nodes.

Definition import_statistics (nodes : store) (stats : list value)
    : result unit * store :=
  match build_mac_table nodes with
  | Ok _ => for_each stats import_statistics_doc nodes
  | Raise e => (Raise e, nodes)
  | Unmodelled => (Unmodelled, nodes)
  end.

(** ** Sets

    A [set] of strings is the list of its elements, each once.  Python
    does not fix the order in which a set is iterated; [set_order] is that
    order, a parameter of the functions that iterate a set. *)

Definition pyset : Type := list string.

Definition set_mem (x : string) (s : pyset) : bool := existsb (String.eqb x) s.

Definition set_add (x : string) (s : pyset) : pyset :=
  if set_mem x s then s else s ++ [x].

(** [Counter(l)]: occurrences by element, in order of first occurrence. *)
Definition Counter (l : list string) : dict Z :=
  fold_left
    (fun c x => dict_set x (1 + match dict_get x c with Some n => n | None => 0 end) c)
    l [].

Section Iteration.

Variable set_order : pyset -> list string.

(** [a.union(b)], [a | b]. *)
Definition set_union (a b : pyset) : pyset :=
  fold_left (fun s x => set_add x s) (set_order b) a.

(** [set(v)]. *)
Definition set_of (v : value) : result pyset :=
  each <- Py.iter v ;;
  keys <- mapM Py.as_key each ;;
  Ok (fold_left (fun s x => set_add x s) keys []).

(** ** [import_mesh_ifs_vis_data] *)

(** [mesh_ifs[primary].add(x)] on the [defaultdict]. *)
Definition group_add (primary x : string) : M (dict pyset) unit :=
  modify (fun mesh_ifs =>
            dict_set primary
              (set_add x (match dict_get primary mesh_ifs with
                          | Some s => s
                          | None => []
                          end))
              mesh_ifs).

(** The first loop: [mesh_ifs]. *)
Definition mesh_groups (vis_data : list value) : result unit * dict pyset :=
  for_each vis_data
    (fun line =>
       has <~ lift (Py.contains "secondary" line) ;;
       if has then
         primary <~ lift (v <- Py.getitem line "of" ;; Py.as_key v) ;;
         group_add primary primary ;;;
         secondary <~ lift (v <- Py.getitem line "secondary" ;; Py.as_key v) ;;
         group_add primary secondary
       else ret tt)
    [].

(** The nested function [if_to_node]: the node is returned by reference,
    here by its identifier. *)
Definition if_to_node (macs : mac_table) (ifs : pyset) : option (string * pyset) :=
  match find (fun d => dict_mem d macs) (set_order ifs) with
  | Some d =>
      match dict_get d macs with
      | Some node_id => Some (node_id, ifs)
      | None => None
      end
  | None => None
  end.

(** [try: ifs = ifs.union(set(node[path])) except KeyError: pass]. *)
Definition gather (node : value) (path : list string) : M pyset unit :=
  try_except [KeyError]
    (s <~ lift (l <- walk node path ;; set_of l) ;;
     modify (fun ifs => set_union ifs s)).

(** The body of the second loop, on the node [v[0]] with [group = v[1]]. *)
Definition merge_ifs (group : pyset) : M value unit :=
  fun node =>
    match (gather node ["nodeinfo"; "network"; "mesh_interfaces"] ;;;
           gather node ["nodeinfo"; "network"; "mesh"; "bat0"; "interfaces"; "wireless"] ;;;
           gather node ["nodeinfo"; "network"; "mesh"; "bat0"; "interfaces"; "tunnel"] ;;;
           gather node ["nodeinfo"; "network"; "mesh"; "bat0"; "interfaces"; "other"]) []
    with
    | (Ok _, ifs) =>
        Py.at_key "nodeinfo"
          (Py.at_key "network"
             (Py.setitem "mesh_interfaces"
                (VList (map VStr (set_order (set_union ifs group))))))
          node
    | (Raise e, _) => (Raise e, node)
    | (Unmodelled, _) => (Unmodelled, node)
    end.

Definition import_mesh_ifs_vis_data (nodes : store) (vis_data : list value)
    : result unit * store :=
  match build_mac_table nodes with
  | Ok macs =>
      match mesh_groups vis_data with
      | (Ok _, mesh_ifs) =>
          for_each (map snd mesh_ifs)
            (fun ifs =>
               match if_to_node macs ifs with
               | Some (node_id, group) => at_node node_id (merge_ifs group)
               | None => ret tt
               end)
            nodes
      | (Raise e, _) => (Raise e, nodes)
      | (Unmodelled, _) => (Unmodelled, nodes)
      end
  | Raise e => (Raise e, nodes)
  | Unmodelled => (Unmodelled, nodes)
  end.

(** ** [mark_vis_data_online] *)

(** The address one line adds to [online], if any. *)
Definition active_address (line : value) : result (option value) :=
  p <- Py.contains "primary" line ;;
  if p then v <- Py.getitem line "primary" ;; Ok (Some v)
  else
    s <- Py.contains "secondary" line ;;
    if s then v <- Py.getitem line "secondary" ;; Ok (Some v)
    else
      g <- Py.contains "gateway" line ;;
      if g then v <- Py.getitem line "gateway" ;; Ok (Some v)
      else Ok None.

(** The first loop: [online]. *)
Definition online_set (vis_data : list value) : result unit * pyset :=
  for_each vis_data
    (fun line =>
       a <~ lift (active_address line) ;;
       match a with
       | Some v => k <~ lift (Py.as_key v) ;; modify (set_add k)
       | None => ret tt
       end)
    [].

Definition mark_vis_data_online (nodes : store) (vis_data : list value)
    (now : datetime) : result unit * store :=
  match build_mac_table nodes with
  | Ok macs =>
      match online_set vis_data with
      | (Ok _, online) =>
          for_each (filter (fun d => dict_mem d macs) (set_order online))
            (fun mac =>
               match dict_get mac macs with
               | Some node_id => at_node node_id (mark_online now)
               | None => lift (Raise KeyError)
               end)
            nodes
      | (Raise e, _) => (Raise e, nodes)
      | (Unmodelled, _) => (Unmodelled, nodes)
      end
  | Raise e => (Raise e, nodes)
  | Unmodelled => (Unmodelled, nodes)
  end.

End Iteration.

(** ** [import_vis_clientcount] *)

(** One step of the chain of [filter] and [map] that feeds the [Counter]:
    the node a line counts for, if any. *)
Definition client_router (macs : mac_table) (d : value) : result (option string) :=
  label <- Py.get d "label" ;;
  if Py.is_str "TT" label then
    router <- Py.getitem d "router" ;;
    known <- Py.key_in router macs ;;
    if known then
      k <- Py.as_key router ;;
      match dict_get k macs with
      | Some node_id => Ok (Some node_id)
      | None => Raise KeyError
      end
    else Ok None
  else Ok None.

Fixpoint client_nodes (macs : mac_table) (vis_data : list value)
    : result (list string) :=
  match vis_data with
  | [] => Ok []
  | d :: rest =>
      o <- client_router macs d ;;
      r <- client_nodes macs rest ;;
      Ok (match o with Some node_id => node_id :: r | None => r end)
  end.

Definition import_vis_clientcount (nodes : store) (vis_data : list value)
    : result unit * store :=
  match build_mac_table nodes with
  | Ok macs =>
      match client_nodes macs vis_data with
      | Ok data =>
          for_each (Counter data)
            (fun item =>
               let (node_id, clientcount) := item in
               at_node node_id
                 (Py.at_key "statistics"
                    (Py.setdefault "clients" (VInt clientcount) ;;; ret tt)))
            nodes
      | Raise e => (Raise e, nodes)
      | Unmodelled => (Unmodelled, nodes)
      end
  | Raise e => (Raise e, nodes)
  | Unmodelled => (Unmodelled, nodes)
  end.

End Nodes.

(* ===================================================================== *)
(** * Vocabulary of the statements *)
(* ===================================================================== *)

(** [v[k]], when [v] is a dict that has the key [k]. *)
Definition field (k : string) (v : value) : option value :=
  match v with
  | VDict d => dict_get k d
  | _ => None
  end.

(** [node['flags'][f]]. *)
Definition flag (f : string) (node : value) : option value :=
  match field "flags" node with
  | Some flags => field f flags
  | None => None
  end.

(** [node['statistics'][k]]. *)
Definition statistic (k : string) (node : value) : option value :=
  match field "statistics" node with
  | Some s => field k s
  | None => None
  end.

(** A node record as the NodeInfo import leaves it: a dict whose [flags]
    is a dict. *)
Definition is_record (node : value) : Prop :=
  exists fields flags,
    node = VDict fields /\ dict_get "flags" fields = Some (VDict flags).

(** Two records that differ at most in [nodeinfo], [flags.online] and
    [flags.uplink]. *)
Definition same_outside_nodeinfo (node node' : value) : Prop :=
  (forall k, k <> "nodeinfo" -> k <> "flags" -> field k node' = field k node) /\
  (forall f, f <> "online" -> f <> "uplink" -> flag f node' = flag f node).

(** The age of a record at [now] in whole days, when the record has a
    [lastseen] that [strptime] reads. *)
Definition age (now : DateTime.datetime) (node : value) : option Z :=
  match field "lastseen" node with
  | Some s =>
      match DateTime.strptime s with
      | Ok t => Some (DateTime.sub_days now t)
      | _ => None
      end
  | None => None
  end.

(** The records age-based pruning keeps: those younger than [days]. *)
Definition kept (now : DateTime.datetime) (days : Z) (node : value) : bool :=
  match age now node with
  | Some a => a <? days
  | None => false
  end.

(** A record whose [lastseen], if it has one, is a timestamp. *)
Definition dated (node : value) : Prop :=
  exists d, node = VDict d /\
    (dict_get "lastseen" d = None \/
     exists s t, dict_get "lastseen" d = Some s /\ DateTime.strptime s = Ok t).

(** A vis line that is a client-table entry of the node: its label is
    ["TT"] and its router is an address of the node. *)
Definition client_entry (macs : Nodes.mac_table) (node_id : string) (line : value) : bool :=
  match field "label" line, field "router" line with
  | Some (VStr l), Some (VStr r) =>
      String.eqb l "TT" &&
      match dict_get r macs with
      | Some owner => String.eqb owner node_id
      | None => false
      end
  | _, _ => false
  end.

(** The number of client-table entries of the node in the vis data. *)
Definition client_count (macs : Nodes.mac_table) (node_id : string)
    (vis_data : list value) : Z :=
  Z.of_nat (List.length (filter (client_entry macs node_id) vis_data)).

(** A record that already has a client count keeps its state. *)
Definition clients_kept (node node' : value) : Prop :=
  (exists c, statistic "clients" node = Some c) -> node' = node.

(** ** Frames *)

(** [m] relates every state to the state it leaves, whatever the outcome. *)
Definition preserves {S A : Type} (R : S -> S -> Prop) (m : M S A) : Prop :=
  forall s, R s (snd (m s)).

(** A relation between records, read on stores: every record that was
    there is still there, related to what it was. *)
Definition each_node (R : value -> value -> Prop) (nodes nodes' : Nodes.store) : Prop :=
  forall node_id node,
    dict_get node_id nodes = Some node ->
    exists node', dict_get node_id nodes' = Some node' /\ R node node'.

(** ** Counting *)

Definition counter_step (c : dict Z) (x : string) : dict Z :=
  dict_set x (1 + match dict_get x c with Some n => n | None => 0 end) c.

Definition occurrences (x : string) (l : list string) : Z :=
  Z.of_nat (count_occ string_dec l x).

(** ** Online marking *)

(** A record as [mark_online] leaves it. *)
Definition marked (now : DateTime.datetime) (node : value) : Prop :=
  field "lastseen" node = Some (VStr (DateTime.isoformat now)) /\
  flag "online" node = Some (VBool true).

(** An iteration order of sets: each element of the set, once. *)
Definition set_iteration (set_order : Nodes.pyset -> list string) : Prop :=
  forall s, Permutation (set_order s) s.

(** A record that is marked stays marked. *)
Definition marked_stays (now : DateTime.datetime) (node node' : value) : Prop :=
  marked now node -> marked now node'.

(** ** Interface addresses *)

(** The strings of a list of values. *)
Definition strs (l : list value) : list string :=
  flat_map (fun v => match v with VStr s => [s] | _ => [] end) l.

Definition list_addresses (v : value) : list string :=
  match v with
  | VList l => strs l
  | _ => []
  end.

(** The addresses of one interface group: those of its per-type lists. *)
Definition group_addresses (upper_if : value) : list string :=
  match Py.getitem upper_if "interfaces" with
  | Ok (VDict types) => flat_map list_addresses (map snd types)
  | _ => []
  end.

(** The addresses a record reports in the flat shape,
    [nodeinfo.network.mesh_interfaces]. *)
Definition flat_addresses (node : value) : list string :=
  match Nodes.walk node ["nodeinfo"; "network"; "mesh_interfaces"] with
  | Ok v => list_addresses v
  | _ => []
  end.

(** The addresses a record reports in the nested shape,
    [nodeinfo.network.mesh.<group>.interfaces.<type>]. *)
Definition nested_addresses (node : value) : list string :=
  match Nodes.walk node ["nodeinfo"; "network"; "mesh"] with
  | Ok (VDict groups) => flat_map group_addresses (map snd groups)
  | _ => []
  end.

Definition addresses (node : value) : list string :=
  flat_addresses node ++ nested_addresses node.

(** A list of address strings. *)
Definition address_list (v : value) : Prop :=
  exists l, v = VList (map VStr l).

(** An interface group: a dict whose [interfaces] maps types to address
    lists. *)
Definition interface_group (upper_if : value) : Prop :=
  exists types,
    Py.getitem upper_if "interfaces" = Ok (VDict types) /\
    Forall address_list (map snd types).

(** A shape is absent when a key on the way to it is missing. *)
Definition shape (path : list string) (P : value -> Prop) (node : value) : Prop :=
  match Nodes.walk node path with
  | Ok v => P v
  | Raise KeyError => True
  | _ => False
  end.

(** A record whose two shapes are each well formed or absent. *)
Definition well_shaped (node : value) : Prop :=
  shape ["nodeinfo"; "network"; "mesh_interfaces"] address_list node /\
  shape ["nodeinfo"; "network"; "mesh"]
        (fun v => exists groups, v = VDict groups /\
                                 Forall interface_group (map snd groups))
        node.

(** The node the Address Index gives an address to: the last record, in
    the iteration order of the store, that reports it. *)
Fixpoint owner (a : string) (nodes : Nodes.store) : option string :=
  match nodes with
  | [] => None
  | (node_id, node) :: rest =>
      match owner a rest with
      | Some o => Some o
      | None => if Nodes.set_mem a (addresses node) then Some node_id else None
      end
  end.

(** [macs'] is [macs] with the addresses [l] given to [node_id]. *)
Definition writes (node_id : string) (l : list string) (macs macs' : Nodes.mac_table) : Prop :=
  forall a, dict_get a macs' = if Nodes.set_mem a l then Some node_id else dict_get a macs.

(** ** Uplink peers *)

(** A peer status that counts: not empty and with the key
    ["established"]. *)
Definition established (status : value) : bool :=
  match status with
  | VDict d => negb (match d with [] => true | _ => false end) && dict_mem "established" d
  | _ => false
  end.

(** What a peer map holds for a peer: [null] or a structured status. *)
Definition peer_status (status : value) : Prop :=
  status = VNone \/ exists d, status = VDict d.

(** The peers of a peer map that count, in the order of the map. *)
Definition established_peers (peers : list (string * value)) : list value :=
  map (fun kv => VStr (fst kv)) (filter (fun kv => established (snd kv)) peers).

(** [uplink_peers groups l]: [l] lists the uplink peers of the map of
    groups, depth first: for each group in the order of the map, its own
    peers that count, then those of the groups nested in it. *)
Inductive uplink_peers : value -> list value -> Prop :=
| uplink_peers_none :
    uplink_peers (VDict []) []
| uplink_peers_leaf (name : string) (g peers rest : list (string * value))
      (more : list value) :
    dict_get "peers" g = Some (VDict peers) ->
    NoDup (dict_keys peers) ->
    Forall peer_status (map snd peers) ->
    dict_get "groups" g = None ->
    uplink_peers (VDict rest) more ->
    uplink_peers (VDict ((name, VDict g) :: rest)) (established_peers peers ++ more)
| uplink_peers_nested (name : string) (g peers rest : list (string * value))
      (groups : value) (sub more : list value) :
    dict_get "peers" g = Some (VDict peers) ->
    NoDup (dict_keys peers) ->
    Forall peer_status (map snd peers) ->
    dict_get "groups" g = Some groups ->
    uplink_peers groups sub ->
    uplink_peers (VDict rest) more ->
    uplink_peers (VDict ((name, VDict g) :: rest))
                 (established_peers peers ++ sub ++ more).

(** The peer-group tree of the specification's example:
    [{peers: {"aa:bb": {established: true}},
      groups: {g2: {peers: {"cc:dd": {}}}}}]. *)
Definition example_group : value :=
  VDict [("peers", VDict [("aa:bb", VDict [("established", VBool true)])]);
         ("groups", VDict [("g2", VDict [("peers", VDict [("cc:dd", VDict [])])])])].

(** The uplink peers a statistics document yields:
    [check_uplink_recursive(stats['mesh_vpn']['groups'])]. *)
Definition derived_peers (stats : value) : result (list value) :=
  g <- Nodes.walk stats ["mesh_vpn"; "groups"] ;;
  Nodes.check_uplink_recursive g.

(** ** Statistics *)

(** What one extraction reads from a statistics document:
    [f(reduce(dict.__getitem__, source, stats))]. *)
Definition extracted (stats : value) (source : list string)
    (f : value -> result value) : result value :=
  d <- Py.reduce Py.dict_getitem source stats ;; f d.

(** The six extractions of the Statistics Importer: target field, source
    path, transform. *)
Definition extractions : list (string * list string * (value -> result value)) :=
  [("clients", ["clients"; "total"], Nodes.identity);
   ("uptime", ["uptime"], Nodes.identity);
   ("loadavg", ["loadavg"], Nodes.identity);
   ("memory_usage", ["memory"], Nodes.memory_usage);
   ("rootfs_usage", ["rootfs_usage"], Nodes.identity);
   ("traffic", ["traffic"], Nodes.identity)].

(** The faults an extraction takes for "value unavailable". *)
Definition handled_faults : list exn := [KeyError; TypeError; ZeroDivisionError].

(** [r] is a value or one of the exceptions [allowed]. *)
Definition raises_only {A : Type} (allowed : list exn) (r : result A) : Prop :=
  match r with
  | Ok _ => True
  | Raise e => In e allowed
  | Unmodelled => False
  end.

(** The statistics after one extraction: the target is written when the
    extraction gave a value. *)
Definition written (r : result value) (target : string)
    (statistics : list (string * value)) : list (string * value) :=
  match r with
  | Ok v => dict_set target v statistics
  | _ => statistics
  end.

(** [fields[k]] is a dict or is not there. *)
Definition dict_or_absent (k : string) (fields : list (string * value)) : Prop :=
  match dict_get k fields with
  | Some (VDict _) | None => True
  | Some _ => False
  end.

(** A record whose [flags] and [statistics], where it has them, are
    dicts. *)
Definition record_like (node : value) : Prop :=
  exists fields,
    node = VDict fields /\
    dict_or_absent "flags" fields /\ dict_or_absent "statistics" fields.

(** A record of that kind stays one. *)
Definition stays_record (node node' : value) : Prop :=
  record_like node -> record_like node'.

(** A statistics document the importer takes without an exception: a
    dict whose identifier, if any, is a string, whose memory figures do not
    overflow a float, and whose peer-group tree, if it has one, is walked
    to the end. *)
Definition sound_document (d : value) : Prop :=
  (exists fields, d = VDict fields /\
     (dict_get "node_id" fields = None \/
      exists node_id, dict_get "node_id" fields = Some (VStr node_id))) /\
  extracted d ["memory"] Nodes.memory_usage <> Raise OverflowError /\
  raises_only [KeyError] (derived_peers d).

(** The float [1.0]. *)
Definition float_one : spec_float := S754_finite false 4503599627370496 (-52).

(** ** Topology links *)

(** A vis line that links the secondary address [x] to the primary [p]:
    [{of: p, secondary: x}]. *)
Definition link (line : value) (p x : string) : Prop :=
  Py.contains "secondary" line = Ok true /\
  Py.getitem line "of" = Ok (VStr p) /\
  Py.getitem line "secondary" = Ok (VStr x).

(** The addresses found at one place of a record. *)
Definition path_addresses (node : value) (path : list string) : list string :=
  match Nodes.walk node path with
  | Ok v => list_addresses v
  | _ => []
  end.

(** The four places interface reconciliation reads. *)
Definition known_paths : list (list string) :=
  [["nodeinfo"; "network"; "mesh_interfaces"];
   ["nodeinfo"; "network"; "mesh"; "bat0"; "interfaces"; "wireless"];
   ["nodeinfo"; "network"; "mesh"; "bat0"; "interfaces"; "tunnel"];
   ["nodeinfo"; "network"; "mesh"; "bat0"; "interfaces"; "other"]].

(** The interface addresses a record is known to have. *)
Definition known_addresses (node : value) : list string :=
  flat_map (path_addresses node) known_paths.

(** A record whose four places each hold an address list or are absent. *)
Definition known_shapes (node : value) : Prop :=
  Forall (fun path => shape path address_list node) known_paths.

(** ** Frames of the stages *)

(** Two records with the same fields outside [keys] and the same flags
    outside [flags]. *)
Definition same_outside (keys flags : list string) (node node' : value) : Prop :=
  (forall k, ~ In k keys -> field k node' = field k node) /\
  (forall f, ~ In f flags -> flag f node' = flag f node).

(** A [firstseen] that is there stays what it is. *)
Definition keeps_firstseen (node node' : value) : Prop :=
  forall v, field "firstseen" node = Some v -> field "firstseen" node' = Some v.

(** ** A nodeinfo snapshot imported again *)

(** The identifier a document names, when it is a string. *)
Definition doc_id (d : value) : option string :=
  match Py.getitem d "node_id" with
  | Ok (VStr k) => Some k
  | _ => None
  end.

(** The last document of the list that names the node. *)
Fixpoint last_doc (node_id : string) (docs : list value) : option value :=
  match docs with
  | [] => None
  | d :: rest =>
      match last_doc node_id rest with
      | Some e => Some e
      | None =>
          match doc_id d with
          | Some k => if String.eqb k node_id then Some d else None
          | None => None
          end
      end
  end.

(** What the NodeInfo Importer does to the record of a document: the body
    of its loop after [nodes.setdefault]. *)
Definition record_update (now : DateTime.datetime) (assume_online : bool)
    (nodeinfo : value) : M value unit :=
  Py.setitem "nodeinfo" nodeinfo ;;;
  Py.at_key "flags" (Py.setitem "online" (VBool false)) ;;;
  Py.at_key "flags" (Py.setitem "uplink" (VBool false)) ;;;
  if assume_online then Nodes.mark_online now else ret tt.

(** A record as an import with these [now] and [assume_online] leaves it,
    its [nodeinfo] apart. *)
Definition settled (now : DateTime.datetime) (assume_online : bool) (node : value) : Prop :=
  exists fields flags,
    node = VDict fields /\
    dict_get "flags" fields = Some (VDict flags) /\
    dict_get "online" flags = Some (VBool assume_online) /\
    dict_get "uplink" flags = Some (VBool false) /\
    (assume_online = true ->
     dict_get "lastseen" fields = Some (VStr (DateTime.isoformat now)) /\
     exists first, dict_get "firstseen" fields = Some first).

(** [nodes[d['node_id']]['nodeinfo'] = d], for a node that is there. *)
Definition set_nodeinfo (d : value) (nodes : Nodes.store) : Nodes.store :=
  match doc_id d with
  | Some node_id =>
      match dict_get node_id nodes with
      | Some (VDict fields) =>
          dict_set node_id (VDict (dict_set "nodeinfo" d fields)) nodes
      | _ => nodes
      end
  | None => nodes
  end.

(** ** The Address Index across the stages *)

(** Two records with the same [nodeinfo], or both without one. *)
Definition same_nodeinfo (node node' : value) : Prop :=
  Py.getitem node' "nodeinfo" = Py.getitem node "nodeinfo".

(** Two stores with the same identifiers in the same order and, under
    each, records related by [R]. *)
Definition aligned (R : value -> value -> Prop) (nodes nodes' : Nodes.store) : Prop :=
  Forall2 (fun a b => fst a = fst b /\ R (snd a) (snd b)) nodes nodes'.

(** A record on which [mark_online] at [now] changes nothing. *)
Definition seen (now : DateTime.datetime) (node : value) : Prop :=
  exists fields flags first,
    node = VDict fields /\
    dict_get "lastseen" fields = Some (VStr (DateTime.isoformat now)) /\
    dict_get "firstseen" fields = Some first /\
    dict_get "flags" fields = Some (VDict flags) /\
    dict_get "online" flags = Some (VBool true).

(** ** A list of statistics documents *)

(** What the target of an extraction holds after the documents of the list
    have been imported in turn, given what it held before: the value read
    from the last document that names the node and yields one. *)
Definition imported (node_id : string) (source : list string)
    (f : value -> result value) (docs : list value) (before : option value)
    : option value :=
  fold_left
    (fun held d =>
       match doc_id d with
       | Some k =>
           if String.eqb k node_id
           then match extracted d source f with
                | Ok v => Some v
                | _ => held
                end
           else held
       | None => held
       end)
    docs before.

(** ** Interface reconciliation, group by group *)

(** The record with [l] as its interface-address list:
    [node['nodeinfo']['network']['mesh_interfaces'] = l]. *)
Definition with_interfaces (l : list string) (node : value) : value :=
  match node with
  | VDict fields =>
      match dict_get "nodeinfo" fields with
      | Some (VDict ni) =>
          match dict_get "network" ni with
          | Some (VDict nw) =>
              VDict (dict_set "nodeinfo"
                       (VDict (dict_set "network"
                                 (VDict (dict_set "mesh_interfaces"
                                           (VList (map VStr l)) nw))
                                 ni))
                       fields)
          | _ => node
          end
      | _ => node
      end
  | _ => node
  end.

(** A record the reconciliation can write to: its [nodeinfo.network] is
    there and the four places hold address lists or are absent. *)
Definition reconcilable (node : value) : Prop :=
  known_shapes node /\
  exists fields ni nw,
    node = VDict fields /\
    dict_get "nodeinfo" fields = Some (VDict ni) /\
    dict_get "network" ni = Some (VDict nw).

(** What the reconciliation does with one group.  If none of its
    addresses is in the Address Index the store stays as it is.  Otherwise
    the record of one of the addresses that are in the index gets, as its
    interface-address list, the addresses it was known to have together
    with those of the group, each once. *)
Definition reconciles (macs : Nodes.mac_table) (group : Nodes.pyset)
    (nodes nodes' : Nodes.store) : Prop :=
  ((forall x, In x group -> dict_get x macs = None) /\ nodes' = nodes) \/
  (exists x node_id node l,
      In x group /\
      dict_get x macs = Some node_id /\
      dict_get node_id nodes = Some node /\
      NoDup l /\
      (forall y, In y l <-> In y (known_addresses node) \/ In y group) /\
      nodes' = dict_set node_id (with_interfaces l node) nodes).

(** The groups reconciled one after the other, each on the store the one
    before it left. *)
Inductive reconciled (macs : Nodes.mac_table)
    : list Nodes.pyset -> Nodes.store -> Nodes.store -> Prop :=
| reconciled_nil (nodes : Nodes.store) :
    reconciled macs [] nodes nodes
| reconciled_cons (group : Nodes.pyset) (groups : list Nodes.pyset)
      (nodes nodes1 nodes' : Nodes.store) :
    reconciles macs group nodes nodes1 ->
    reconciled macs groups nodes1 nodes' ->
    reconciled macs (group :: groups) nodes nodes'.

(* ===================================================================== *)
(** * Dictionaries: lookup after update *)
(* ===================================================================== *)

Section DictFacts.

Context {A : Type}.
Implicit Types (d : dict A) (k : string) (v : A).

Lemma dict_get_set_same k v d : dict_get k (dict_set k v d) = Some v.
Proof.
  induction d as [|[k' v'] d IH]; simpl.
  - now rewrite String.eqb_refl.
  - destruct (String.eqb k k') eqn:E; simpl; rewrite E; auto.
Qed.

Lemma dict_get_set_other k k' v d :
  k' <> k -> dict_get k' (dict_set k v d) = dict_get k' d.
Proof.
  intros N. induction d as [|[k0 v0] d IH]; simpl.
  - destruct (String.eqb k' k) eqn:E; auto.
    apply String.eqb_eq in E. contradiction.
  - destruct (String.eqb k k0) eqn:E; simpl.
    + apply String.eqb_eq in E. subst k0.
      destruct (String.eqb k' k) eqn:E'; auto.
      apply String.eqb_eq in E'. contradiction.
    + destruct (String.eqb k' k0); auto.
Qed.

Lemma dict_get_set k k' v d :
  dict_get k' (dict_set k v d) = if String.eqb k' k then Some v else dict_get k' d.
Proof.
  destruct (String.eqb k' k) eqn:E.
  - apply String.eqb_eq in E. subst. apply dict_get_set_same.
  - apply String.eqb_neq in E. now apply dict_get_set_other.
Qed.

(** Writing back what is already there changes nothing. *)
Lemma dict_set_same k v d : dict_get k d = Some v -> dict_set k v d = d.
Proof.
  induction d as [|[k' v'] d IH]; simpl; [discriminate|].
  destruct (String.eqb k k') eqn:E.
  - intros [= ->]. reflexivity.
  - intros H. now rewrite IH.
Qed.

Lemma dict_mem_set k k' v d :
  dict_mem k' (dict_set k v d) = String.eqb k' k || dict_mem k' d.
Proof.
  unfold dict_mem. rewrite dict_get_set. destruct (String.eqb k' k); auto.
Qed.

Lemma dict_get_In k v d : dict_get k d = Some v -> In (k, v) d.
Proof.
  induction d as [|[k' v'] d IH]; simpl; [discriminate|].
  destruct (String.eqb k k') eqn:E.
  - apply String.eqb_eq in E. intros [= ->]. subst. now left.
  - intros H. right. auto.
Qed.

Lemma dict_get_None_keys k d : dict_get k d = None <-> ~ In k (dict_keys d).
Proof.
  induction d as [|[k' v'] d IH]; simpl.
  - tauto.
  - destruct (String.eqb k k') eqn:E.
    + apply String.eqb_eq in E. subst. split; [discriminate|]. intros H. exfalso. apply H. now left.
    + apply String.eqb_neq in E. rewrite IH. split.
      * intros H [H1|H1]; [congruence|auto].
      * intros H H1. apply H. now right.
Qed.

Lemma In_dict_get k v d : NoDup (dict_keys d) -> In (k, v) d -> dict_get k d = Some v.
Proof.
  induction d as [|[k' v'] d IH]; simpl; [tauto|].
  intros ND [H|H].
  - injection H as -> ->. now rewrite String.eqb_refl.
  - inversion ND as [|? ? Hn ND']; subst.
    destruct (String.eqb k k') eqn:E.
    + apply String.eqb_eq in E. subst. exfalso. apply Hn.
      change k' with (fst (k', v)). now apply in_map.
    + auto.
Qed.

Lemma dict_keys_set k v d :
  dict_keys (dict_set k v d) = if dict_mem k d then dict_keys d else dict_keys d ++ [k].
Proof.
  unfold dict_mem. induction d as [|[k' v'] d IH]; simpl; auto.
  destruct (String.eqb k k') eqn:E; simpl; auto.
  rewrite IH. destruct (dict_get k d); auto.
Qed.

Lemma dict_get_del k k' d :
  dict_get k' (dict_del k d) = if String.eqb k' k then None else dict_get k' d.
Proof.
  induction d as [|[k0 v0] d IH]; simpl.
  - now destruct (String.eqb k' k).
  - destruct (String.eqb k k0) eqn:E.
    + apply String.eqb_eq in E. subst k0. rewrite IH.
      destruct (String.eqb k' k); auto.
    + simpl. rewrite IH. destruct (String.eqb k' k0) eqn:E0; auto.
      apply String.eqb_eq in E0. subst k0.
      rewrite String.eqb_sym in E. now rewrite E.
Qed.

End DictFacts.

(* ===================================================================== *)
(** * Computations that keep a relation between the state before and after *)
(* ===================================================================== *)


Section Preserves.

Context {S : Type} (R : S -> S -> Prop).
Hypothesis R_refl : forall s, R s s.
Hypothesis R_trans : forall a b c, R a b -> R b c -> R a c.

Lemma preserves_ret {A : Type} (a : A) : preserves R (ret a).
Proof. intros s. apply R_refl. Qed.

Lemma preserves_lift {A : Type} (r : result A) : preserves R (lift r).
Proof. intros s. apply R_refl. Qed.

Lemma preserves_bind {A B : Type} (m : M S A) (k : A -> M S B) :
  preserves R m -> (forall a, preserves R (k a)) -> preserves R (bind m k).
Proof.
  intros Hm Hk s. unfold bind. specialize (Hm s).
  destruct (m s) as [[a| e |] s']; simpl in *; auto.
  eapply R_trans; [exact Hm | apply Hk].
Qed.

Lemma preserves_for_each {A : Type} (l : list A) (body : A -> M S unit) :
  (forall x, In x l -> preserves R (body x)) -> preserves R (for_each l body).
Proof.
  induction l as [|x l IH]; intros H; simpl.
  - apply preserves_ret.
  - apply preserves_bind.
    + apply H. now left.
    + intros _. apply IH. intros y Hy. apply H. now right.
Qed.

Lemma preserves_try_except (handled : list exn) (m : M S unit) :
  preserves R m -> preserves R (try_except handled m).
Proof.
  intros Hm s. unfold try_except. specialize (Hm s).
  destruct (m s) as [[a| e |] s']; simpl in *; auto.
  destruct (existsb (exn_eqb e) handled); auto.
Qed.

Lemma preserves_if {A : Type} (b : bool) (m1 m2 : M S A) :
  preserves R m1 -> preserves R m2 -> preserves R (if b then m1 else m2).
Proof. destruct b; auto. Qed.

End Preserves.


Lemma each_node_refl (R : value -> value -> Prop) :
  (forall v, R v v) -> forall s, each_node R s s.
Proof. intros H s id node Hg. eauto. Qed.

Lemma each_node_trans (R : value -> value -> Prop) :
  (forall a b c, R a b -> R b c -> R a c) ->
  forall a b c, each_node R a b -> each_node R b c -> each_node R a c.
Proof.
  intros H a b c Hab Hbc id node Hg.
  destruct (Hab _ _ Hg) as (n1 & H1 & R1).
  destruct (Hbc _ _ H1) as (n2 & H2 & R2).
  eauto.
Qed.

Lemma preserves_at_node {A : Type} (R : value -> value -> Prop) (node_id : string)
    (m : M value A) :
  (forall v, R v v) -> preserves R m -> preserves (each_node R) (Nodes.at_node node_id m).
Proof.
  intros Hrefl Hm nodes. unfold Nodes.at_node.
  destruct (dict_get node_id nodes) as [node|] eqn:E; simpl.
  - specialize (Hm node). destruct (m node) as [r node']; simpl in *.
    intros id n Hg. rewrite dict_get_set.
    destruct (String.eqb id node_id) eqn:E'.
    + apply String.eqb_eq in E'. subst. rewrite E in Hg. injection Hg as <-. eauto.
    + eauto.
  - now apply each_node_refl.
Qed.

(** The effect of [at_key] on the parent, given the effect on the child. *)
Lemma at_key_dict {A : Type} (k : string) (m : M value A) (d : list (string * value))
    (child : value) :
  dict_get k d = Some child ->
  Py.at_key k m (VDict d) = (fst (m child), VDict (dict_set k (snd (m child)) d)).
Proof.
  intros H. unfold Py.at_key. simpl. rewrite H. now destruct (m child).
Qed.

Lemma at_key_missing {A : Type} (k : string) (m : M value A) (d : list (string * value)) :
  dict_get k d = None -> Py.at_key k m (VDict d) = (Raise KeyError, VDict d).
Proof. intros H. unfold Py.at_key. simpl. now rewrite H. Qed.

Lemma at_key_not_dict {A : Type} (k : string) (m : M value A) (c : value) :
  (forall d, c <> VDict d) -> Py.at_key k m c = (Raise TypeError, c).
Proof. intros H. destruct c; try reflexivity. now destruct (H d). Qed.

Lemma field_set (k k' : string) (v : value) (d : list (string * value)) :
  field k' (VDict (dict_set k v d)) = if String.eqb k' k then Some v else field k' (VDict d).
Proof. simpl. apply dict_get_set. Qed.

(* ===================================================================== *)
(** * NodeInfo import *)
(* ===================================================================== *)

Lemma same_outside_nodeinfo_refl v : same_outside_nodeinfo v v.
Proof. split; auto. Qed.

Lemma same_outside_nodeinfo_trans a b c :
  same_outside_nodeinfo a b -> same_outside_nodeinfo b c -> same_outside_nodeinfo a c.
Proof.
  intros [H1 H2] [H3 H4]. split; intros k N1 N2.
  - now rewrite H3, H1.
  - now rewrite H4, H2.
Qed.

Lemma flag_set_other_field (k : string) (v : value) (d : list (string * value)) (f : string) :
  k <> "flags" -> flag f (VDict (dict_set k v d)) = flag f (VDict d).
Proof.
  intros N. unfold flag. rewrite field_set.
  destruct (String.eqb "flags" k) eqn:E; auto.
  apply String.eqb_eq in E. congruence.
Qed.

Lemma setitem_nodeinfo_frame (doc : value) :
  preserves same_outside_nodeinfo (Py.setitem "nodeinfo" doc).
Proof.
  intros node. destruct node; try apply same_outside_nodeinfo_refl.
  unfold Py.setitem. cbn [snd]. split.
  - intros k N1 N2. rewrite field_set.
    destruct (String.eqb k "nodeinfo") eqn:E; auto.
    apply String.eqb_eq in E. contradiction.
  - intros f _ _. apply flag_set_other_field. discriminate.
Qed.

Lemma setitem_flag_frame (f : string) (v : value) :
  f = "online" \/ f = "uplink" ->
  preserves same_outside_nodeinfo (Py.at_key "flags" (Py.setitem f v)).
Proof.
  intros Hf node. destruct node as [| | | | | |d]; try apply same_outside_nodeinfo_refl.
  destruct (dict_get "flags" d) as [flags|] eqn:E.
  - rewrite (at_key_dict _ _ _ _ E). cbn [snd]. split.
    + intros k N1 N2. rewrite field_set.
      destruct (String.eqb k "flags") eqn:E'; auto.
      apply String.eqb_eq in E'. contradiction.
    + intros g N1 N2. unfold flag. rewrite field_set. simpl. rewrite E.
      destruct flags; simpl; auto.
      rewrite dict_get_set. destruct (String.eqb g f) eqn:E'; auto.
      apply String.eqb_eq in E'. subst g. destruct Hf; contradiction.
  - rewrite (at_key_missing _ _ _ E). apply same_outside_nodeinfo_refl.
Qed.

Lemma get_or_create_frame (R : value -> value -> Prop) (node_id : string) :
  (forall v, R v v) -> preserves (each_node R) (Nodes.get_or_create node_id).
Proof.
  intros Hrefl nodes. unfold Nodes.get_or_create, modify. simpl.
  unfold dict_mem. destruct (dict_get node_id nodes) eqn:E.
  - now apply each_node_refl.
  - intros id node Hg. exists node. split; auto.
    rewrite dict_get_set. destruct (String.eqb id node_id) eqn:E'; auto.
    apply String.eqb_eq in E'. subst. congruence.
Qed.

Lemma import_nodeinfo_doc_frame (now : DateTime.datetime) (doc : value) :
  preserves (each_node same_outside_nodeinfo) (Nodes.import_nodeinfo_doc now false doc).
Proof.
  pose proof (each_node_refl _ same_outside_nodeinfo_refl) as Hr.
  pose proof (each_node_trans _ same_outside_nodeinfo_trans) as Ht.
  unfold Nodes.import_nodeinfo_doc.
  apply preserves_bind; [exact Ht | apply preserves_lift; exact Hr | ].
  intros node_id.
  apply preserves_bind;
    [exact Ht | apply get_or_create_frame, same_outside_nodeinfo_refl | ].
  intros _. apply preserves_at_node. { apply same_outside_nodeinfo_refl. }
  repeat (apply preserves_bind;
          [apply same_outside_nodeinfo_trans | | intros _]).
  - apply setitem_nodeinfo_frame.
  - apply setitem_flag_frame. now left.
  - apply setitem_flag_frame. now right.
  - apply preserves_ret. apply same_outside_nodeinfo_refl.
Qed.

(** C9.  Importing nodeinfo documents without assuming the nodes online
    touches, in a record that exists, nothing but [nodeinfo],
    [flags.online] and [flags.uplink]: every other field of the record
    ([lastseen], [firstseen], [statistics], ...) and every other flag is as
    it was, whatever the documents are and whether or not the import ends
    with an exception. *)
Theorem import_nodeinfo_frame :
  forall (nodes : Nodes.store) (nodeinfos : list value) (now : DateTime.datetime)
         (node_id : string) (node : value),
    dict_get node_id nodes = Some node ->
    exists node',
      dict_get node_id (snd (Nodes.import_nodeinfo nodes nodeinfos now false)) = Some node' /\
      field "lastseen" node' = field "lastseen" node /\
      field "firstseen" node' = field "firstseen" node /\
      field "statistics" node' = field "statistics" node /\
      same_outside_nodeinfo node node'.
Proof.
  intros nodes nodeinfos now node_id node Hg.
  pose proof (each_node_refl _ same_outside_nodeinfo_refl) as Hr.
  pose proof (each_node_trans _ same_outside_nodeinfo_trans) as Ht.
  assert (P : preserves (each_node same_outside_nodeinfo)
                (fun s => Nodes.import_nodeinfo s nodeinfos now false)).
  { unfold Nodes.import_nodeinfo. apply preserves_for_each; auto.
    intros d _.
    apply preserves_bind; [exact Ht | apply preserves_lift; exact Hr | ].
    intros has. apply preserves_if.
    - apply import_nodeinfo_doc_frame.
    - now apply preserves_ret. }
  destruct (P nodes _ _ Hg) as (node' & Hg' & HR).
  exists node'. split; [exact Hg'|].
  destruct HR as [HF HG].
  repeat split; auto; apply HF; discriminate.
Qed.

Lemma dict_set_set {A : Type} (k : string) (v v' : A) (d : dict A) :
  dict_set k v (dict_set k v' d) = dict_set k v d.
Proof.
  induction d as [|[k0 v0] d IH]; simpl.
  - now rewrite String.eqb_refl.
  - destruct (String.eqb k k0) eqn:E; simpl; rewrite E; auto. now rewrite IH.
Qed.

Lemma bind_ok {S A B : Type} (m : M S A) (k : A -> M S B) (s s' : S) (a : A) :
  m s = (Ok a, s') -> bind m k s = k a s'.
Proof. intros H. unfold bind. now rewrite H. Qed.

(** What [mark_online] does to a record. *)
Lemma mark_online_effect (now : DateTime.datetime) (fields flags : list (string * value)) :
  dict_get "flags" fields = Some (VDict flags) ->
  exists fields',
    Nodes.mark_online now (VDict fields) = (Ok tt, VDict fields') /\
    dict_get "lastseen" fields' = Some (VStr (DateTime.isoformat now)) /\
    dict_get "firstseen" fields' =
      Some (match dict_get "firstseen" fields with
            | Some v => v
            | None => VStr (DateTime.isoformat now)
            end) /\
    dict_get "flags" fields' = Some (VDict (dict_set "online" (VBool true) flags)) /\
    (forall k, k <> "lastseen" -> k <> "firstseen" -> k <> "flags" ->
               dict_get k fields' = dict_get k fields).
Proof.
  intros Hf. unfold Nodes.mark_online.
  set (iso := VStr (DateTime.isoformat now)).
  set (f1 := dict_set "lastseen" iso fields).
  assert (E1 : Py.setitem "lastseen" iso (VDict fields) = (Ok tt, VDict f1)) by reflexivity.
  rewrite (bind_ok _ _ _ _ _ E1).
  set (f2 := match dict_get "firstseen" fields with
             | Some _ => f1
             | None => dict_set "firstseen" iso f1
             end).
  assert (G1 : dict_get "firstseen" f1 = dict_get "firstseen" fields).
  { unfold f1. now rewrite dict_get_set. }
  assert (E2 : exists old, Py.setdefault "firstseen" iso (VDict f1) = (Ok old, VDict f2)).
  { unfold Py.setdefault, f2. rewrite G1.
    destruct (dict_get "firstseen" fields); eauto. }
  destruct E2 as [old E2]. rewrite (bind_ok _ _ _ _ _ E2).
  assert (G2 : forall k, k <> "firstseen" -> dict_get k f2 = dict_get k f1).
  { intros k N. unfold f2. destruct (dict_get "firstseen" fields); auto.
    now apply dict_get_set_other. }
  assert (G3 : dict_get "flags" f2 = Some (VDict flags)).
  { rewrite G2 by discriminate. unfold f1. now rewrite dict_get_set. }
  rewrite (at_key_dict _ _ _ _ G3). cbn [Py.setitem fst snd].
  eexists. split; [reflexivity|].
  repeat split.
  - rewrite dict_get_set. cbn [String.eqb Ascii.eqb Bool.eqb].
    rewrite G2 by discriminate. unfold f1. apply dict_get_set_same.
  - rewrite dict_get_set. cbn [String.eqb Ascii.eqb Bool.eqb].
    unfold f2. destruct (dict_get "firstseen" fields) eqn:E; [now rewrite G1|].
    apply dict_get_set_same.
  - apply dict_get_set_same.
  - intros k N1 N2 N3. rewrite dict_get_set_other by auto.
    rewrite G2 by auto. unfold f1. now apply dict_get_set_other.
Qed.

(** What the loop body of [import_nodeinfo] does to the record it finds
    or creates. *)
Lemma import_record_effect (now : DateTime.datetime) (assume_online : bool)
    (doc : value) (fields flags : list (string * value)) :
  dict_get "flags" fields = Some (VDict flags) ->
  exists fields',
    (Py.setitem "nodeinfo" doc ;;;
     Py.at_key "flags" (Py.setitem "online" (VBool false)) ;;;
     Py.at_key "flags" (Py.setitem "uplink" (VBool false)) ;;;
     if assume_online then Nodes.mark_online now else ret tt) (VDict fields)
    = (Ok tt, VDict fields') /\
    dict_get "nodeinfo" fields' = Some doc /\
    dict_get "flags" fields' =
      Some (VDict (dict_set "online" (VBool assume_online)
                     (dict_set "uplink" (VBool false)
                        (dict_set "online" (VBool false) flags)))) /\
    (assume_online = true ->
     dict_get "lastseen" fields' = Some (VStr (DateTime.isoformat now))).
Proof.
  intros Hf.
  set (f1 := dict_set "nodeinfo" doc fields).
  assert (E1 : Py.setitem "nodeinfo" doc (VDict fields) = (Ok tt, VDict f1)) by reflexivity.
  rewrite (bind_ok _ _ _ _ _ E1).
  assert (G1 : dict_get "flags" f1 = Some (VDict flags)).
  { unfold f1. now rewrite dict_get_set. }
  set (fl1 := dict_set "online" (VBool false) flags).
  set (f2 := dict_set "flags" (VDict fl1) f1).
  assert (E2 : Py.at_key "flags" (Py.setitem "online" (VBool false)) (VDict f1)
               = (Ok tt, VDict f2)).
  { now rewrite (at_key_dict _ _ _ _ G1). }
  rewrite (bind_ok _ _ _ _ _ E2).
  assert (G2 : dict_get "flags" f2 = Some (VDict fl1)) by apply dict_get_set_same.
  set (fl2 := dict_set "uplink" (VBool false) fl1).
  set (f3 := dict_set "flags" (VDict fl2) f2).
  assert (E3 : Py.at_key "flags" (Py.setitem "uplink" (VBool false)) (VDict f2)
               = (Ok tt, VDict f3)).
  { now rewrite (at_key_dict _ _ _ _ G2). }
  rewrite (bind_ok _ _ _ _ _ E3).
  assert (G3 : dict_get "flags" f3 = Some (VDict fl2)) by apply dict_get_set_same.
  assert (N3 : dict_get "nodeinfo" f3 = Some doc).
  { unfold f3, f2. rewrite !dict_get_set_other by discriminate. apply dict_get_set_same. }
  destruct assume_online.
  - destruct (mark_online_effect now f3 fl2 G3) as (f4 & E4 & L & _ & F & O).
    exists f4. repeat split; auto.
    rewrite O by discriminate. exact N3.
  - exists f3. repeat split; auto; try discriminate.
    rewrite G3. unfold fl2, fl1. f_equal. f_equal.
    symmetry. apply dict_set_same.
    rewrite dict_get_set_other by discriminate. apply dict_get_set_same.
Qed.

Lemma for_each_cons_run {S A : Type} (x : A) (l : list A) (body : A -> M S unit) (s : S) :
  for_each (x :: l) body s =
  match for_each [x] body s with
  | (Ok _, s') => for_each l body s'
  | other => other
  end.
Proof.
  simpl. unfold bind, ret. destruct (body x s) as [[[]| e |] s']; reflexivity.
Qed.

(** C4.  A nodeinfo document that carries a node identifier gets or
    creates the record of that node, stores the document as the record's
    [nodeinfo], and leaves [flags.online] equal to the assume-online
    argument and [flags.uplink] false; with assume-online the record's
    [lastseen] is the ISO form of the injected time.  A record created by
    the import has no other flag.  A document without identifier leaves
    the store as it is, and a list of documents is imported one document
    after the other. *)
Theorem import_nodeinfo_effect :
  (forall (nodes : Nodes.store) (doc : value) (node_id : string)
          (now : DateTime.datetime) (assume_online : bool),
      Py.getitem doc "node_id" = Ok (VStr node_id) ->
      (forall node, dict_get node_id nodes = Some node -> is_record node) ->
      exists fields flags,
        Nodes.import_nodeinfo nodes [doc] now assume_online
        = (Ok tt, dict_set node_id (VDict fields) nodes) /\
        dict_get "nodeinfo" fields = Some doc /\
        dict_get "flags" fields = Some (VDict flags) /\
        dict_get "online" flags = Some (VBool assume_online) /\
        dict_get "uplink" flags = Some (VBool false) /\
        (assume_online = true ->
         dict_get "lastseen" fields = Some (VStr (DateTime.isoformat now))) /\
        (dict_get node_id nodes = None ->
         forall f, f <> "online" -> f <> "uplink" -> dict_get f flags = None)) /\
  (forall (nodes : Nodes.store) (d : list (string * value))
          (now : DateTime.datetime) (assume_online : bool),
      dict_get "node_id" d = None ->
      Nodes.import_nodeinfo nodes [VDict d] now assume_online = (Ok tt, nodes)) /\
  (forall (nodes : Nodes.store) (doc : value) (rest : list value)
          (now : DateTime.datetime) (assume_online : bool),
      Nodes.import_nodeinfo nodes (doc :: rest) now assume_online =
      match Nodes.import_nodeinfo nodes [doc] now assume_online with
      | (Ok _, nodes') => Nodes.import_nodeinfo nodes' rest now assume_online
      | other => other
      end).
Proof.
  split; [|split].
  - intros nodes doc node_id now ao Hid Hrec.
    assert (Hc : Py.contains "node_id" doc = Ok true).
    { destruct doc; try discriminate. simpl in *. unfold dict_mem.
      destruct (dict_get "node_id" d); [reflexivity | discriminate]. }
    set (base := match dict_get node_id nodes with
                 | Some n => n
                 | None => VDict [("flags", VDict [])]
                 end).
    assert (Hbase : exists fields flags,
               base = VDict fields /\ dict_get "flags" fields = Some (VDict flags) /\
               (dict_get node_id nodes = None -> flags = [])).
    { unfold base. destruct (dict_get node_id nodes) as [n|] eqn:E.
      - destruct (Hrec n eq_refl) as (fs & fl & -> & Hfl).
        exists fs, fl. repeat split; auto. discriminate.
      - exists [("flags", VDict [])], []. repeat split; auto. }
    destruct Hbase as (fields & flags & Hb & Hfl & Hnew).
    destruct (import_record_effect now ao doc fields flags Hfl)
      as (fields' & Hrun & Hni & Hflags & Hls).
    exists fields'. eexists. split; [|repeat split; [exact Hni | exact Hflags | | | exact Hls | ]].
    + assert (Hdoc : Nodes.import_nodeinfo_doc now ao doc nodes
                     = (Ok tt, dict_set node_id (VDict fields') nodes)).
      { unfold Nodes.import_nodeinfo_doc.
        rewrite (bind_ok _ _ nodes nodes node_id)
          by (unfold lift; now rewrite Hid).
        rewrite (bind_ok _ _ nodes
                   (if dict_mem node_id nodes then nodes
                    else dict_set node_id (VDict [("flags", VDict [])]) nodes) tt)
          by reflexivity.
        unfold Nodes.at_node, dict_mem. fold base.
        destruct (dict_get node_id nodes) as [n|] eqn:E.
        - rewrite E. unfold base in Hb. subst n. now rewrite Hrun.
        - rewrite dict_get_set_same. unfold base in Hb. rewrite Hb, Hrun.
          now rewrite dict_set_set. }
      unfold Nodes.import_nodeinfo. cbn [for_each].
      rewrite (bind_ok _ _ nodes (dict_set node_id (VDict fields') nodes) tt);
        [reflexivity|].
      rewrite (bind_ok _ _ nodes nodes true) by (unfold lift; now rewrite Hc).
      exact Hdoc.
    + rewrite dict_get_set. cbn [String.eqb Ascii.eqb Bool.eqb]. reflexivity.
    + rewrite !dict_get_set. cbn [String.eqb Ascii.eqb Bool.eqb]. reflexivity.
    + intros Hn f N1 N2. rewrite (Hnew Hn).
      rewrite !dict_get_set_other by auto. reflexivity.
  - intros nodes d now ao Hd. unfold Nodes.import_nodeinfo. simpl.
    unfold bind, lift, dict_mem. now rewrite Hd.
  - intros nodes doc rest now ao. unfold Nodes.import_nodeinfo.
    apply for_each_cons_run.
Qed.

(* ===================================================================== *)
(** * Pruning by age *)
(* ===================================================================== *)

Lemma dict_del_filter {A : Type} (k : string) (d : dict A) :
  dict_del k d = filter (fun it => negb (String.eqb k (fst it))) d.
Proof.
  induction d as [|[k' v'] d IH]; simpl; auto.
  destruct (String.eqb k k'); simpl; now rewrite IH.
Qed.

Lemma fold_del_filter {A : Type} (p d : dict A) :
  fold_left (fun s it => dict_del (fst it) s) p d =
  filter (fun it => negb (existsb (fun q => String.eqb (fst q) (fst it)) p)) d.
Proof.
  revert d. induction p as [|q p IH]; intros d; simpl.
  - induction d as [|x d IHd]; simpl; congruence.
  - rewrite IH, dict_del_filter.
    induction d as [|x d IHd]; simpl; auto.
    destruct (String.eqb (fst q) (fst x)); simpl; rewrite IHd; auto.
Qed.

Lemma filterM_total {A : Type} (p : A -> result bool) (q : A -> bool) (l : list A) :
  (forall x, In x l -> p x = Ok (q x)) -> filterM p l = Ok (filter q l).
Proof.
  induction l as [|x l IH]; intros H; simpl; auto.
  rewrite (H x) by now left. simpl.
  rewrite IH by (intros y Hy; apply H; now right). simpl.
  now destruct (q x).
Qed.

Lemma NoDup_keys_same {A : Type} (d : dict A) (x y : string * A) :
  NoDup (dict_keys d) -> In x d -> In y d -> fst x = fst y -> x = y.
Proof.
  intros ND Hx Hy E. destruct x as [k a], y as [k' b]. simpl in E. subst k'.
  pose proof (In_dict_get _ _ _ ND Hx) as H1.
  pose proof (In_dict_get _ _ _ ND Hy) as H2.
  congruence.
Qed.

Lemma stale_dated (now : DateTime.datetime) (days : Z) (node : value) :
  dated node -> Nodes.stale now days node = Ok (negb (kept now days node)).
Proof.
  intros (d & -> & H). unfold Nodes.stale, kept, age. simpl. unfold dict_mem.
  destruct H as [H | (s & t & H & P)]; rewrite H; simpl; auto.
  rewrite P. simpl. f_equal.
  rewrite Z.geb_leb, Z.ltb_antisym. now rewrite negb_involutive.
Qed.

Lemma prune_nodes_filter (nodes : Nodes.store) (now : DateTime.datetime) (days : Z) :
  NoDup (dict_keys nodes) ->
  (forall node_id node, In (node_id, node) nodes -> dated node) ->
  Nodes.prune_nodes nodes now days
  = (Ok tt, filter (fun item => kept now days (snd item)) nodes).
Proof.
  intros ND Hd. unfold Nodes.prune_nodes.
  rewrite (filterM_total _ (fun item => negb (kept now days (snd item)))).
  2:{ intros [k v] Hin. apply stale_dated. eapply Hd; eauto. }
  f_equal. rewrite fold_del_filter. apply filter_ext_in.
  intros x Hx. destruct (kept now days (snd x)) eqn:K.
  - apply negb_true_iff. apply not_true_is_false. intros E.
    apply existsb_exists in E. destruct E as (q & Hq & Eq).
    apply filter_In in Hq. destruct Hq as [Hq Kq].
    apply String.eqb_eq in Eq.
    assert (q = x) by (eapply NoDup_keys_same; eauto). subst q.
    rewrite K in Kq. discriminate.
  - apply negb_false_iff. apply existsb_exists. exists x. split.
    + apply filter_In. split; auto. now rewrite K.
    + apply String.eqb_refl.
Qed.

Lemma kept_lastseen (now t : DateTime.datetime) (days : Z) (d : list (string * value))
    (s : value) :
  dict_get "lastseen" d = Some s -> DateTime.strptime s = Ok t ->
  kept now days (VDict d) = (DateTime.sub_days now t <? days).
Proof. intros H P. unfold kept, age. simpl. now rewrite H, P. Qed.

(** C2, amended.  On a store whose records are dicts with a readable
    [lastseen] or none, age-based pruning keeps, in their order, exactly
    the records that have a [lastseen] and whose age in whole days, the
    difference to [now] rounded down, is below the threshold.  So a record
    last seen exactly [days] days ago goes, one last seen a day less ago
    stays, a record without [lastseen] goes whatever the threshold, and
    the threshold zero removes every record last seen at or before
    [now]. *)
Theorem prune_nodes_by_age :
  (forall (nodes : Nodes.store) (now : DateTime.datetime) (days : Z),
      NoDup (dict_keys nodes) ->
      (forall node_id node, In (node_id, node) nodes -> dated node) ->
      Nodes.prune_nodes nodes now days
      = (Ok tt, filter (fun item => kept now days (snd item)) nodes)) /\
  (forall (now t : DateTime.datetime) (days : Z) (d : list (string * value)) (s : value),
      dict_get "lastseen" d = Some s -> DateTime.strptime s = Ok t ->
      (DateTime.microseconds now - DateTime.microseconds t = days * 86400000000 ->
       kept now days (VDict d) = false) /\
      (DateTime.microseconds now - DateTime.microseconds t = (days - 1) * 86400000000 ->
       kept now days (VDict d) = true) /\
      (DateTime.microseconds t <= DateTime.microseconds now ->
       kept now 0 (VDict d) = false)) /\
  (forall (now : DateTime.datetime) (days : Z) (d : list (string * value)),
      dict_get "lastseen" d = None -> kept now days (VDict d) = false).
Proof.
  split; [exact prune_nodes_filter | split].
  - intros now t days d s H P. rewrite (kept_lastseen now t days d s H P).
    rewrite (kept_lastseen now t 0 d s H P). unfold DateTime.sub_days.
    repeat split.
    + intros ->. rewrite Z.div_mul by lia. apply Z.ltb_irrefl.
    + intros ->. rewrite Z.div_mul by lia. apply Z.ltb_lt. lia.
    + intros L. apply Z.ltb_ge. apply Z.div_pos; lia.
  - intros now days d H. unfold kept, age. simpl. now rewrite H.
Qed.

(** C2, as stated, fails for a record last seen after [now]: one second
    ahead gives the difference [-1] days, which is below the threshold
    zero, and the record stays. *)
Example prune_nodes_zero_keeps_later_lastseen :
  Nodes.prune_nodes
    [("n1", VDict [("flags", VDict []); ("lastseen", VStr "2020-01-01T00:00:01")])]
    (DateTime.mk 2020 1 1 0 0 0 0) 0
  = (Ok tt,
     [("n1", VDict [("flags", VDict []); ("lastseen", VStr "2020-01-01T00:00:01")])]).
Proof. vm_compute. reflexivity. Qed.

(* ===================================================================== *)
(** * Client count from the vis data *)
(* ===================================================================== *)

Lemma clients_kept_refl v : clients_kept v v.
Proof. intros _. reflexivity. Qed.

Lemma clients_kept_trans a b c :
  clients_kept a b -> clients_kept b c -> clients_kept a c.
Proof.
  intros H1 H2 H. pose proof (H1 H). subst b. auto.
Qed.

Lemma setdefault_clients_kept (n : Z) :
  preserves clients_kept
    (Py.at_key "statistics" (Py.setdefault "clients" (VInt n) ;;; ret tt)).
Proof.
  intros node [c Hc]. unfold statistic in Hc.
  destruct node as [| | | | | |d]; try discriminate. simpl in Hc.
  destruct (dict_get "statistics" d) as [st|] eqn:E; [|discriminate].
  rewrite (at_key_dict _ _ _ _ E). cbn [snd].
  destruct st as [| | | | | |s]; try discriminate. simpl in Hc.
  unfold bind, Py.setdefault, ret. rewrite Hc. cbn [snd].
  now rewrite (dict_set_same _ _ _ E).
Qed.

Lemma import_vis_clientcount_frame (vis_data : list value) :
  preserves (each_node clients_kept) (fun s => Nodes.import_vis_clientcount s vis_data).
Proof.
  pose proof (each_node_refl _ clients_kept_refl) as Hr.
  pose proof (each_node_trans _ clients_kept_trans) as Ht.
  intros nodes. unfold Nodes.import_vis_clientcount.
  destruct (Nodes.build_mac_table nodes) as [macs| |]; cbn [snd]; auto.
  destruct (Nodes.client_nodes macs vis_data) as [data| |]; cbn [snd]; auto.
  apply (preserves_for_each _ Hr Ht). intros [node_id n] _.
  apply preserves_at_node; [apply clients_kept_refl | apply setdefault_clients_kept].
Qed.

(** ** The counter *)


Lemma counter_fold_get (l : list string) (c : dict Z) (x : string) :
  dict_get x (fold_left counter_step l c) =
  if occurrences x l =? 0 then dict_get x c
  else Some (occurrences x l + match dict_get x c with Some n => n | None => 0 end).
Proof.
  unfold occurrences. revert c. induction l as [|y l IH]; intros c; simpl; auto.
  rewrite IH. unfold counter_step. rewrite dict_get_set.
  destruct (string_dec y x) as [->|N].
  - rewrite String.eqb_refl.
    replace (Z.of_nat (S (count_occ string_dec l x)) =? 0) with false
      by (symmetry; apply Z.eqb_neq; lia).
    destruct (Z.of_nat (count_occ string_dec l x) =? 0) eqn:E.
    + apply Z.eqb_eq in E. f_equal. lia.
    + f_equal. lia.
  - destruct (String.eqb x y) eqn:E; [apply String.eqb_eq in E; congruence|].
    reflexivity.
Qed.

Lemma Counter_get (l : list string) (x : string) :
  dict_get x (Nodes.Counter l) =
  if occurrences x l =? 0 then None else Some (occurrences x l).
Proof.
  unfold Nodes.Counter. change (fun c x0 => dict_set x0 _ c) with counter_step.
  rewrite counter_fold_get. simpl. destruct (occurrences x l =? 0); auto.
  f_equal. lia.
Qed.

Lemma dict_set_NoDup {A : Type} (k : string) (v : A) (d : dict A) :
  NoDup (dict_keys d) -> NoDup (dict_keys (dict_set k v d)).
Proof.
  intros ND. rewrite dict_keys_set. unfold dict_mem.
  destruct (dict_get k d) eqn:E; auto.
  apply dict_get_None_keys in E.
  apply NoDup_app; [exact ND | constructor; [intros []|constructor] | ].
  intros x Hx [<-|[]]. contradiction.
Qed.

Lemma Counter_NoDup (l : list string) : NoDup (dict_keys (Nodes.Counter l)).
Proof.
  unfold Nodes.Counter.
  assert (G : forall c : dict Z, NoDup (dict_keys c) ->
              NoDup (dict_keys (fold_left counter_step l c))).
  { induction l as [|y l IH]; intros c ND; simpl; auto.
    apply IH. now apply dict_set_NoDup. }
  apply G. constructor.
Qed.

Lemma client_router_entry (macs : Nodes.mac_table) (node_id : string) (line : value)
    (o : option string) :
  Nodes.client_router macs line = Ok o ->
  client_entry macs node_id line =
  match o with Some owner => String.eqb owner node_id | None => false end.
Proof.
  unfold Nodes.client_router, client_entry.
  destruct line as [| | | | | |d]; try discriminate. simpl.
  destruct (dict_get "label" d) as [label|] eqn:L; simpl.
  2:{ intros [= <-]. reflexivity. }
  destruct label as [| | | |l| |]; simpl; try (intros [= <-]; reflexivity).
  destruct (String.eqb l "TT") eqn:T; simpl.
  2:{ intros [= <-]. now destruct (dict_get "router" d) as [[]|]. }
  destruct (dict_get "router" d) as [router|] eqn:Rt; simpl; [|discriminate].
  destruct router as [| | | |r| |]; simpl; try discriminate;
    try (intros [= <-]; reflexivity).
  unfold dict_mem. destruct (dict_get r macs) as [owner|]; simpl.
  - intros [= <-]. reflexivity.
  - intros [= <-]. reflexivity.
Qed.

Lemma client_nodes_count (macs : Nodes.mac_table) (node_id : string)
    (vis_data : list value) (data : list string) :
  Nodes.client_nodes macs vis_data = Ok data ->
  occurrences node_id data = client_count macs node_id vis_data.
Proof.
  unfold occurrences, client_count. revert data.
  induction vis_data as [|line vis IH]; intros data; simpl.
  - intros [= <-]. reflexivity.
  - destruct (Nodes.client_router macs line) as [o| |] eqn:E; simpl; try discriminate.
    destruct (Nodes.client_nodes macs vis) as [r| |]; simpl; try discriminate.
    intros [= <-]. rewrite (client_router_entry _ node_id _ _ E).
    specialize (IH r eq_refl).
    destruct o as [owner|]; auto. simpl.
    destruct (string_dec owner node_id) as [->|N].
    + rewrite String.eqb_refl. simpl. lia.
    + destruct (String.eqb owner node_id) eqn:E'; auto.
      apply String.eqb_eq in E'. contradiction.
Qed.

(** A loop that visits distinct records leaves each visited record as the
    one visit to it left it. *)
Lemma for_each_at_node_distinct {X : Type} (l : list (string * X))
    (m : X -> M value unit) (nodes nodes' : Nodes.store) :
  NoDup (map fst l) ->
  for_each l (fun it => let (k, x) := it in Nodes.at_node k (m x)) nodes = (Ok tt, nodes') ->
  forall k x, In (k, x) l ->
    exists node, dict_get k nodes = Some node /\
                 dict_get k nodes' = Some (snd (m x node)).
Proof.
  revert nodes. induction l as [|[k0 x0] l IH]; intros nodes ND Hrun k x Hin.
  - destruct Hin.
  - inversion ND as [|? ? Hn ND']; subst. simpl in Hrun. unfold bind in Hrun.
    destruct (Nodes.at_node k0 (m x0) nodes) as [[[]| e |] nodes1] eqn:E1;
      try discriminate.
    unfold Nodes.at_node in E1.
    destruct (dict_get k0 nodes) as [node0|] eqn:G0; [|discriminate].
    destruct (m x0 node0) as [r0 node0'] eqn:M0. injection E1 as -> <-.
    destruct Hin as [[= -> ->]|Hin].
    + exists node0. split; auto. rewrite M0. cbn [snd].
      assert (P : preserves (fun a b : Nodes.store => dict_get k b = dict_get k a)
                    (for_each l (fun it => let (k1, x1) := it in Nodes.at_node k1 (m x1)))).
      { apply preserves_for_each; [reflexivity | intros; congruence |].
        intros [k1 x1] H1 s. unfold Nodes.at_node.
        destruct (dict_get k1 s) as [n1|]; auto.
        destruct (m x1 n1). cbn [snd]. apply dict_get_set_other.
        intros ->. apply Hn. change k1 with (fst (k1, x1)). now apply in_map. }
      specialize (P (dict_set k node0' nodes)). rewrite Hrun in P. cbn [snd] in P.
      rewrite P. apply dict_get_set_same.
    + destruct (IH _ ND' Hrun k x Hin) as (node & G & G').
      assert (k <> k0).
      { intros ->. apply Hn. change k0 with (fst (k0, x)). now apply in_map. }
      rewrite dict_get_set_other in G by auto. eauto.
Qed.

(** C7.  The vis-derived client count never replaces a client count that
    is already there: a record whose statistics hold a [clients] value is
    left exactly as it was, whatever the vis data and whatever the outcome.
    When the import succeeds, a record whose statistics lack [clients] and
    that has at least one client-table entry gets the number of its
    entries. *)
Theorem import_vis_clientcount_first_writer_wins :
  (forall (nodes : Nodes.store) (vis_data : list value) (node_id : string)
          (node c : value),
      dict_get node_id nodes = Some node ->
      statistic "clients" node = Some c ->
      dict_get node_id (snd (Nodes.import_vis_clientcount nodes vis_data)) = Some node) /\
  (forall (nodes : Nodes.store) (vis_data : list value) (macs : Nodes.mac_table)
          (node_id : string) (fields stats : list (string * value)),
      Nodes.build_mac_table nodes = Ok macs ->
      fst (Nodes.import_vis_clientcount nodes vis_data) = Ok tt ->
      dict_get node_id nodes = Some (VDict fields) ->
      dict_get "statistics" fields = Some (VDict stats) ->
      dict_get "clients" stats = None ->
      0 < client_count macs node_id vis_data ->
      exists node',
        dict_get node_id (snd (Nodes.import_vis_clientcount nodes vis_data)) = Some node' /\
        statistic "clients" node' = Some (VInt (client_count macs node_id vis_data))).
Proof.
  split.
  - intros nodes vis node_id node c Hg Hc.
    destruct (import_vis_clientcount_frame vis nodes node_id node Hg) as (node' & Hg' & K).
    rewrite Hg'. f_equal. apply K. eauto.
  - intros nodes vis macs node_id fields stats Hm Hok Hg Hs Hc Hpos.
    unfold Nodes.import_vis_clientcount in *. rewrite Hm in *.
    destruct (Nodes.client_nodes macs vis) as [data| |] eqn:D; try discriminate.
    rewrite <- (client_nodes_count _ _ _ _ D) in *.
    destruct (for_each (Nodes.Counter data) _ nodes) as [r nodes'] eqn:Run.
    cbn [fst snd] in *. subst r.
    assert (Hin : In (node_id, occurrences node_id data) (Nodes.Counter data)).
    { apply dict_get_In. rewrite Counter_get.
      destruct (occurrences node_id data =? 0) eqn:Z; auto.
      apply Z.eqb_eq in Z. lia. }
    destruct (for_each_at_node_distinct (Nodes.Counter data)
                (fun n => Py.at_key "statistics" (Py.setdefault "clients" (VInt n) ;;; ret tt))
                nodes nodes' (Counter_NoDup data) Run _ _ Hin) as (node & G & G').
    rewrite Hg in G. injection G as <-.
    eexists. split; [exact G'|].
    rewrite (at_key_dict _ _ _ _ Hs). cbn [snd].
    unfold bind, Py.setdefault, ret. rewrite Hc. cbn [snd].
    unfold statistic. rewrite field_set. simpl.
    apply dict_get_set_same.
Qed.

(** The example of the specification: the Statistics Importer has set
    [clients] to 5, three client-table entries of the node follow, and the
    count stays 5. *)
Example import_vis_clientcount_keeps_five :
  let node :=
    VDict [("flags", VDict []);
           ("nodeinfo", VDict [("network", VDict [("mesh_interfaces", VList [VStr "A"])])]);
           ("statistics", VDict [("clients", VInt 5)])] in
  let entry := VDict [("label", VStr "TT"); ("router", VStr "A")] in
  Nodes.import_vis_clientcount [("n1", node)] [entry; entry; entry]
  = (Ok tt, [("n1", node)]).
Proof. vm_compute. reflexivity. Qed.

(* ===================================================================== *)
(** * Online marking from the vis data *)
(* ===================================================================== *)

Lemma set_add_In (k x : string) (s : Nodes.pyset) :
  In x (Nodes.set_add k s) <-> x = k \/ In x s.
Proof.
  unfold Nodes.set_add, Nodes.set_mem.
  destruct (existsb (String.eqb k) s) eqn:E.
  - split; auto. intros [->|H]; auto.
    apply existsb_exists in E. destruct E as (y & Hy & Ey).
    apply String.eqb_eq in Ey. now subst.
  - rewrite in_app_iff. simpl. intuition.
Qed.

Lemma set_add_NoDup (k : string) (s : Nodes.pyset) :
  NoDup s -> NoDup (Nodes.set_add k s).
Proof.
  intros ND. unfold Nodes.set_add, Nodes.set_mem.
  destruct (existsb (String.eqb k) s) eqn:E; auto.
  apply NoDup_app; [exact ND | constructor; [intros []|constructor] | ].
  intros x Hx [<-|[]].
  assert (existsb (String.eqb k) s = true); [|congruence].
  apply existsb_exists. exists k. split; auto. apply String.eqb_refl.
Qed.

Lemma as_key_ok (v : value) (k : string) : Py.as_key v = Ok k <-> v = VStr k.
Proof.
  split.
  - destruct v; simpl; try discriminate. now intros [= ->].
  - now intros ->.
Qed.

(** The active set holds exactly the addresses the lines contribute. *)
Lemma online_set_In (vis_data : list value) (online : Nodes.pyset) :
  Nodes.online_set vis_data = (Ok tt, online) ->
  forall x, In x online <->
            exists line, In line vis_data /\
                         Nodes.active_address line = Ok (Some (VStr x)).
Proof.
  unfold Nodes.online_set.
  assert (G : forall s0 s,
             for_each vis_data
               (fun line =>
                  a <~ lift (Nodes.active_address line) ;;
                  match a with
                  | Some v => k <~ lift (Py.as_key v) ;; modify (Nodes.set_add k)
                  | None => ret tt
                  end) s0 = (Ok tt, s) ->
             forall x, In x s <->
                       In x s0 \/
                       exists line, In line vis_data /\
                                    Nodes.active_address line = Ok (Some (VStr x))).
  { induction vis_data as [|line vis IH]; intros s0 s Hrun x.
    - simpl in Hrun. injection Hrun as <-. split; auto. intros [H|(l & [] & _)]; auto.
    - simpl in Hrun. unfold bind at 1 in Hrun. unfold bind at 1, lift at 1 in Hrun.
      destruct (Nodes.active_address line) as [[v|]| |] eqn:A; try discriminate.
      + unfold bind at 1, lift at 1 in Hrun.
        destruct (Py.as_key v) as [k| |] eqn:K; try discriminate.
        apply as_key_ok in K. subst v. unfold modify in Hrun.
        rewrite (IH _ _ Hrun x), set_add_In. split.
        * intros [[->|H]|(l & Hl & Al)]; eauto.
          -- right. exists line. split; auto. now left.
          -- right. exists l. split; auto. now right.
        * intros [H|(l & [<-|Hl] & Al)]; eauto.
          rewrite A in Al. injection Al as <-. auto.
      + unfold ret in Hrun. rewrite (IH _ _ Hrun x). split.
        * intros [H|(l & Hl & Al)]; eauto.
          right. exists l. split; auto. now right.
        * intros [H|(l & [<-|Hl] & Al)]; eauto.
          rewrite A in Al. discriminate. }
  intros Hrun x. rewrite (G _ _ Hrun x). split; auto. intros [[]|H]; auto.
Qed.

Lemma mark_online_unfold (now : DateTime.datetime) (fields : list (string * value)) :
  exists fields2,
    Nodes.mark_online now (VDict fields)
    = Py.at_key "flags" (Py.setitem "online" (VBool true)) (VDict fields2) /\
    dict_get "flags" fields2 = dict_get "flags" fields.
Proof.
  unfold Nodes.mark_online, bind. cbn [Py.setitem Py.setdefault].
  destruct (dict_get "firstseen" (dict_set "lastseen" _ fields)) eqn:E1;
    eexists; (split; [reflexivity|]).
  - now rewrite dict_get_set_other by discriminate.
  - now rewrite !dict_get_set_other by discriminate.
Qed.

Lemma mark_online_marked (now : DateTime.datetime) (node node' : value) :
  Nodes.mark_online now node = (Ok tt, node') -> marked now node'.
Proof.
  intros H. destruct node as [| | | | | |fields]; try discriminate.
  destruct (dict_get "flags" fields) as [flags|] eqn:F.
  - destruct flags as [| | | | | |fl].
    7:{ destruct (mark_online_effect now fields fl F) as (f' & E & L & _ & O & _).
        rewrite E in H. injection H as <-. split; auto.
        unfold flag. simpl. rewrite O. simpl. apply dict_get_set_same. }
    all: exfalso; destruct (mark_online_unfold now fields) as (f2 & E & G);
      rewrite E in H; rewrite F in G;
      rewrite (at_key_dict _ _ _ _ G) in H; discriminate.
  - exfalso. destruct (mark_online_unfold now fields) as (f2 & E & G).
    rewrite E in H. rewrite F in G. rewrite (at_key_missing _ _ _ G) in H.
    discriminate.
Qed.

Lemma mark_online_stays (now : DateTime.datetime) :
  preserves (marked_stays now) (Nodes.mark_online now).
Proof.
  intros node [L O]. unfold flag in O.
  destruct node as [| | | | | |fields]; try discriminate. simpl in L, O.
  destruct (dict_get "flags" fields) as [flags|] eqn:F; [|discriminate].
  destruct flags as [| | | | | |fl]; try discriminate.
  destruct (mark_online_effect now fields fl F) as (f' & E & L' & _ & O' & _).
  rewrite E. cbn [snd]. split; auto.
  unfold flag. simpl. rewrite O'. simpl. apply dict_get_set_same.
Qed.

Section OnlineLoop.

Variables (macs : Nodes.mac_table) (now : DateTime.datetime).

Let body (mac : string) : M Nodes.store unit :=
  match dict_get mac macs with
  | Some node_id => Nodes.at_node node_id (Nodes.mark_online now)
  | None => lift (Raise KeyError)
  end.

Lemma online_loop_marks (l : list string) (nodes nodes' : Nodes.store) :
  for_each l body nodes = (Ok tt, nodes') ->
  forall mac node_id, In mac l -> dict_get mac macs = Some node_id ->
    exists node', dict_get node_id nodes' = Some node' /\ marked now node'.
Proof.
  revert nodes. induction l as [|mac0 l IH]; intros nodes Hrun mac node_id Hin Hm.
  - destruct Hin.
  - simpl in Hrun. unfold bind in Hrun.
    destruct (body mac0 nodes) as [[[]| e |] nodes1] eqn:E1; try discriminate.
    destruct Hin as [->|Hin]; [|eauto].
    unfold body in E1. rewrite Hm in E1. unfold Nodes.at_node in E1.
    destruct (dict_get node_id nodes) as [node|] eqn:G; [|discriminate].
    destruct (Nodes.mark_online now node) as [r n1] eqn:M1.
    injection E1 as -> <-. apply mark_online_marked in M1.
    assert (P : preserves (each_node (marked_stays now)) (for_each l body)).
    { apply preserves_for_each.
      - apply each_node_refl. now intros v H.
      - apply each_node_trans. intros a b c H1 H2 H. auto.
      - intros x _. unfold body. destruct (dict_get x macs).
        + apply preserves_at_node; [now intros v H | apply mark_online_stays].
        + apply preserves_lift, each_node_refl. now intros v H. }
    specialize (P (dict_set node_id n1 nodes) node_id n1 (dict_get_set_same _ _ _)).
    rewrite Hrun in P. destruct P as (node' & G' & S). eauto.
Qed.

Lemma online_loop_frame (l : list string) (node_id : string) :
  (forall mac, In mac l -> dict_get mac macs <> Some node_id) ->
  preserves (fun a b : Nodes.store => dict_get node_id b = dict_get node_id a)
            (for_each l body).
Proof.
  intros H. apply preserves_for_each; [reflexivity | intros; congruence |].
  intros mac Hin nodes. unfold body.
  destruct (dict_get mac macs) as [owner|] eqn:E; [|reflexivity].
  unfold Nodes.at_node. destruct (dict_get owner nodes); [|reflexivity].
  destruct (Nodes.mark_online now v). cbn [snd].
  apply dict_get_set_other. intros ->. now apply (H mac).
Qed.

End OnlineLoop.

(** C10.  Of the fields [primary], [secondary] and [gateway] of a vis
    line only the first one present gives an address to the active set:
    [secondary] counts only without [primary], [gateway] only without the
    two others.  The records marked online are those an active address
    resolves to: a record none of them resolves to is left as it was, and
    after a successful run a record one of them resolves to is marked. *)
Theorem mark_vis_data_online_precedence :
  (forall (d : list (string * value)) (p : value),
      dict_get "primary" d = Some p ->
      Nodes.active_address (VDict d) = Ok (Some p)) /\
  (forall (d : list (string * value)) (s : value),
      dict_get "primary" d = None -> dict_get "secondary" d = Some s ->
      Nodes.active_address (VDict d) = Ok (Some s)) /\
  (forall (d : list (string * value)) (g : value),
      dict_get "primary" d = None -> dict_get "secondary" d = None ->
      dict_get "gateway" d = Some g ->
      Nodes.active_address (VDict d) = Ok (Some g)) /\
  (forall (set_order : Nodes.pyset -> list string) (nodes : Nodes.store)
          (vis_data : list value) (now : DateTime.datetime)
          (macs : Nodes.mac_table) (node_id : string),
      set_iteration set_order ->
      Nodes.build_mac_table nodes = Ok macs ->
      (forall line a, In line vis_data ->
                      Nodes.active_address line = Ok (Some (VStr a)) ->
                      dict_get a macs <> Some node_id) ->
      dict_get node_id (snd (Nodes.mark_vis_data_online set_order nodes vis_data now))
      = dict_get node_id nodes) /\
  (forall (set_order : Nodes.pyset -> list string) (nodes : Nodes.store)
          (vis_data : list value) (now : DateTime.datetime)
          (macs : Nodes.mac_table) (node_id : string) (line : value) (a : string),
      set_iteration set_order ->
      Nodes.build_mac_table nodes = Ok macs ->
      fst (Nodes.mark_vis_data_online set_order nodes vis_data now) = Ok tt ->
      In line vis_data ->
      Nodes.active_address line = Ok (Some (VStr a)) ->
      dict_get a macs = Some node_id ->
      exists node',
        dict_get node_id (snd (Nodes.mark_vis_data_online set_order nodes vis_data now))
        = Some node' /\ marked now node').
Proof.
  repeat split.
  - intros d p H. unfold Nodes.active_address. simpl. unfold dict_mem.
    now rewrite H.
  - intros d s H1 H2. unfold Nodes.active_address. simpl. unfold dict_mem.
    now rewrite H1, H2.
  - intros d g H1 H2 H3. unfold Nodes.active_address. simpl. unfold dict_mem.
    now rewrite H1, H2, H3.
  - intros order nodes vis now macs node_id Ho Hm Hno.
    unfold Nodes.mark_vis_data_online. rewrite Hm.
    destruct (Nodes.online_set vis) as [[[]| e |] online] eqn:On; try reflexivity.
    apply online_loop_frame. intros mac Hin.
    apply filter_In in Hin. destruct Hin as [Hin _].
    apply (Permutation_in _ (Ho online)) in Hin.
    apply (online_set_In _ _ On) in Hin. destruct Hin as (line & Hl & Ha). eauto.
  - intros order nodes vis now macs node_id line a Ho Hm Hok Hl Ha Hr.
    unfold Nodes.mark_vis_data_online in *. rewrite Hm in *.
    destruct (Nodes.online_set vis) as [[[]| e |] online] eqn:On; try discriminate.
    destruct (for_each _ _ nodes) as [r nodes'] eqn:Run. cbn [fst snd] in *. subst r.
    eapply online_loop_marks; [exact Run | | exact Hr].
    apply filter_In. split.
    + apply (Permutation_in _ (Permutation_sym (Ho online))).
      apply (online_set_In _ _ On). eauto.
    + unfold dict_mem. now rewrite Hr.
Qed.

(** A line with all three fields marks the owner of the primary address
    and nobody else. *)
Example mark_vis_data_online_primary_only :
  let node a := VDict [("flags", VDict []);
                       ("nodeinfo", VDict [("network", VDict [("mesh_interfaces", VList [VStr a])])])] in
  Nodes.mark_vis_data_online (fun s => s)
    [("n1", node "A"); ("n2", node "B"); ("n3", node "C")]
    [VDict [("primary", VStr "A"); ("secondary", VStr "B"); ("gateway", VStr "C")]]
    (DateTime.mk 2020 1 1 0 0 0 0)
  = (Ok tt,
     [("n1", VDict [("flags", VDict [("online", VBool true)]);
                    ("nodeinfo", VDict [("network", VDict [("mesh_interfaces", VList [VStr "A"])])]);
                    ("lastseen", VStr "2020-01-01T00:00:00");
                    ("firstseen", VStr "2020-01-01T00:00:00")]);
      ("n2", node "B"); ("n3", node "C")]).
Proof. vm_compute. reflexivity. Qed.

(* ===================================================================== *)
(** * The address index *)
(* ===================================================================== *)

Lemma set_mem_app (a : string) (l1 l2 : list string) :
  Nodes.set_mem a (l1 ++ l2) = Nodes.set_mem a l1 || Nodes.set_mem a l2.
Proof. unfold Nodes.set_mem. apply existsb_app. Qed.

Lemma set_mem_In (a : string) (l : list string) :
  Nodes.set_mem a l = true <-> In a l.
Proof.
  unfold Nodes.set_mem. rewrite existsb_exists. split.
  - intros (x & Hx & E). apply String.eqb_eq in E. now subst.
  - intros H. exists a. split; auto. apply String.eqb_refl.
Qed.

Lemma writes_nil (node_id : string) (macs : Nodes.mac_table) : writes node_id [] macs macs.
Proof. intros a. reflexivity. Qed.

Lemma writes_app (node_id : string) (l1 l2 : list string) (m0 m1 m2 : Nodes.mac_table) :
  writes node_id l1 m0 m1 -> writes node_id l2 m1 m2 -> writes node_id (l1 ++ l2) m0 m2.
Proof.
  intros H1 H2 a. rewrite H2, H1, set_mem_app.
  destruct (Nodes.set_mem a l2), (Nodes.set_mem a l1); reflexivity.
Qed.

Lemma strs_map (l : list string) : strs (map VStr l) = l.
Proof. unfold strs. induction l; simpl; congruence. Qed.

(** [for mac in l: macs[mac] = node_id] on a list of strings. *)
Lemma record_loop (node_id : string) (l : list string) (macs : Nodes.mac_table) :
  exists macs',
    for_each (map VStr l) (Nodes.record node_id) macs = (Ok tt, macs') /\
    writes node_id l macs macs'.
Proof.
  revert macs. induction l as [|k l IH]; intros macs.
  - exists macs. split; [reflexivity | apply writes_nil].
  - destruct (IH (dict_set k node_id macs)) as (macs' & Hrun & Hw).
    exists macs'. split.
    + simpl. unfold bind at 1. unfold Nodes.record at 1. unfold bind, lift, modify.
      simpl. exact Hrun.
    + change (k :: l) with ([k] ++ l). eapply writes_app; [|exact Hw].
      intros a. rewrite dict_get_set. unfold Nodes.set_mem. simpl.
      now rewrite orb_false_r.
Qed.

Lemma address_list_loop (node_id : string) (v : value) (macs : Nodes.mac_table) :
  address_list v ->
  exists macs',
    (each <~ lift (Py.iter v) ;; for_each each (Nodes.record node_id)) macs = (Ok tt, macs') /\
    writes node_id (list_addresses v) macs macs'.
Proof.
  intros [l ->]. destruct (record_loop node_id l macs) as (macs' & Hrun & Hw).
  exists macs'. split.
  - unfold bind, lift. simpl. exact Hrun.
  - simpl. now rewrite strs_map.
Qed.

(** A loop whose every round writes the addresses of its element. *)
Lemma writes_loop (node_id : string) (l : list value) (body : value -> M Nodes.mac_table unit)
    (addrs : value -> list string) (macs : Nodes.mac_table) :
  (forall x, In x l -> forall m, exists m',
        body x m = (Ok tt, m') /\ writes node_id (addrs x) m m') ->
  exists macs',
    for_each l body macs = (Ok tt, macs') /\
    writes node_id (flat_map addrs l) macs macs'.
Proof.
  revert macs. induction l as [|x l IH]; intros macs H.
  - exists macs. split; [reflexivity | apply writes_nil].
  - destruct (H x (or_introl eq_refl) macs) as (m1 & E1 & W1).
    destruct (IH m1) as (m2 & E2 & W2). { intros y Hy. apply H. now right. }
    exists m2. split.
    + simpl. unfold bind. rewrite E1. exact E2.
    + simpl. eapply writes_app; eauto.
Qed.

Lemma interface_group_loop (node_id : string) (upper_if : value) (macs : Nodes.mac_table) :
  interface_group upper_if ->
  exists macs',
    (lowers <~ lift (i <- Py.getitem upper_if "interfaces" ;; Py.values i) ;;
     for_each lowers (fun lower_if =>
       each <~ lift (Py.iter lower_if) ;;
       for_each each (Nodes.record node_id))) macs = (Ok tt, macs') /\
    writes node_id (group_addresses upper_if) macs macs'.
Proof.
  intros (types & Hi & Ht). unfold group_addresses. rewrite Hi.
  destruct (writes_loop node_id (map snd types)
              (fun lower_if => each <~ lift (Py.iter lower_if) ;;
                               for_each each (Nodes.record node_id))
              list_addresses macs) as (macs' & Hrun & Hw).
  { intros x Hx m. apply address_list_loop.
    rewrite Forall_forall in Ht. auto. }
  exists macs'. split; [|exact Hw].
  unfold bind at 1. unfold lift at 1. cbn [rbind Py.values]. exact Hrun.
Qed.

Lemma try_except_ok {S : Type} (handled : list exn) (m : M S unit) (s s' : S) :
  m s = (Ok tt, s') -> try_except handled m s = (Ok tt, s').
Proof. intros H. unfold try_except. now rewrite H. Qed.

Lemma try_except_caught {S : Type} (handled : list exn) (m : M S unit) (s s' : S) (e : exn) :
  m s = (Raise e, s') -> existsb (exn_eqb e) handled = true ->
  try_except handled m s = (Ok tt, s').
Proof. intros H E. unfold try_except. now rewrite H, E. Qed.

(** The two [try] blocks on a well-shaped record. *)
Lemma build_mac_table_node_writes (node_id : string) (node : value) (macs : Nodes.mac_table) :
  well_shaped node ->
  exists macs',
    Nodes.build_mac_table_node (node_id, node) macs = (Ok tt, macs') /\
    writes node_id (addresses node) macs macs'.
Proof.
  intros [Hflat Hnest]. unfold Nodes.build_mac_table_node, addresses.
  unfold shape in Hflat, Hnest. unfold flat_addresses, nested_addresses.
  assert (B1 : exists m1,
             try_except [KeyError]
               (each <~ lift (l <- Nodes.walk node ["nodeinfo"; "network"; "mesh_interfaces"] ;;
                              Py.iter l) ;;
                for_each each (Nodes.record node_id)) macs = (Ok tt, m1) /\
             writes node_id
               match Nodes.walk node ["nodeinfo"; "network"; "mesh_interfaces"] with
               | Ok v => list_addresses v
               | _ => []
               end macs m1).
  { destruct (Nodes.walk node ["nodeinfo"; "network"; "mesh_interfaces"])
      as [v|[]|] eqn:W; try contradiction.
    - destruct (address_list_loop node_id v macs Hflat) as (m1 & Hrun & Hw).
      exists m1. split; auto. apply try_except_ok.
      unfold bind at 1, lift at 1. cbn [rbind].
      unfold bind at 1, lift at 1 in Hrun. exact Hrun.
    - exists macs. split; [|apply writes_nil].
      eapply try_except_caught; reflexivity. }
  destruct B1 as (m1 & E1 & W1).
  assert (B2 : exists m2,
             try_except [KeyError]
               (uppers <~ lift (m <- Nodes.walk node ["nodeinfo"; "network"; "mesh"] ;;
                                Py.values m) ;;
                for_each uppers (fun upper_if =>
                  lowers <~ lift (i <- Py.getitem upper_if "interfaces" ;; Py.values i) ;;
                  for_each lowers (fun lower_if =>
                    each <~ lift (Py.iter lower_if) ;;
                    for_each each (Nodes.record node_id)))) m1 = (Ok tt, m2) /\
             writes node_id
               match Nodes.walk node ["nodeinfo"; "network"; "mesh"] with
               | Ok (VDict groups) => flat_map group_addresses (map snd groups)
               | _ => []
               end m1 m2).
  { destruct (Nodes.walk node ["nodeinfo"; "network"; "mesh"]) as [v|[]|] eqn:W;
      try contradiction.
    - destruct Hnest as (groups & -> & Hg).
      destruct (writes_loop node_id (map snd groups)
                  (fun upper_if =>
                     lowers <~ lift (i <- Py.getitem upper_if "interfaces" ;; Py.values i) ;;
                     for_each lowers (fun lower_if =>
                       each <~ lift (Py.iter lower_if) ;;
                       for_each each (Nodes.record node_id)))
                  group_addresses m1) as (m2 & Hrun & Hw).
      { intros x Hx m. apply interface_group_loop.
        rewrite Forall_forall in Hg. auto. }
      exists m2. split; auto. apply try_except_ok.
      unfold bind at 1, lift at 1. cbn [rbind Py.values]. exact Hrun.
    - exists m1. split; [|apply writes_nil].
      eapply try_except_caught; reflexivity. }
  destruct B2 as (m2 & E2 & W2).
  exists m2. split.
  - unfold bind at 1. rewrite E1. exact E2.
  - eapply writes_app; eauto.
Qed.

Lemma build_mac_table_loop (nodes : Nodes.store) (macs : Nodes.mac_table) :
  (forall node_id node, In (node_id, node) nodes -> well_shaped node) ->
  exists macs',
    for_each nodes Nodes.build_mac_table_node macs = (Ok tt, macs') /\
    forall a, dict_get a macs' =
              match owner a nodes with Some o => Some o | None => dict_get a macs end.
Proof.
  revert macs. induction nodes as [|[node_id node] nodes IH]; intros macs H.
  - exists macs. split; reflexivity.
  - destruct (build_mac_table_node_writes node_id node macs) as (m1 & E1 & W1).
    { eapply H. now left. }
    destruct (IH m1) as (m2 & E2 & W2). { intros i n Hin. eapply H. right. eauto. }
    exists m2. split.
    + cbn [for_each]. rewrite (bind_ok _ _ _ _ _ E1). exact E2.
    + intros a. rewrite W2. simpl. destruct (owner a nodes); auto.
      rewrite (W1 a). now destruct (Nodes.set_mem a (addresses node)).
Qed.



(** Two records report the address ["A"], one in each shape; the index
    gives it to the second. *)
Example build_mac_table_collision :
  Nodes.build_mac_table
    [("n1", VDict [("nodeinfo", VDict [("network",
              VDict [("mesh_interfaces", VList [VStr "A"; VStr "B"])])])]);
     ("n2", VDict [("nodeinfo", VDict [("network",
              VDict [("mesh", VDict [("bat0", VDict [("interfaces",
                VDict [("wireless", VList [VStr "A"]);
                       ("tunnel", VList [VStr "C"])])])])])])]);
     ("n3", VDict [("flags", VDict [])])]
  = Ok [("A", "n2"); ("B", "n1"); ("C", "n2")].
Proof. vm_compute. reflexivity. Qed.

(* ===================================================================== *)
(** * Uplink derivation *)
(* ===================================================================== *)

Lemma filterM_map {A B : Type} (p : B -> result bool) (f : A -> B) (q : A -> bool)
    (l : list A) :
  (forall x, In x l -> p (f x) = Ok (q x)) ->
  filterM p (map f l) = Ok (map f (filter q l)).
Proof.
  induction l as [|x l IH]; intros H; simpl; auto.
  rewrite (H x) by now left. simpl.
  rewrite IH by (intros y Hy; apply H; now right). simpl.
  now destruct (q x).
Qed.

(** [check_uplink] on a group whose peers are a map of statuses. *)
Lemma check_uplink_established (g peers : list (string * value)) :
  dict_get "peers" g = Some (VDict peers) ->
  NoDup (dict_keys peers) ->
  Forall peer_status (map snd peers) ->
  Nodes.check_uplink (VDict g) = Ok (established_peers peers).
Proof.
  intros Hp ND Hs. unfold Nodes.check_uplink. simpl. rewrite Hp. simpl.
  apply (filterM_map _ (fun kv => VStr (fst kv)) (fun kv => established (snd kv))).
  intros [k st] Hin. simpl. rewrite (In_dict_get _ _ _ ND Hin). simpl.
  rewrite Forall_forall in Hs.
  destruct (Hs st) as [->|[d ->]].
  { change st with (snd (k, st)). now apply in_map. }
  - reflexivity.
  - simpl. destruct d; reflexivity.
Qed.

(** The loop body of [check_uplink_recursive], in the terms of the source:
    the group's own peers, then, if the group has the key [groups], the
    peers of the nested groups, then the remaining groups. *)
Lemma check_uplink_recursive_step (name : string) (group : value)
    (rest : list (string * value)) :
  Nodes.check_uplink_recursive (VDict ((name, group) :: rest)) =
  (own <- Nodes.check_uplink group ;;
   has <- Py.contains "groups" group ;;
   sub <- (if has then g <- Py.getitem group "groups" ;; Nodes.check_uplink_recursive g
           else Ok []) ;;
   more <- Nodes.check_uplink_recursive (VDict rest) ;;
   Ok (own ++ sub ++ more)).
Proof.
  cbn [Nodes.check_uplink_recursive].
  destruct (Nodes.check_uplink group) as [own| |] eqn:Own; cbn [rbind]; try reflexivity.
  destruct group as [| | | | | |g]; try discriminate.
  cbn [Py.contains Py.getitem rbind]. unfold dict_mem.
  assert (E : forall g : list (string * value),
             (fix nested (g : list (string * value)) : result (list value) :=
                match g with
                | [] => Ok []
                | (k, v) :: g' =>
                    if String.eqb "groups" k then Nodes.check_uplink_recursive v
                    else nested g'
                end) g
             = match dict_get "groups" g with
               | Some v => Nodes.check_uplink_recursive v
               | None => Ok []
               end).
  { induction g0 as [|[k v] g0 IH]; [reflexivity|].
    cbn [dict_get]. destruct (String.eqb "groups" k); auto. }
  rewrite E. destruct (dict_get "groups" g); reflexivity.
Qed.

Lemma check_uplink_recursive_peers (groups : value) (peers : list value) :
  uplink_peers groups peers -> Nodes.check_uplink_recursive groups = Ok peers.
Proof.
  induction 1 as [ | name g ps rest more Hp ND Hs Hg _ IH
                   | name g ps rest groups sub more Hp ND Hs Hg _ IHs _ IH ].
  - reflexivity.
  - rewrite check_uplink_recursive_step.
    rewrite (check_uplink_established g ps Hp ND Hs). cbn [rbind Py.contains].
    unfold dict_mem. rewrite Hg. cbn [rbind]. rewrite IH. reflexivity.
  - rewrite check_uplink_recursive_step.
    rewrite (check_uplink_established g ps Hp ND Hs). cbn [rbind Py.contains Py.getitem].
    unfold dict_mem. rewrite Hg. cbn [rbind]. rewrite IHs. cbn [rbind].
    rewrite IH. reflexivity.
Qed.

Lemma mark_uplink_sets (stats : value) (peers : list value)
    (fields flags statistics : list (string * value)) :
  derived_peers stats = Ok peers -> peers <> [] ->
  dict_get "flags" fields = Some (VDict flags) ->
  dict_get "statistics" fields = Some (VDict statistics) ->
  Nodes.mark_uplink stats (VDict fields)
  = (Ok tt,
     VDict (dict_set "statistics" (VDict (dict_set "vpn_peers" (VList peers) statistics))
              (dict_set "flags" (VDict (dict_set "uplink" (VBool true) flags)) fields))).
Proof.
  intros Hd Hne Hf Hs. unfold Nodes.mark_uplink. apply try_except_ok.
  unfold derived_peers in Hd.
  rewrite (bind_ok _ _ (VDict fields) (VDict fields) peers)
    by (unfold lift; now rewrite Hd).
  destruct peers as [|p peers]; [congruence|].
  rewrite (bind_ok _ _ (VDict fields)
             (VDict (dict_set "flags" (VDict (dict_set "uplink" (VBool true) flags)) fields)) tt)
    by (now rewrite (at_key_dict _ _ _ _ Hf)).
  rewrite (at_key_dict _ _ _ (VDict statistics)); [reflexivity|].
  rewrite dict_get_set_other by discriminate. exact Hs.
Qed.

Lemma mark_uplink_unchanged (stats node : value) :
  derived_peers stats = Ok [] \/ derived_peers stats = Raise KeyError ->
  Nodes.mark_uplink stats node = (Ok tt, node).
Proof.
  unfold derived_peers, Nodes.mark_uplink, try_except, bind, lift.
  intros [-> | ->]; reflexivity.
Qed.

(** C3.  [check_uplink_recursive] returns the uplink peers of the
    peer-group tree depth first: for every group in turn its own peers
    whose status is not empty and holds the key ["established"], then the
    peers of the groups nested in it.  When the list a document yields is
    not empty, [mark_uplink] sets [flags.uplink] to true and
    [statistics.vpn_peers] to the list and changes nothing else; when the
    list is empty, or a key on the way to the tree is missing, the record
    is left as it was.  The group of the example, under any name in
    [mesh_vpn.groups], yields [["aa:bb"]] and sets [flags.uplink]. *)
Theorem mark_uplink_derivation :
  (forall (g peers : list (string * value)),
      dict_get "peers" g = Some (VDict peers) ->
      NoDup (dict_keys peers) ->
      Forall peer_status (map snd peers) ->
      Nodes.check_uplink (VDict g) = Ok (established_peers peers)) /\
  (forall (groups : value) (peers : list value),
      uplink_peers groups peers ->
      Nodes.check_uplink_recursive groups = Ok peers) /\
  (forall (stats : value) (peers : list value)
          (fields flags statistics : list (string * value)),
      derived_peers stats = Ok peers -> peers <> [] ->
      dict_get "flags" fields = Some (VDict flags) ->
      dict_get "statistics" fields = Some (VDict statistics) ->
      exists node',
        Nodes.mark_uplink stats (VDict fields) = (Ok tt, node') /\
        flag "uplink" node' = Some (VBool true) /\
        statistic "vpn_peers" node' = Some (VList peers) /\
        (forall k, k <> "flags" -> k <> "statistics" ->
                   field k node' = dict_get k fields) /\
        (forall f, f <> "uplink" -> flag f node' = dict_get f flags) /\
        (forall k, k <> "vpn_peers" -> statistic k node' = dict_get k statistics)) /\
  (forall (stats node : value),
      derived_peers stats = Ok [] \/
      Nodes.walk stats ["mesh_vpn"; "groups"] = Raise KeyError ->
      Nodes.mark_uplink stats node = (Ok tt, node)) /\
  (forall (name : string) (fields : list (string * value)),
      let stats := VDict [("mesh_vpn", VDict [("groups", VDict [(name, example_group)])])] in
      derived_peers stats = Ok [VStr "aa:bb"] /\
      (dict_get "flags" fields = Some (VDict [("online", VBool false); ("uplink", VBool false)]) ->
       dict_get "statistics" fields = Some (VDict [("clients", VInt 0)]) ->
       exists node',
         Nodes.mark_uplink stats (VDict fields) = (Ok tt, node') /\
         flag "uplink" node' = Some (VBool true) /\
         statistic "vpn_peers" node' = Some (VList [VStr "aa:bb"]))).
Proof.
  assert (Sets : forall (stats : value) (peers : list value)
                        (fields flags statistics : list (string * value)),
             derived_peers stats = Ok peers -> peers <> [] ->
             dict_get "flags" fields = Some (VDict flags) ->
             dict_get "statistics" fields = Some (VDict statistics) ->
             exists node',
               Nodes.mark_uplink stats (VDict fields) = (Ok tt, node') /\
               flag "uplink" node' = Some (VBool true) /\
               statistic "vpn_peers" node' = Some (VList peers) /\
               (forall k, k <> "flags" -> k <> "statistics" ->
                          field k node' = dict_get k fields) /\
               (forall f, f <> "uplink" -> flag f node' = dict_get f flags) /\
               (forall k, k <> "vpn_peers" -> statistic k node' = dict_get k statistics)).
  { intros stats peers fields flags statistics Hd Hne Hf Hs.
    eexists. split; [apply (mark_uplink_sets _ _ _ _ _ Hd Hne Hf Hs)|].
    unfold flag, statistic. rewrite !field_set. cbn [String.eqb Ascii.eqb Bool.eqb].
    cbn [field].
    repeat split.
    - apply dict_get_set_same.
    - apply dict_get_set_same.
    - intros k N1 N2. now rewrite !dict_get_set_other by auto.
    - intros f N. now apply dict_get_set_other.
    - intros k N. now apply dict_get_set_other. }
  split; [exact check_uplink_established|].
  split; [exact check_uplink_recursive_peers|].
  split; [exact Sets|].
  split.
  - intros stats node [H|H]; apply mark_uplink_unchanged; auto.
    right. unfold derived_peers. now rewrite H.
  - intros name fields stats. split; [reflexivity|].
    intros Hf Hs.
    destruct (Sets stats [VStr "aa:bb"] fields _ _ eq_refl ltac:(discriminate) Hf Hs)
      as (node' & H1 & H2 & H3 & _).
    eauto.
Qed.

(* ===================================================================== *)
(** * Statistics import *)
(* ===================================================================== *)

Lemma raises_only_bind {A B : Type} (allowed : list exn) (r : result A) (k : A -> result B) :
  raises_only allowed r -> (forall a, raises_only allowed (k a)) ->
  raises_only allowed (rbind r k).
Proof. destruct r; simpl; auto. Qed.

Lemma raises_only_weaken {A : Type} (l1 l2 : list exn) (r : result A) :
  incl l1 l2 -> raises_only l1 r -> raises_only l2 r.
Proof. intros H. destruct r; simpl; auto. Qed.

Lemma getitem_faults (c : value) (k : string) :
  raises_only [KeyError; TypeError] (Py.getitem c k).
Proof.
  destruct c; simpl; auto. destruct (dict_get k d); simpl; auto.
Qed.

Lemma reduce_faults (source : list string) (start : value) :
  raises_only [KeyError; TypeError] (Py.reduce Py.dict_getitem source start).
Proof.
  revert start. induction source as [|k source IH]; intros start; simpl; auto.
  apply raises_only_bind; auto. apply getitem_faults.
Qed.

Lemma identity_faults (stats : value) (source : list string) :
  raises_only [KeyError; TypeError] (extracted stats source Nodes.identity).
Proof.
  unfold extracted. apply raises_only_bind; [apply reduce_faults|].
  intros a. exact I.
Qed.

Lemma float_of_int_faults (z : Z) : raises_only [OverflowError] (Num.float_of_int z).
Proof.
  unfold Num.float_of_int. destruct (binary_normalize prec emax z 0 false); simpl; auto.
Qed.

Lemma to_float_faults (n : Num.num) : raises_only [OverflowError] (Num.to_float n).
Proof. destruct n; simpl; [apply float_of_int_faults | exact I]. Qed.

Lemma floats_faults {A : Type} (x y : Num.num) (k : spec_float -> spec_float -> result A)
    (allowed : list exn) :
  In OverflowError allowed ->
  (forall fx fy, raises_only allowed (k fx fy)) ->
  raises_only allowed (fx <- Num.to_float x ;; fy <- Num.to_float y ;; k fx fy).
Proof.
  intros Hin Hk.
  apply raises_only_bind.
  { eapply raises_only_weaken; [|apply to_float_faults]. intros e [<-|[]]. exact Hin. }
  intros fx. apply raises_only_bind; auto.
  eapply raises_only_weaken; [|apply to_float_faults]. intros e [<-|[]]. exact Hin.
Qed.

Lemma add_faults (a b : value) : raises_only [TypeError; OverflowError] (Num.add a b).
Proof.
  unfold Num.add.
  destruct (Num.as_num a) as [[x|fx]|] eqn:Ea; destruct (Num.as_num b) as [[y|fy]|] eqn:Eb;
    try exact I;
    try (apply floats_faults; [simpl; auto | intros; exact I]);
    destruct a; try discriminate; simpl; auto;
    destruct b; try discriminate; simpl; auto.
Qed.

Lemma sub_faults (a b : value) : raises_only [TypeError; OverflowError] (Num.sub a b).
Proof.
  unfold Num.sub.
  destruct (Num.as_num a) as [[x|fx]|]; destruct (Num.as_num b) as [[y|fy]|];
    try exact I;
    try (apply floats_faults; [simpl; auto | intros; exact I]);
    simpl; auto.
Qed.

Lemma int_truediv_faults (a b : Z) :
  raises_only [ZeroDivisionError; OverflowError] (Num.int_truediv a b).
Proof.
  unfold Num.int_truediv. destruct (b =? 0); simpl; auto.
  destruct (a =? 0); simpl; auto.
  destruct (SFdiv prec emax (Num.exact a) (Num.exact b)); simpl; auto.
Qed.

Lemma truediv_faults (a b : value) :
  raises_only [TypeError; ZeroDivisionError; OverflowError] (Num.truediv a b).
Proof.
  unfold Num.truediv.
  destruct (Num.as_num a) as [[x|fx]|]; destruct (Num.as_num b) as [[y|fy]|];
    try (simpl; auto; fail).
  - apply raises_only_bind; [|intros; exact I].
    eapply raises_only_weaken; [|apply int_truediv_faults].
    intros e [<-|[<-|[]]]; simpl; auto.
  - apply floats_faults; [simpl; auto|]. intros p q. destruct (Num.is_zero q); simpl; auto.
  - apply floats_faults; [simpl; auto|]. intros p q. destruct (Num.is_zero q); simpl; auto.
  - apply floats_faults; [simpl; auto|]. intros p q. destruct (Num.is_zero q); simpl; auto.
Qed.

(** The transform of [memory_usage] raises nothing but the three handled
    faults and [OverflowError]. *)
Lemma memory_usage_faults (d : value) :
  raises_only [KeyError; TypeError; ZeroDivisionError; OverflowError] (Nodes.memory_usage d).
Proof.
  unfold Nodes.memory_usage.
  repeat (apply raises_only_bind;
          [ (eapply raises_only_weaken; [|apply getitem_faults]; intros e He; simpl in *; tauto)
            || (eapply raises_only_weaken; [|apply add_faults]; intros e He; simpl in *; tauto)
            || (eapply raises_only_weaken; [|apply truediv_faults]; intros e He; simpl in *; tauto)
          | intros ? ]).
  eapply raises_only_weaken; [|apply sub_faults]. intros e He; simpl in *; tauto.
Qed.

Lemma memory_faults (stats : value) :
  raises_only [KeyError; TypeError; ZeroDivisionError; OverflowError]
    (extracted stats ["memory"] Nodes.memory_usage).
Proof.
  unfold extracted. apply raises_only_bind; [|intros; apply memory_usage_faults].
  eapply raises_only_weaken; [|apply reduce_faults]. intros e He; simpl in *; tauto.
Qed.

Lemma handled_caught (e : exn) :
  In e handled_faults -> existsb (exn_eqb e) [KeyError; TypeError; ZeroDivisionError] = true.
Proof. intros [<-|[<-|[<-|[]]]]; reflexivity. Qed.

(** [add] on a record that has a dict of statistics. *)
Lemma add_written (stats : value) (target : string) (source : list string)
    (f : value -> result value) (fields st : list (string * value)) :
  dict_get "statistics" fields = Some (VDict st) ->
  raises_only handled_faults (extracted stats source f) ->
  Nodes.add stats target source f (VDict fields)
  = (Ok tt, VDict (dict_set "statistics"
                     (VDict (written (extracted stats source f) target st)) fields)).
Proof.
  intros Hs Hr. unfold Nodes.add. fold (extracted stats source f).
  destruct (extracted stats source f) as [v|e|] eqn:E; simpl in Hr; try contradiction.
  - apply try_except_ok. unfold bind, lift.
    rewrite (at_key_dict _ _ _ _ Hs). reflexivity.
  - unfold try_except, bind, lift. rewrite (handled_caught e Hr).
    cbn [written]. now rewrite (dict_set_same _ _ _ Hs).
Qed.

(** The outcome of [add] on any object. *)
Lemma add_outcome (stats : value) (target : string) (source : list string)
    (f : value -> result value) (node : value) :
  fst (Nodes.add stats target source f node) =
  match extracted stats source f with
  | Ok _ => Ok tt
  | Raise e => if existsb (exn_eqb e) [KeyError; TypeError; ZeroDivisionError]
               then Ok tt else Raise e
  | Unmodelled => Unmodelled
  end.
Proof.
  unfold Nodes.add. fold (extracted stats source f).
  destruct (extracted stats source f) as [v|e|]; unfold try_except, bind, lift.
  - destruct node as [| | | | | |d]; try reflexivity.
    destruct (dict_get "statistics" d) as [child|] eqn:E.
    + rewrite (at_key_dict _ _ _ _ E). destruct child; reflexivity.
    + rewrite (at_key_missing _ _ _ E). reflexivity.
  - now destruct (existsb (exn_eqb e) [KeyError; TypeError; ZeroDivisionError]).
  - reflexivity.
Qed.

Lemma add_quiet (stats : value) (target : string) (source : list string)
    (f : value -> result value) (node : value) :
  raises_only handled_faults (extracted stats source f) ->
  fst (Nodes.add stats target source f node) = Ok tt.
Proof.
  intros H. rewrite add_outcome.
  destruct (extracted stats source f); simpl in H; try contradiction; auto.
  now rewrite (handled_caught e H).
Qed.

Lemma identity_handled (stats : value) (source : list string) :
  raises_only handled_faults (extracted stats source Nodes.identity).
Proof.
  eapply raises_only_weaken; [|apply identity_faults].
  intros e He. unfold handled_faults. simpl in *. tauto.
Qed.

Lemma memory_handled (stats : value) :
  extracted stats ["memory"] Nodes.memory_usage <> Raise OverflowError ->
  raises_only handled_faults (extracted stats ["memory"] Nodes.memory_usage).
Proof.
  intros N. pose proof (memory_faults stats) as H.
  destruct (extracted stats ["memory"] Nodes.memory_usage); simpl in *; auto.
  unfold handled_faults. simpl. intuition congruence.
Qed.

Lemma bind_fst {S A B : Type} (m : M S A) (k : A -> M S B) (s : S) :
  fst (bind m k s) =
  match fst (m s) with
  | Ok a => fst (k a (snd (m s)))
  | Raise e => Raise e
  | Unmodelled => Unmodelled
  end.
Proof. unfold bind. destruct (m s) as [[a|e|] s']; reflexivity. Qed.

Lemma written_get (r : result value) (target k : string) (st : list (string * value)) :
  dict_get k (written r target st) =
  if String.eqb k target
  then match r with Ok v => Some v | _ => dict_get k st end
  else dict_get k st.
Proof.
  destruct r; simpl.
  - rewrite dict_get_set. now destruct (String.eqb k target).
  - destruct (String.eqb k target) eqn:E; auto.
  - destruct (String.eqb k target) eqn:E; auto.
Qed.

(** The six extractions on a record that has a dict of statistics. *)
Lemma extract_written (stats : value) (fields st : list (string * value)) :
  dict_get "statistics" fields = Some (VDict st) ->
  extracted stats ["memory"] Nodes.memory_usage <> Raise OverflowError ->
  Nodes.extract stats (VDict fields)
  = (Ok tt,
     VDict (dict_set "statistics"
              (VDict
                 (written (extracted stats ["traffic"] Nodes.identity) "traffic"
                 (written (extracted stats ["rootfs_usage"] Nodes.identity) "rootfs_usage"
                 (written (extracted stats ["memory"] Nodes.memory_usage) "memory_usage"
                 (written (extracted stats ["loadavg"] Nodes.identity) "loadavg"
                 (written (extracted stats ["uptime"] Nodes.identity) "uptime"
                 (written (extracted stats ["clients"; "total"] Nodes.identity) "clients"
                    st)))))))
              fields)).
Proof.
  intros Hs Hm. unfold Nodes.extract.
  assert (Step : forall target source f st0 (k : unit -> M value unit),
             raises_only handled_faults (extracted stats source f) ->
             bind (Nodes.add stats target source f) k
                  (VDict (dict_set "statistics" (VDict st0) fields))
             = k tt (VDict (dict_set "statistics"
                              (VDict (written (extracted stats source f) target st0)) fields))).
  { intros target source f st0 k Hr. apply bind_ok.
    rewrite (add_written _ _ _ _ _ st0); auto; [|apply dict_get_set_same].
    now rewrite dict_set_set. }
  rewrite <- (dict_set_same _ _ _ Hs) at 1.
  rewrite !Step by (apply identity_handled || now apply memory_handled).
  rewrite (add_written _ _ _ _ _ _ (dict_get_set_same _ _ _)) by apply identity_handled.
  now rewrite dict_set_set.
Qed.

Lemma extract_outcome (stats node : value) :
  fst (Nodes.extract stats node) = Ok tt \/
  fst (Nodes.extract stats node) = Raise OverflowError.
Proof.
  unfold Nodes.extract.
  repeat (rewrite bind_fst, add_quiet by apply identity_handled).
  rewrite bind_fst, add_outcome.
  pose proof (memory_faults stats) as H.
  destruct (extracted stats ["memory"] Nodes.memory_usage) as [v|e|]; simpl in H.
  - repeat (rewrite bind_fst, add_quiet by apply identity_handled).
    left. apply add_quiet, identity_handled.
  - destruct H as [<-|[<-|[<-|[<-|[]]]]]; cbn [existsb exn_eqb orb]; auto;
      repeat (rewrite bind_fst, add_quiet by apply identity_handled);
      left; apply add_quiet, identity_handled.
  - contradiction.
Qed.

Lemma extract_quiet (stats node : value) :
  extracted stats ["memory"] Nodes.memory_usage <> Raise OverflowError ->
  fst (Nodes.extract stats node) = Ok tt.
Proof.
  intros N. unfold Nodes.extract.
  repeat (rewrite bind_fst, add_quiet by (apply identity_handled || now apply memory_handled)).
  apply add_quiet, identity_handled.
Qed.

Lemma stays_record_refl v : stays_record v v.
Proof. intros H. exact H. Qed.

Lemma stays_record_trans a b c :
  stays_record a b -> stays_record b c -> stays_record a c.
Proof. intros H1 H2 H. auto. Qed.

(** Writing into [flags] or [statistics]: the outcome and the record. *)
Lemma at_key_setitem_record (k target : string) (v node : value) :
  k = "flags" \/ k = "statistics" ->
  record_like node ->
  (fst (Py.at_key k (Py.setitem target v) node) = Ok tt \/
   fst (Py.at_key k (Py.setitem target v) node) = Raise KeyError) /\
  record_like (snd (Py.at_key k (Py.setitem target v) node)).
Proof.
  intros Hk (fields & -> & Hf & Hs).
  destruct (dict_get k fields) as [child|] eqn:E.
  - rewrite (at_key_dict _ _ _ _ E).
    assert (D : exists c, child = VDict c).
    { unfold dict_or_absent in Hf, Hs. destruct Hk as [-> | ->].
      - rewrite E in Hf. destruct child; try contradiction. eauto.
      - rewrite E in Hs. destruct child; try contradiction. eauto. }
    destruct D as [c ->]. cbn [Py.setitem fst snd]. split; [now left|].
    eexists. split; [reflexivity|]. unfold dict_or_absent in *.
    rewrite !dict_get_set. split.
    + destruct (String.eqb "flags" k); auto.
    + destruct (String.eqb "statistics" k); auto.
  - rewrite (at_key_missing _ _ _ E). cbn [fst snd]. split; [now right|].
    eexists. eauto.
Qed.

Lemma add_stays_record (stats : value) (target : string) (source : list string)
    (f : value -> result value) :
  preserves stays_record (Nodes.add stats target source f).
Proof.
  intros node H. unfold Nodes.add, try_except, bind, lift.
  destruct (d <- Py.reduce Py.dict_getitem source stats ;; f d) as [v|e|].
  - pose proof (proj2 (at_key_setitem_record "statistics" target v node (or_intror eq_refl) H))
      as R.
    destruct (Py.at_key "statistics" (Py.setitem target v) node) as [[[]|e|] node'];
      cbn [snd] in *; auto.
    destruct (existsb (exn_eqb e) [KeyError; TypeError; ZeroDivisionError]); auto.
  - destruct (existsb (exn_eqb e) [KeyError; TypeError; ZeroDivisionError]); auto.
  - exact H.
Qed.

Lemma extract_stays_record (stats : value) : preserves stays_record (Nodes.extract stats).
Proof.
  unfold Nodes.extract.
  repeat (apply preserves_bind;
          [exact stays_record_trans | apply add_stays_record | intros _]).
  apply add_stays_record.
Qed.

(** [mark_uplink] on such a record, for a document whose tree is walked
    to the end. *)
Lemma mark_uplink_record (stats node : value) :
  raises_only [KeyError] (derived_peers stats) ->
  record_like node ->
  fst (Nodes.mark_uplink stats node) = Ok tt /\
  record_like (snd (Nodes.mark_uplink stats node)).
Proof.
  intros Hd Hn. unfold Nodes.mark_uplink, try_except, bind at 1, lift.
  fold (derived_peers stats).
  destruct (derived_peers stats) as [peers|e|]; simpl in Hd; try contradiction.
  - destruct peers as [|p peers]; [split; auto|].
    unfold bind.
    destruct (at_key_setitem_record "flags" "uplink" (VBool true) node
                (or_introl eq_refl) Hn) as [O1 R1].
    destruct (Py.at_key "flags" (Py.setitem "uplink" (VBool true)) node)
      as [r1 node1]. cbn [fst snd] in O1, R1.
    destruct O1 as [-> | ->]; [|split; auto].
    destruct (at_key_setitem_record "statistics" "vpn_peers" (VList (p :: peers)) node1
                (or_intror eq_refl) R1) as [O2 R2].
    destruct (Py.at_key "statistics" (Py.setitem "vpn_peers" (VList (p :: peers))) node1)
      as [r2 node2]. cbn [fst snd] in O2, R2.
    destruct O2 as [-> | ->]; split; auto.
  - destruct Hd as [<-|[]]. split; auto.
Qed.

(** One document on a store of such records. *)
Lemma import_statistics_doc_sound (d : value) (nodes : Nodes.store) :
  sound_document d ->
  (forall node_id node, dict_get node_id nodes = Some node -> record_like node) ->
  fst (Nodes.import_statistics_doc d nodes) = Ok tt /\
  (forall node_id node,
      dict_get node_id (snd (Nodes.import_statistics_doc d nodes)) = Some node ->
      record_like node).
Proof.
  intros ((fields & -> & Hid) & Hm & Hu) Hrec.
  unfold Nodes.import_statistics_doc, bind, lift.
  cbn [Py.contains Py.getitem]. unfold dict_mem.
  destruct Hid as [Hid | (node_id & Hid)]; rewrite Hid; [split; auto|].
  cbn [rbind Py.key_in Py.as_key]. unfold dict_mem.
  destruct (dict_get node_id nodes) as [node|] eqn:G; [|split; auto].
  unfold Nodes.at_node. rewrite G.
  pose proof (extract_quiet (VDict fields) node Hm) as E.
  pose proof (extract_stays_record (VDict fields) node (Hrec _ _ G)) as R.
  destruct (Nodes.extract (VDict fields) node) as [r node1].
  cbn [fst snd] in E, R. subst r.
  destruct (mark_uplink_record (VDict fields) node1 Hu R) as [O2 R2].
  destruct (Nodes.mark_uplink (VDict fields) node1) as [r2 node2].
  cbn [fst snd] in *. split; [exact O2|].
  intros i n. rewrite dict_get_set.
  destruct (String.eqb i node_id); [intros [= <-]; exact R2 | apply Hrec].
Qed.

Lemma import_statistics_loop (docs : list value) (nodes : Nodes.store) :
  Forall sound_document docs ->
  (forall node_id node, dict_get node_id nodes = Some node -> record_like node) ->
  fst (for_each docs Nodes.import_statistics_doc nodes) = Ok tt.
Proof.
  revert nodes. induction docs as [|d docs IH]; intros nodes Hd Hrec; [reflexivity|].
  inversion Hd as [|? ? Hd1 Hd2]; subst.
  destruct (import_statistics_doc_sound d nodes Hd1 Hrec) as [O R].
  cbn [for_each]. rewrite bind_fst, O. now apply IH.
Qed.

(** Three documents for one record: a faulty [clients], then a memory
    section whose total is zero next to a good [uptime], then a good
    [loadavg].  Every good field arrives and nothing is raised. *)
Example import_statistics_faulty_fields :
  let node := VDict [("flags", VDict []); ("statistics", VDict [("clients", VInt 0)])] in
  Nodes.import_statistics [("n1", node)]
    [VDict [("node_id", VStr "n1"); ("clients", VInt 7)];
     VDict [("node_id", VStr "n1"); ("uptime", VInt 60);
            ("memory", VDict [("free", VInt 1); ("buffers", VInt 1);
                              ("cached", VInt 1); ("total", VInt 0)])];
     VDict [("node_id", VStr "n1"); ("loadavg", VInt 2)]]
  = (Ok tt,
     [("n1", VDict [("flags", VDict []);
                    ("statistics", VDict [("clients", VInt 0); ("uptime", VInt 60);
                                          ("loadavg", VInt 2)])])]).
Proof. vm_compute. reflexivity. Qed.

(* ===================================================================== *)
(** * Memory usage *)
(* ===================================================================== *)

Lemma add_unavailable (stats : value) (target : string) (source : list string)
    (f : value -> result value) (node : value) (e : exn) :
  extracted stats source f = Raise e -> In e handled_faults ->
  Nodes.add stats target source f node = (Ok tt, node).
Proof.
  intros E H. unfold Nodes.add. fold (extracted stats source f). rewrite E.
  unfold try_except, bind, lift. now rewrite (handled_caught e H).
Qed.

Lemma memory_usage_ints (m : list (string * value)) (f b c t : Z) :
  dict_get "free" m = Some (VInt f) ->
  dict_get "buffers" m = Some (VInt b) ->
  dict_get "cached" m = Some (VInt c) ->
  dict_get "total" m = Some (VInt t) ->
  Nodes.memory_usage (VDict m) =
  (q <- Num.int_truediv (f + b + c) t ;; Ok (VFloat (SFsub prec emax float_one q))).
Proof.
  intros Hf Hb Hc Ht. unfold Nodes.memory_usage. cbn [Py.getitem].
  rewrite Hf, Hb, Hc, Ht. cbn [rbind Num.add Num.as_num Num.truediv].
  destruct (Num.int_truediv (f + b + c) t); reflexivity.
Qed.

(** C6.  When the memory section of a statistics document holds the four
    integers [free], [buffers], [cached] and [total], [memory_usage] is set
    to [1 - (free + buffers + cached) / total], the division being the
    correctly rounded quotient of the two integers and the subtraction that
    of binary64 floats; with a total that is not zero the quotient exists
    unless it overflows.  For [{free:1, buffers:1, cached:1, total:10}]
    the result is the float [0.7].  With [total] zero the record is left
    as it was and nothing is raised. *)
Theorem import_statistics_memory_usage :
  (forall (sd m fields st : list (string * value)) (f b c t : Z) (q : spec_float),
      dict_get "memory" sd = Some (VDict m) ->
      dict_get "free" m = Some (VInt f) ->
      dict_get "buffers" m = Some (VInt b) ->
      dict_get "cached" m = Some (VInt c) ->
      dict_get "total" m = Some (VInt t) ->
      Num.int_truediv (f + b + c) t = Ok q ->
      dict_get "statistics" fields = Some (VDict st) ->
      Nodes.add (VDict sd) "memory_usage" ["memory"] Nodes.memory_usage (VDict fields)
      = (Ok tt,
         VDict (dict_set "statistics"
                  (VDict (dict_set "memory_usage"
                            (VFloat (SFsub prec emax float_one q)) st))
                  fields))) /\
  (forall (a t : Z),
      t <> 0 ->
      (exists q, Num.int_truediv a t = Ok q) \/
      Num.int_truediv a t = Raise OverflowError) /\
  (Num.float_of_int 1 = Ok float_one /\
   (q <- Num.int_truediv (1 + 1 + 1) 10 ;; Ok (SFsub prec emax float_one q))
   = Ok (Prim2SF 0x1.6666666666666p-1%float)) /\
  (forall (sd m : list (string * value)) (f b c : Z) (node : value),
      dict_get "memory" sd = Some (VDict m) ->
      dict_get "free" m = Some (VInt f) ->
      dict_get "buffers" m = Some (VInt b) ->
      dict_get "cached" m = Some (VInt c) ->
      dict_get "total" m = Some (VInt 0) ->
      Nodes.add (VDict sd) "memory_usage" ["memory"] Nodes.memory_usage node
      = (Ok tt, node)).
Proof.
  split; [|split; [|split; [split|]]].
  - intros sd m fields st f b c t q Hm Hf Hb Hc Ht Hq Hs.
    assert (E : extracted (VDict sd) ["memory"] Nodes.memory_usage
                = Ok (VFloat (SFsub prec emax float_one q))).
    { unfold extracted. cbn [Py.reduce Py.dict_getitem Py.getitem]. rewrite Hm.
      cbn [rbind]. rewrite (memory_usage_ints m f b c t Hf Hb Hc Ht), Hq. reflexivity. }
    rewrite (add_written _ _ _ _ _ st Hs); rewrite E; [reflexivity | exact I].
  - intros a t Ht. pose proof (int_truediv_faults a t) as H.
    unfold Num.int_truediv in *. destruct (t =? 0) eqn:Z; [apply Z.eqb_eq in Z; lia|].
    destruct (a =? 0); [left; eauto|].
    destruct (SFdiv prec emax (Num.exact a) (Num.exact t)); eauto.
  - vm_compute. reflexivity.
  - vm_compute. reflexivity.
  - intros sd m f b c node Hm Hf Hb Hc Ht.
    apply (add_unavailable _ _ _ _ _ ZeroDivisionError).
    + unfold extracted. cbn [Py.reduce Py.dict_getitem Py.getitem]. rewrite Hm.
      cbn [rbind]. now rewrite (memory_usage_ints m f b c 0 Hf Hb Hc Ht).
    + unfold handled_faults. simpl. auto.
Qed.

(** The double written [0.7] is that float. *)
#[warnings="-inexact-float"]
Example float_0_7 : Prim2SF 0.7%float = Prim2SF 0x1.6666666666666p-1%float.
Proof. reflexivity. Qed.

(** The example of the specification, end to end. *)
Example import_statistics_memory_example :
  Nodes.import_statistics
    [("n1", VDict [("flags", VDict []); ("statistics", VDict [("clients", VInt 0)])])]
    [VDict [("node_id", VStr "n1");
            ("memory", VDict [("free", VInt 1); ("buffers", VInt 1);
                              ("cached", VInt 1); ("total", VInt 10)])]]
  = (Ok tt,
     [("n1", VDict [("flags", VDict []);
                    ("statistics",
                     VDict [("clients", VInt 0);
                            ("memory_usage", VFloat (Prim2SF 0x1.6666666666666p-1%float))])])]).
Proof. vm_compute. reflexivity. Qed.

(* ===================================================================== *)
(** * Interface reconciliation from the vis data *)
(* ===================================================================== *)

Lemma fold_set_add_In (l : list string) (a : Nodes.pyset) (x : string) :
  In x (fold_left (fun s y => Nodes.set_add y s) l a) <-> In x a \/ In x l.
Proof.
  revert a. induction l as [|y l IH]; intros a; simpl.
  - tauto.
  - rewrite IH, set_add_In. intuition.
Qed.

Lemma fold_set_add_NoDup (l : list string) (a : Nodes.pyset) :
  NoDup a -> NoDup (fold_left (fun s y => Nodes.set_add y s) l a).
Proof.
  revert a. induction l as [|y l IH]; intros a H; simpl; auto.
  apply IH. now apply set_add_NoDup.
Qed.

Section Order.

Variable set_order : Nodes.pyset -> list string.
Hypothesis order_ok : set_iteration set_order.

Lemma set_order_In (s : Nodes.pyset) (x : string) : In x (set_order s) <-> In x s.
Proof.
  split; intros H.
  - eapply Permutation_in; [apply order_ok | exact H].
  - eapply Permutation_in; [apply Permutation_sym, order_ok | exact H].
Qed.

Lemma set_union_In (a b : Nodes.pyset) (x : string) :
  In x (Nodes.set_union set_order a b) <-> In x a \/ In x b.
Proof. unfold Nodes.set_union. now rewrite fold_set_add_In, set_order_In. Qed.

Lemma set_union_NoDup (a b : Nodes.pyset) :
  NoDup a -> NoDup (Nodes.set_union set_order a b).
Proof. apply fold_set_add_NoDup. Qed.

Lemma mapM_as_key (l : list string) : mapM Py.as_key (map VStr l) = Ok l.
Proof. induction l as [|k l IH]; simpl; auto. now rewrite IH. Qed.

(** One [try] block of the reconciliation. *)
Lemma gather_known (node : value) (path : list string) (ifs : Nodes.pyset) :
  shape path address_list node ->
  exists ifs',
    Nodes.gather set_order node path ifs = (Ok tt, ifs') /\
    (NoDup ifs -> NoDup ifs') /\
    (forall x, In x ifs' <-> In x ifs \/ In x (path_addresses node path)).
Proof.
  unfold shape, path_addresses, Nodes.gather. intros H.
  destruct (Nodes.walk node path) as [v|[]|] eqn:W; try contradiction.
  - destruct H as [l ->]. eexists. split.
    + apply try_except_ok. unfold bind, lift, modify. cbn [rbind].
      unfold Nodes.set_of. cbn [Py.iter rbind]. rewrite mapM_as_key. reflexivity.
    + split; [apply set_union_NoDup|].
      intros x. rewrite set_union_In, fold_set_add_In. simpl. rewrite strs_map. tauto.
  - exists ifs. split; [|split; auto].
    + eapply try_except_caught; reflexivity.
    + simpl. tauto.
Qed.

(** The body of the second loop on a record. *)
Lemma merge_ifs_union (group : Nodes.pyset) (fields ni nw : list (string * value)) :
  known_shapes (VDict fields) ->
  dict_get "nodeinfo" fields = Some (VDict ni) ->
  dict_get "network" ni = Some (VDict nw) ->
  exists l,
    Nodes.merge_ifs set_order group (VDict fields)
    = (Ok tt,
       VDict (dict_set "nodeinfo"
                (VDict (dict_set "network"
                          (VDict (dict_set "mesh_interfaces" (VList (map VStr l)) nw))
                          ni))
                fields)) /\
    NoDup l /\
    (forall x, In x l <-> In x (known_addresses (VDict fields)) \/ In x group).
Proof.
  intros Hk Hni Hnw. unfold known_shapes, known_paths in Hk.
  inversion Hk as [|? ? S1 Hk1]; subst. inversion Hk1 as [|? ? S2 Hk2]; subst.
  inversion Hk2 as [|? ? S3 Hk3]; subst. inversion Hk3 as [|? ? S4 _]; subst.
  destruct (gather_known _ _ [] S1) as (i1 & E1 & N1 & M1).
  destruct (gather_known _ _ i1 S2) as (i2 & E2 & N2 & M2).
  destruct (gather_known _ _ i2 S3) as (i3 & E3 & N3 & M3).
  destruct (gather_known _ _ i3 S4) as (i4 & E4 & N4 & M4).
  exists (set_order (Nodes.set_union set_order i4 group)).
  split; [|split].
  - unfold Nodes.merge_ifs.
    rewrite (bind_ok _ _ _ _ _ E1), (bind_ok _ _ _ _ _ E2), (bind_ok _ _ _ _ _ E3), E4.
    rewrite (at_key_dict _ _ _ _ Hni), (at_key_dict _ _ _ _ Hnw). reflexivity.
  - eapply Permutation_NoDup; [apply Permutation_sym, order_ok|].
    apply set_union_NoDup. apply N4, N3, N2, N1. constructor.
  - intros x. rewrite set_order_In, set_union_In, M4, M3, M2, M1.
    unfold known_addresses, known_paths. simpl. rewrite !in_app_iff. simpl. tauto.
Qed.

(** Which record a group goes to. *)
Lemma if_to_node_resolves (macs : Nodes.mac_table) (ifs : Nodes.pyset) :
  match Nodes.if_to_node set_order macs ifs with
  | Some (node_id, group) =>
      group = ifs /\ exists x, In x ifs /\ dict_get x macs = Some node_id
  | None => forall x, In x ifs -> dict_get x macs = None
  end.
Proof.
  unfold Nodes.if_to_node.
  destruct (find (fun d => dict_mem d macs) (set_order ifs)) as [d|] eqn:F.
  - apply find_some in F. destruct F as [Hin Hm]. unfold dict_mem in Hm.
    destruct (dict_get d macs) as [node_id|] eqn:G; [|discriminate].
    split; auto. exists d. split; auto. now apply set_order_In.
  - intros x Hx. apply set_order_In in Hx.
    pose proof (find_none _ _ F x Hx) as H. unfold dict_mem in H.
    now destruct (dict_get x macs).
Qed.

End Order.

(** The groups hold, under each primary, that primary and the secondaries
    linked to it. *)
Lemma mesh_groups_links (vis_data : list value) (groups : dict Nodes.pyset) :
  Nodes.mesh_groups vis_data = (Ok tt, groups) ->
  forall p x,
    (exists s, dict_get p groups = Some s /\ In x s) <->
    (exists line y, In line vis_data /\ link line p y /\ (x = p \/ x = y)).
Proof.
  unfold Nodes.mesh_groups.
  set (body := fun line : value =>
                 has <~ lift (Py.contains "secondary" line) ;;
                 if has then
                   primary <~ lift (v <- Py.getitem line "of" ;; Py.as_key v) ;;
                   Nodes.group_add primary primary ;;;
                   secondary <~ lift (v <- Py.getitem line "secondary" ;; Py.as_key v) ;;
                   Nodes.group_add primary secondary
                 else ret tt).
  assert (G : forall g0 g,
             for_each vis_data body g0 = (Ok tt, g) ->
             forall p x,
               (exists s, dict_get p g = Some s /\ In x s) <->
               (exists s, dict_get p g0 = Some s /\ In x s) \/
               (exists line y, In line vis_data /\ link line p y /\ (x = p \/ x = y))).
  { induction vis_data as [|line vis IH]; intros g0 g Hrun p x.
    - simpl in Hrun. injection Hrun as <-. split; auto.
      intros [H|(l & y & [] & _)]; auto.
    - cbn [for_each] in Hrun. unfold bind at 1 in Hrun.
      destruct (body line g0) as [[[]| e |] g1] eqn:B; try discriminate.
      rewrite (IH _ _ Hrun p x). clear IH Hrun.
      unfold body, bind, lift in B.
      destruct (Py.contains "secondary" line) as [[|]| |] eqn:C; try discriminate.
      + destruct (Py.getitem line "of") as [pv| |] eqn:O; try discriminate.
        cbn [rbind] in B.
        destruct (Py.as_key pv) as [p0| |] eqn:Kp; try discriminate.
        apply as_key_ok in Kp. subst pv.
        unfold Nodes.group_add at 1, modify in B.
        destruct (Py.getitem line "secondary") as [sv| |] eqn:Sv; try discriminate.
        cbn [rbind] in B.
        destruct (Py.as_key sv) as [s0| |] eqn:Ks; try discriminate.
        apply as_key_ok in Ks. subst sv.
        unfold Nodes.group_add, modify in B. injection B as <-.
        rewrite dict_get_set_same.
        assert (L : link line p0 s0) by (repeat split; auto).
        split.
        * intros [(s & Hs & Hx)|(l & y & Hl & Hy & Hxy)].
          -- rewrite !dict_get_set in Hs.
             destruct (String.eqb p p0) eqn:E.
             ++ apply String.eqb_eq in E. subst p0. injection Hs as <-.
                rewrite !set_add_In in Hx.
                destruct Hx as [->|[->|Hx]].
                ** right. exists line, s0. split; [now left|]. auto.
                ** right. exists line, s0. split; [now left|]. auto.
                ** left. destruct (dict_get p g0); [eauto|destruct Hx].
             ++ left. eauto.
          -- right. exists l, y. split; [now right|]. auto.
        * intros [(s & Hs & Hx)|(l & y & [<-|Hl] & Hy & Hxy)].
          -- left. rewrite !dict_get_set.
             destruct (String.eqb p p0) eqn:E.
             ++ apply String.eqb_eq in E. subst p0. eexists. split; [reflexivity|].
                rewrite !set_add_In. rewrite Hs. auto.
             ++ eauto.
          -- left. destruct Hy as (_ & Hof & Hsec).
             rewrite O in Hof. rewrite Sv in Hsec.
             injection Hof as <-. injection Hsec as <-.
             rewrite !dict_get_set, String.eqb_refl.
             eexists. split; [reflexivity|]. rewrite !set_add_In.
             destruct Hxy as [->| ->]; auto.
          -- right. exists l, y. auto.
      + injection B as <-. split.
        * intros [H|(l & y & Hl & Hy & Hxy)]; auto.
          right. exists l, y. split; [now right|]. auto.
        * intros [H|(l & y & [<-|Hl] & Hy & Hxy)]; auto.
          -- destruct Hy as (Hc & _). rewrite C in Hc. discriminate.
          -- right. exists l, y. auto. }
  intros Hrun p x. rewrite (G _ _ Hrun p x). split; auto.
  intros [(s & Hs & _)|H]; auto. discriminate.
Qed.

(** The example of the specification, for any addresses, any node
    identifier and any iteration order of sets. *)
Lemma import_mesh_ifs_example (set_order : Nodes.pyset -> list string)
    (node_id A B : string) :
  set_iteration set_order ->
  exists l,
    Nodes.import_mesh_ifs_vis_data set_order
      [(node_id, VDict [("nodeinfo",
                         VDict [("network", VDict [("mesh_interfaces", VList [VStr A])])])])]
      [VDict [("of", VStr A); ("secondary", VStr B)]]
    = (Ok tt,
       [(node_id, VDict [("nodeinfo",
                          VDict [("network",
                                  VDict [("mesh_interfaces", VList (map VStr l))])])])]) /\
    NoDup l /\
    (forall x, In x l <-> x = A \/ x = B).
Proof.
  intros Ho.
  set (node := VDict [("nodeinfo",
                       VDict [("network", VDict [("mesh_interfaces", VList [VStr A])])])]).
  set (ifs := Nodes.set_add B (Nodes.set_add A [])).
  assert (Hmacs : Nodes.build_mac_table [(node_id, node)] = Ok [(A, node_id)])
    by reflexivity.
  assert (Hgroups : Nodes.mesh_groups [VDict [("of", VStr A); ("secondary", VStr B)]]
                    = (Ok tt, [(A, ifs)])).
  { unfold Nodes.mesh_groups. cbn [for_each]. unfold bind, lift, ret, Nodes.group_add, modify.
    cbn [Py.contains Py.getitem dict_mem dict_get String.eqb Ascii.eqb Bool.eqb andb
         rbind Py.as_key dict_set].
    rewrite !String.eqb_refl. reflexivity. }
  assert (Hshapes : known_shapes node).
  { unfold known_shapes, known_paths, shape.
    repeat constructor; simpl; auto. now exists [A]. }
  destruct (merge_ifs_union set_order Ho ifs _ _ _ Hshapes eq_refl eq_refl)
    as (l & Hrun & ND & Hin).
  exists l. split; [|split; auto].
  - unfold Nodes.import_mesh_ifs_vis_data. rewrite Hmacs, Hgroups.
    cbn [map snd for_each].
    pose proof (if_to_node_resolves set_order Ho [(A, node_id)] ifs) as R.
    destruct (Nodes.if_to_node set_order [(A, node_id)] ifs) as [[owner group]|].
    + destruct R as (-> & x & Hx & Hg). cbn [dict_get] in Hg.
      destruct (String.eqb x A); [|discriminate]. injection Hg as <-.
      unfold bind, Nodes.at_node, ret. cbn [dict_get]. rewrite String.eqb_refl.
      subst node. rewrite Hrun. cbn [dict_set]. rewrite String.eqb_refl. reflexivity.
    + exfalso. assert (HA : In A ifs).
      { unfold ifs. rewrite !set_add_In. auto. }
      specialize (R A HA). cbn [dict_get] in R. rewrite String.eqb_refl in R.
      discriminate.
  - intros x. rewrite Hin. unfold ifs. rewrite !set_add_In.
    unfold known_addresses, known_paths, path_addresses. simpl.
    intuition congruence.
Qed.

(** Two groups that share the secondary ["S"] stay two groups: each goes
    to the owner of its primary, and neither record gets the primary of
    the other. *)
Example import_mesh_ifs_no_transitive_merge :
  let node a := VDict [("nodeinfo", VDict [("network", VDict [("mesh_interfaces", VList [VStr a])])])] in
  let node' a := VDict [("nodeinfo", VDict [("network",
                          VDict [("mesh_interfaces", VList [VStr a; VStr "S"])])])] in
  Nodes.import_mesh_ifs_vis_data (fun s => s)
    [("n1", node "P"); ("n2", node "Q")]
    [VDict [("of", VStr "P"); ("secondary", VStr "S")];
     VDict [("of", VStr "Q"); ("secondary", VStr "S")]]
  = (Ok tt, [("n1", node' "P"); ("n2", node' "Q")]).
Proof. vm_compute. reflexivity. Qed.

(* ===================================================================== *)
(** * Instances *)
(* ===================================================================== *)

(** The hypotheses of the theorems above hold on concrete stores and
    documents; each instance below applies its theorem to one. *)

Lemma prune_nodes_by_age_witness :
  Nodes.prune_nodes
    [("old", VDict [("lastseen", VStr "2020-01-01T12:00:00")]);
     ("new", VDict [("lastseen", VStr "2020-01-02T12:00:00")]);
     ("never", VDict [("flags", VDict [])])]
    (DateTime.mk 2020 1 8 12 0 0 0) 7
  = (Ok tt, [("new", VDict [("lastseen", VStr "2020-01-02T12:00:00")])]).
Proof.
  apply (proj1 prune_nodes_by_age
           [("old", VDict [("lastseen", VStr "2020-01-01T12:00:00")]);
            ("new", VDict [("lastseen", VStr "2020-01-02T12:00:00")]);
            ("never", VDict [("flags", VDict [])])]
           (DateTime.mk 2020 1 8 12 0 0 0) 7).
  - repeat constructor; simpl; intuition discriminate.
  - intros node_id node [H|[H|[H|[]]]]; injection H as <- <-.
    + exists [("lastseen", VStr "2020-01-01T12:00:00")]. split; [reflexivity|].
      right. exists (VStr "2020-01-01T12:00:00"), (DateTime.mk 2020 1 1 12 0 0 0).
      split; [reflexivity | vm_compute; reflexivity].
    + exists [("lastseen", VStr "2020-01-02T12:00:00")]. split; [reflexivity|].
      right. exists (VStr "2020-01-02T12:00:00"), (DateTime.mk 2020 1 2 12 0 0 0).
      split; [reflexivity | vm_compute; reflexivity].
    + exists [("flags", VDict [])]. split; [reflexivity|]. left. reflexivity.
Defined.

Lemma mark_uplink_derivation_witness :
  Nodes.check_uplink_recursive (VDict [("backbone", example_group)])
  = Ok [VStr "aa:bb"].
Proof.
  apply (proj1 (proj2 mark_uplink_derivation)).
  change [VStr "aa:bb"]
    with (established_peers [("aa:bb", VDict [("established", VBool true)])]
          ++ (established_peers [("cc:dd", VDict [])] ++ []) ++ []).
  eapply uplink_peers_nested; try reflexivity.
  - apply NoDup_cons; [simpl; tauto | apply NoDup_nil].
  - apply Forall_cons; [right; eexists; reflexivity | apply Forall_nil].
  - eapply uplink_peers_leaf; try reflexivity.
    + apply NoDup_cons; [simpl; tauto | apply NoDup_nil].
    + apply Forall_cons; [right; eexists; reflexivity | apply Forall_nil].
    + apply uplink_peers_none.
  - apply uplink_peers_none.
Defined.

Lemma import_nodeinfo_effect_witness :
  exists fields flags,
    Nodes.import_nodeinfo [] [VDict [("node_id", VStr "n1"); ("hostname", VStr "gw")]]
      (DateTime.mk 2020 1 1 0 0 0 0) true
    = (Ok tt, dict_set "n1" (VDict fields) []) /\
    dict_get "nodeinfo" fields
    = Some (VDict [("node_id", VStr "n1"); ("hostname", VStr "gw")]) /\
    dict_get "flags" fields = Some (VDict flags) /\
    dict_get "online" flags = Some (VBool true) /\
    dict_get "uplink" flags = Some (VBool false) /\
    (true = true ->
     dict_get "lastseen" fields
     = Some (VStr (DateTime.isoformat (DateTime.mk 2020 1 1 0 0 0 0)))) /\
    (dict_get "n1" ([] : Nodes.store) = None ->
     forall f, f <> "online" -> f <> "uplink" -> dict_get f flags = None).
Proof.
  apply (proj1 import_nodeinfo_effect [] _ "n1" (DateTime.mk 2020 1 1 0 0 0 0) true).
  - reflexivity.
  - intros node H. discriminate H.
Defined.

Lemma import_statistics_memory_usage_witness :
  Nodes.add
    (VDict [("memory", VDict [("free", VInt 1); ("buffers", VInt 1);
                              ("cached", VInt 1); ("total", VInt 10)])])
    "memory_usage" ["memory"] Nodes.memory_usage
    (VDict [("statistics", VDict [("clients", VInt 0)])])
  = (Ok tt,
     VDict (dict_set "statistics"
              (VDict (dict_set "memory_usage"
                        (VFloat (SFsub prec emax float_one
                                   (S754_finite false 5404319552844595 (-54))))
                        [("clients", VInt 0)]))
              [("statistics", VDict [("clients", VInt 0)])])).
Proof.
  apply (proj1 import_statistics_memory_usage
           [("memory", VDict [("free", VInt 1); ("buffers", VInt 1);
                              ("cached", VInt 1); ("total", VInt 10)])]
           [("free", VInt 1); ("buffers", VInt 1); ("cached", VInt 1); ("total", VInt 10)]
           [("statistics", VDict [("clients", VInt 0)])]
           [("clients", VInt 0)]
           1 1 1 10);
    reflexivity.
Defined.

Lemma import_vis_clientcount_witness :
  dict_get "n1"
    (snd (Nodes.import_vis_clientcount
            [("n1", VDict [("nodeinfo", VDict [("network",
                              VDict [("mesh_interfaces", VList [VStr "A"])])]);
                           ("statistics", VDict [("clients", VInt 5)])])]
            [VDict [("label", VStr "TT"); ("router", VStr "A")]]))
  = Some (VDict [("nodeinfo", VDict [("network",
                    VDict [("mesh_interfaces", VList [VStr "A"])])]);
                 ("statistics", VDict [("clients", VInt 5)])]).
Proof.
  apply (proj1 import_vis_clientcount_first_writer_wins _ _ "n1" _ (VInt 5));
    reflexivity.
Defined.


Lemma import_nodeinfo_frame_witness :
  exists node',
    dict_get "n1"
      (snd (Nodes.import_nodeinfo
              [("n1", VDict [("flags", VDict [("online", VBool true)]);
                             ("lastseen", VStr "2020-01-01T00:00:00");
                             ("statistics", VDict [("clients", VInt 3)])])]
              [VDict [("node_id", VStr "n1")]]
              (DateTime.mk 2020 1 2 0 0 0 0) false))
    = Some node' /\
    field "lastseen" node'
    = field "lastseen" (VDict [("flags", VDict [("online", VBool true)]);
                               ("lastseen", VStr "2020-01-01T00:00:00");
                               ("statistics", VDict [("clients", VInt 3)])]) /\
    field "firstseen" node'
    = field "firstseen" (VDict [("flags", VDict [("online", VBool true)]);
                                ("lastseen", VStr "2020-01-01T00:00:00");
                                ("statistics", VDict [("clients", VInt 3)])]) /\
    field "statistics" node'
    = field "statistics" (VDict [("flags", VDict [("online", VBool true)]);
                                 ("lastseen", VStr "2020-01-01T00:00:00");
                                 ("statistics", VDict [("clients", VInt 3)])]) /\
    same_outside_nodeinfo
      (VDict [("flags", VDict [("online", VBool true)]);
              ("lastseen", VStr "2020-01-01T00:00:00");
              ("statistics", VDict [("clients", VInt 3)])])
      node'.
Proof.
  apply (import_nodeinfo_frame _ _ _ "n1"). reflexivity.
Defined.

Lemma mark_vis_data_online_precedence_witness :
  dict_get "n2"
    (snd (Nodes.mark_vis_data_online (fun s => s)
            [("n1", VDict [("flags", VDict []);
                           ("nodeinfo", VDict [("network",
                              VDict [("mesh_interfaces", VList [VStr "A"])])])]);
             ("n2", VDict [("flags", VDict []);
                           ("nodeinfo", VDict [("network",
                              VDict [("mesh_interfaces", VList [VStr "B"])])])])]
            [VDict [("primary", VStr "A"); ("secondary", VStr "B")]]
            (DateTime.mk 2020 1 1 0 0 0 0)))
  = dict_get "n2"
      [("n1", VDict [("flags", VDict []);
                     ("nodeinfo", VDict [("network",
                        VDict [("mesh_interfaces", VList [VStr "A"])])])]);
       ("n2", VDict [("flags", VDict []);
                     ("nodeinfo", VDict [("network",
                        VDict [("mesh_interfaces", VList [VStr "B"])])])])].
Proof.
  apply (proj1 (proj2 (proj2 (proj2 mark_vis_data_online_precedence)))
           (fun s => s) _ _ _ [("A", "n1"); ("B", "n2")] "n2").
  - intros s. apply Permutation_refl.
  - reflexivity.
  - intros line a [<-|[]] H. injection H as <-. discriminate.
Defined.

(* ===================================================================== *)
(** * The limits of the statements above *)
(* ===================================================================== *)

(** [add] handles [KeyError], [TypeError] and [ZeroDivisionError] and no
    other exception: memory figures whose quotient is beyond the floats
    raise [OverflowError], which leaves the importer. *)
Example import_statistics_overflow_escapes :
  fst (Nodes.import_statistics
         [("n1", VDict [("flags", VDict []); ("statistics", VDict [("clients", VInt 0)])])]
         [VDict [("node_id", VStr "n1");
                 ("memory", VDict [("free", VInt (10 ^ 400)); ("buffers", VInt 0);
                                   ("cached", VInt 0); ("total", VInt 1)])]])
  = Raise OverflowError.
Proof. vm_compute. reflexivity. Qed.

(** [mark_uplink] reads the groups under [mesh_vpn.groups] only: the
    example tree put in the place of [mesh_vpn] itself has its own peers
    ignored and yields no uplink peer. *)
Example mark_uplink_reads_groups_only :
  derived_peers (VDict [("mesh_vpn", example_group)]) = Ok [].
Proof. reflexivity. Qed.

(** A record the NodeInfo import has just created has no [statistics]:
    without a reset before it, the statistics import writes nothing to
    it. *)
Example import_statistics_needs_reset :
  Nodes.import_statistics
    [("n1", VDict [("flags", VDict [])])]
    [VDict [("node_id", VStr "n1"); ("uptime", VInt 60)]]
  = (Ok tt, [("n1", VDict [("flags", VDict [])])]).
Proof. reflexivity. Qed.

(* ===================================================================== *)
(** * The other stages: reset, explicit prune, online marking *)
(* ===================================================================== *)

Lemma dict_get_keys_Some {A : Type} (k : string) (d : dict A) :
  In k (dict_keys d) -> exists v, dict_get k d = Some v.
Proof.
  intros H. destruct (dict_get k d) as [v|] eqn:E; [eauto|].
  apply dict_get_None_keys in E. contradiction.
Qed.

Lemma for_each_map {S A B : Type} (f : A -> B) (l : list A) (body : B -> M S unit) :
  for_each (map f l) body = for_each l (fun x => body (f x)).
Proof. induction l as [|x l IH]; simpl; [|rewrite IH]; reflexivity. Qed.

Lemma reset_loop_ok (l : list string) (nodes : Nodes.store) :
  (forall k, In k l -> exists fields, dict_get k nodes = Some (VDict fields)) ->
  fst (for_each l
         (fun node_id =>
            Nodes.at_node node_id (Py.setitem "statistics" (VDict [("clients", VInt 0)])))
         nodes) = Ok tt.
Proof.
  revert nodes. induction l as [|k l IH]; intros nodes H; [reflexivity|].
  cbn [for_each]. rewrite bind_fst.
  destruct (H k (or_introl eq_refl)) as [fields G].
  unfold Nodes.at_node at 1 2. rewrite G. cbn [Py.setitem fst snd].
  apply IH. intros k' Hk'. unfold Nodes.at_node. rewrite G. cbn [Py.setitem snd].
  rewrite dict_get_set.
  destruct (String.eqb k' k); [eauto | apply H; now right].
Qed.

(** X1.  After the Statistics Resetter every record has the statistics
    [{clients: 0}] and is otherwise as it was. *)
Theorem reset_statistics_effect :
  forall (nodes : Nodes.store),
    NoDup (dict_keys nodes) ->
    (forall node_id node, dict_get node_id nodes = Some node ->
                          exists fields, node = VDict fields) ->
    fst (Nodes.reset_statistics nodes) = Ok tt /\
    forall node_id node,
      dict_get node_id nodes = Some node ->
      exists node',
        dict_get node_id (snd (Nodes.reset_statistics nodes)) = Some node' /\
        field "statistics" node' = Some (VDict [("clients", VInt 0)]) /\
        forall k, k <> "statistics" -> field k node' = field k node.
Proof.
  intros nodes ND Hd. unfold Nodes.reset_statistics.
  assert (Ok_ : fst (for_each (dict_keys nodes)
                       (fun node_id =>
                          Nodes.at_node node_id
                            (Py.setitem "statistics" (VDict [("clients", VInt 0)])))
                       nodes) = Ok tt).
  { apply reset_loop_ok. intros k Hk.
    destruct (dict_get_keys_Some k nodes Hk) as [v G].
    destruct (Hd _ _ G) as [fields ->]. eauto. }
  split; [exact Ok_|].
  intros node_id node G.
  destruct (for_each (dict_keys nodes) _ nodes) as [r nodes'] eqn:Run.
  cbn [fst snd] in *. subst r.
  assert (Run' : for_each (map (fun k => (k, tt)) (dict_keys nodes))
                   (fun it : string * unit =>
                      let (k, x) := it in
                      Nodes.at_node k
                        ((fun _ : unit =>
                            Py.setitem "statistics" (VDict [("clients", VInt 0)])) x))
                   nodes = (Ok tt, nodes')).
  { rewrite for_each_map. exact Run. }
  assert (Hin : In (node_id, tt) (map (fun k => (k, tt)) (dict_keys nodes))).
  { apply in_map_iff. exists node_id. split; auto.
    apply dict_get_In in G. change node_id with (fst (node_id, node)).
    now apply in_map. }
  assert (ND' : NoDup (map fst (map (fun k : string => (k, tt)) (dict_keys nodes)))).
  { rewrite map_map. simpl. now rewrite map_id. }
  destruct (for_each_at_node_distinct _ _ _ _ ND' Run' _ _ Hin) as (n & G1 & G2).
  rewrite G in G1. injection G1 as <-.
  destruct (Hd _ _ G) as [fields ->].
  eexists. split; [exact G2|]. cbn [Py.setitem snd]. split.
  - apply dict_get_set_same.
  - intros k N. simpl. now apply dict_get_set_other.
Qed.

Lemma reset_statistics_effect_witness :
  fst (Nodes.reset_statistics
         [("n1", VDict [("flags", VDict []); ("statistics", VDict [("uptime", VInt 9)])]);
          ("n2", VDict [("flags", VDict [])])]) = Ok tt /\
  forall node_id node,
    dict_get node_id
      [("n1", VDict [("flags", VDict []); ("statistics", VDict [("uptime", VInt 9)])]);
       ("n2", VDict [("flags", VDict [])])] = Some node ->
    exists node',
      dict_get node_id
        (snd (Nodes.reset_statistics
                [("n1", VDict [("flags", VDict []);
                               ("statistics", VDict [("uptime", VInt 9)])]);
                 ("n2", VDict [("flags", VDict [])])])) = Some node' /\
      field "statistics" node' = Some (VDict [("clients", VInt 0)]) /\
      forall k, k <> "statistics" -> field k node' = field k node.
Proof.
  apply reset_statistics_effect.
  - apply NoDup_cons; [simpl; intuition discriminate|].
    apply NoDup_cons; [simpl; tauto | apply NoDup_nil].
  - intros node_id node H. cbn [dict_get] in H.
    destruct (String.eqb node_id "n1"); [injection H as <-; eauto|].
    destruct (String.eqb node_id "n2"); [injection H as <-; eauto | discriminate].
Defined.

(** X2.  Remove-by-identifier deletes the record if it is there and touches no
    other record. *)
Theorem prune_node_effect :
  forall (nodes : Nodes.store) (nodeid : string),
    fst (Nodes.prune_node nodes nodeid) = Ok tt /\
    dict_get nodeid (snd (Nodes.prune_node nodes nodeid)) = None /\
    forall k, k <> nodeid ->
              dict_get k (snd (Nodes.prune_node nodes nodeid)) = dict_get k nodes.
Proof.
  intros nodes nodeid. unfold Nodes.prune_node, dict_mem.
  destruct (dict_get nodeid nodes) eqn:E; cbn [fst snd].
  - split; [reflexivity|]. split.
    + rewrite dict_get_del. now rewrite String.eqb_refl.
    + intros k N. rewrite dict_get_del.
      destruct (String.eqb k nodeid) eqn:E'; auto.
      apply String.eqb_eq in E'. contradiction.
  - auto.
Qed.

(** X3.  Online marking sets [lastseen] to the injected time, sets [firstseen]
    to it only when the record has none, sets [flags.online], and touches
    nothing else. *)
Theorem mark_online_first_seen :
  forall (now : DateTime.datetime) (fields flags : list (string * value)),
    dict_get "flags" fields = Some (VDict flags) ->
    exists node',
      Nodes.mark_online now (VDict fields) = (Ok tt, node') /\
      field "lastseen" node' = Some (VStr (DateTime.isoformat now)) /\
      field "firstseen" node' =
        Some (match dict_get "firstseen" fields with
              | Some v => v
              | None => VStr (DateTime.isoformat now)
              end) /\
      flag "online" node' = Some (VBool true) /\
      (forall f, f <> "online" -> flag f node' = dict_get f flags) /\
      (forall k, k <> "lastseen" -> k <> "firstseen" -> k <> "flags" ->
                 field k node' = dict_get k fields).
Proof.
  intros now fields flags Hf.
  destruct (mark_online_effect now fields flags Hf) as (f' & E & L & F & O & R).
  exists (VDict f'). split; [exact E|]. split; [exact L|]. split; [exact F|].
  unfold flag. cbn [field]. rewrite O. cbn [field]. split; [|split].
  - apply dict_get_set_same.
  - intros f N. now apply dict_get_set_other.
  - exact R.
Qed.

Lemma mark_online_first_seen_witness :
  exists node',
    Nodes.mark_online (DateTime.mk 2020 1 2 3 4 5 0)
      (VDict [("flags", VDict [("online", VBool false)]);
              ("firstseen", VStr "2019-12-31T00:00:00")])
    = (Ok tt, node') /\
    field "lastseen" node' = Some (VStr (DateTime.isoformat (DateTime.mk 2020 1 2 3 4 5 0))) /\
    field "firstseen" node' =
      Some (match dict_get "firstseen"
                    [("flags", VDict [("online", VBool false)]);
                     ("firstseen", VStr "2019-12-31T00:00:00")] with
            | Some v => v
            | None => VStr (DateTime.isoformat (DateTime.mk 2020 1 2 3 4 5 0))
            end) /\
    flag "online" node' = Some (VBool true) /\
    (forall f, f <> "online" -> flag f node' = dict_get f [("online", VBool false)]) /\
    (forall k, k <> "lastseen" -> k <> "firstseen" -> k <> "flags" ->
               field k node' =
               dict_get k [("flags", VDict [("online", VBool false)]);
                           ("firstseen", VStr "2019-12-31T00:00:00")]).
Proof.
  apply (mark_online_first_seen (DateTime.mk 2020 1 2 3 4 5 0)
           [("flags", VDict [("online", VBool false)]);
            ("firstseen", VStr "2019-12-31T00:00:00")]
           [("online", VBool false)]).
  reflexivity.
Defined.

(* ===================================================================== *)
(** * Timestamps written by the store are read back *)
(* ===================================================================== *)

Lemma list_ascii_of_string_app (a b : string) :
  list_ascii_of_string (String.append a b)
  = list_ascii_of_string a ++ list_ascii_of_string b.
Proof. induction a as [|c a IH]; simpl; [|rewrite IH]; reflexivity. Qed.

Lemma code_digit (n : Z) : DateTime.code (DateTime.digit n) - 48 = n mod 10.
Proof.
  unfold DateTime.code, DateTime.digit.
  assert (B : 0 <= n mod 10 < 10) by (apply Z.mod_pos_bound; lia).
  rewrite nat_ascii_embedding by lia. lia.
Qed.

Lemma any_digit_digit (n : Z) : DateTime.any_digit (DateTime.digit n) = true.
Proof.
  unfold DateTime.any_digit, DateTime.between. rewrite code_digit.
  assert (B : 0 <= n mod 10 < 10) by (apply Z.mod_pos_bound; lia).
  apply andb_true_intro. split; apply Z.leb_le; lia.
Qed.

Lemma seq_hd {A B : Type} (p : DateTime.parser A) (k : A -> DateTime.parser B)
    (s r : list ascii) (a : A) (x : B * list ascii) :
  hd_error (p s) = Some (a, r) ->
  hd_error (k a r) = Some x ->
  hd_error (DateTime.seq_ p k s) = Some x.
Proof.
  unfold DateTime.seq_. intros Hp Hk.
  destruct (p s) as [|[a' r'] others]; [discriminate|].
  injection Hp as -> ->. cbn [flat_map fst snd].
  destruct (k a r); [discriminate|]. exact Hk.
Qed.

Lemma lit_hd (p : ascii -> bool) (c : ascii) (r : list ascii) :
  p c = true -> hd_error (DateTime.lit p (c :: r)) = Some (tt, r).
Proof. intros H. unfold DateTime.lit. now rewrite H. Qed.

Lemma p_Y_digits (y : Z) (rest : list ascii) :
  0 <= y <= 9999 ->
  hd_error (DateTime.p_Y (list_ascii_of_string (DateTime.digits 4 y) ++ rest))
  = Some (y, rest).
Proof.
  intros B. cbn [DateTime.digits]. rewrite !list_ascii_of_string_app.
  cbn [list_ascii_of_string app].
  unfold DateTime.p_Y, DateTime.seq_, DateTime.two.
  rewrite !any_digit_digit. cbn [andb flat_map fst snd app].
  rewrite !any_digit_digit. cbn [andb flat_map fst snd app hd_error].
  rewrite !code_digit. do 2 f_equal.
  pose proof (Z.div_mod y 10). pose proof (Z.div_mod (y / 10) 10).
  pose proof (Z.div_mod (y / 10 / 10) 10). pose proof (Z.div_mod (y / 10 / 10 / 10) 10).
  assert (y / 10 / 10 / 10 / 10 = 0).
  { rewrite !Z.div_div by lia. apply Z.div_small. lia. }
  lia.
Qed.

Lemma digits_2 (n : Z) :
  list_ascii_of_string (DateTime.digits 2 n) = [DateTime.digit (n / 10); DateTime.digit n].
Proof. reflexivity. Qed.

Tactic Notation "enumerate" ident(k) integer(bound) :=
  do bound (destruct k as [|k]; [reflexivity|]); exfalso; lia.

Lemma p_m_digits (k : nat) (rest : list ascii) :
  (1 <= k <= 12)%nat ->
  hd_error (DateTime.p_m (DateTime.digit (Z.of_nat k / 10) :: DateTime.digit (Z.of_nat k) :: rest))
  = Some (Z.of_nat k, rest).
Proof. intros B. destruct k as [|k]; [exfalso; lia|]. enumerate k 12. Qed.

Lemma p_d_digits (k : nat) (rest : list ascii) :
  (1 <= k <= 31)%nat ->
  hd_error (DateTime.p_d (DateTime.digit (Z.of_nat k / 10) :: DateTime.digit (Z.of_nat k) :: rest))
  = Some (Z.of_nat k, rest).
Proof. intros B. destruct k as [|k]; [exfalso; lia|]. enumerate k 31. Qed.

Lemma p_H_digits (k : nat) (rest : list ascii) :
  (k <= 23)%nat ->
  hd_error (DateTime.p_H (DateTime.digit (Z.of_nat k / 10) :: DateTime.digit (Z.of_nat k) :: rest))
  = Some (Z.of_nat k, rest).
Proof. intros B. enumerate k 24. Qed.

Lemma p_M_digits (k : nat) (rest : list ascii) :
  (k <= 59)%nat ->
  hd_error (DateTime.p_M (DateTime.digit (Z.of_nat k / 10) :: DateTime.digit (Z.of_nat k) :: rest))
  = Some (Z.of_nat k, rest).
Proof. intros B. enumerate k 60. Qed.

Lemma p_S_digits (k : nat) (rest : list ascii) :
  (k <= 59)%nat ->
  hd_error (DateTime.p_S (DateTime.digit (Z.of_nat k / 10) :: DateTime.digit (Z.of_nat k) :: rest))
  = Some (Z.of_nat k, rest).
Proof. intros B. enumerate k 60. Qed.

Lemma days_in_month_le (y m : Z) : DateTime.days_in_month y m <= 31.
Proof.
  unfold DateTime.days_in_month.
  repeat match goal with
         | |- context [match ?x with _ => _ end] => destruct x
         end; lia.
Qed.

Lemma p_format_isoformat (t : DateTime.datetime) :
  DateTime.valid t = true ->
  hd_error (DateTime.p_format (list_ascii_of_string (DateTime.isoformat t)))
  = Some (DateTime.mk (DateTime.year t) (DateTime.month t) (DateTime.day t)
            (DateTime.hour t) (DateTime.minute t) (DateTime.second t) 0,
          list_ascii_of_string
            (if DateTime.microsecond t =? 0 then ""
             else String.append "." (DateTime.digits 6 (DateTime.microsecond t)))).
Proof.
  destruct t as [y m d h mi s us]. intros V. unfold DateTime.valid in V.
  cbn [DateTime.year DateTime.month DateTime.day DateTime.hour DateTime.minute
       DateTime.second DateTime.microsecond] in *.
  repeat match type of V with
         | _ && _ = true => apply andb_prop in V; destruct V as [V ?]
         end.
  repeat match goal with
         | H : (_ <=? _) = true |- _ => apply Z.leb_le in H
         end.
  pose proof (days_in_month_le y m).
  unfold DateTime.isoformat.
  cbn [DateTime.year DateTime.month DateTime.day DateTime.hour DateTime.minute
       DateTime.second DateTime.microsecond].
  rewrite !list_ascii_of_string_app, !digits_2.
  cbn [list_ascii_of_string app].
  unfold DateTime.p_format.
  eapply seq_hd; [apply p_Y_digits; lia|].
  eapply seq_hd; [apply lit_hd; reflexivity|].
  rewrite <- (Z2Nat.id m) by lia.
  eapply seq_hd; [apply p_m_digits; lia|].
  eapply seq_hd; [apply lit_hd; reflexivity|].
  rewrite <- (Z2Nat.id d) by lia.
  eapply seq_hd; [apply p_d_digits; lia|].
  eapply seq_hd; [apply lit_hd; reflexivity|].
  rewrite <- (Z2Nat.id h) by lia.
  eapply seq_hd; [apply p_H_digits; lia|].
  eapply seq_hd; [apply lit_hd; reflexivity|].
  rewrite <- (Z2Nat.id mi) by lia.
  eapply seq_hd; [apply p_M_digits; lia|].
  eapply seq_hd; [apply lit_hd; reflexivity|].
  rewrite <- (Z2Nat.id s) by lia.
  eapply seq_hd; [apply p_S_digits; lia|].
  rewrite !Z2Nat.id by lia. reflexivity.
Qed.

Lemma strptime_whole_second (t : DateTime.datetime) :
  DateTime.valid t = true -> DateTime.microsecond t = 0 ->
  DateTime.strptime (VStr (DateTime.isoformat t)) = Ok t.
Proof.
  intros V U. pose proof (p_format_isoformat t V) as P.
  rewrite U in P. cbn [Z.eqb list_ascii_of_string] in P.
  unfold DateTime.strptime.
  destruct (DateTime.p_format _) as [|[t' r'] others]; [discriminate|].
  cbn [hd_error] in P. injection P as -> ->.
  destruct t as [y m d h mi s us]. cbn [DateTime.microsecond] in U. subst us.
  cbn [DateTime.year DateTime.month DateTime.day DateTime.hour DateTime.minute
       DateTime.second]. now rewrite V.
Qed.

Lemma strptime_fraction (t : DateTime.datetime) :
  DateTime.valid t = true -> DateTime.microsecond t <> 0 ->
  DateTime.strptime (VStr (DateTime.isoformat t)) = Raise ValueError.
Proof.
  intros V U. pose proof (p_format_isoformat t V) as P.
  apply Z.eqb_neq in U. rewrite U in P. cbn [String.append list_ascii_of_string] in P.
  unfold DateTime.strptime.
  destruct (DateTime.p_format _) as [|[t' r'] others]; [discriminate|].
  cbn [hd_error] in P. injection P as -> ->. reflexivity.
Qed.

(** X4.  A whole-second timestamp the constructor accepts is read back from its
    [isoformat] as the same timestamp: what online marking writes to
    [lastseen], age pruning parses. *)
Theorem strptime_isoformat :
  forall t : DateTime.datetime,
    DateTime.valid t = true ->
    DateTime.microsecond t = 0 ->
    DateTime.strptime (VStr (DateTime.isoformat t)) = Ok t.
Proof.
  intros t V U. pose proof (p_format_isoformat t V) as P.
  rewrite U in P. cbn [Z.eqb list_ascii_of_string] in P.
  unfold DateTime.strptime.
  destruct (DateTime.p_format _) as [|[t' r'] others]; [discriminate|].
  cbn [hd_error] in P. injection P as -> ->.
  destruct t as [y m d h mi s us]. cbn [DateTime.microsecond] in U. subst us.
  cbn [DateTime.year DateTime.month DateTime.day DateTime.hour DateTime.minute
       DateTime.second]. now rewrite V.
Qed.

Lemma strptime_isoformat_witness :
  DateTime.strptime (VStr (DateTime.isoformat (DateTime.mk 2020 2 29 23 59 59 0)))
  = Ok (DateTime.mk 2020 2 29 23 59 59 0).
Proof. apply strptime_isoformat; reflexivity. Defined.

(* ===================================================================== *)
(** * Online marking and pruning by age together *)
(* ===================================================================== *)

Lemma filterM_ok_each {A : Type} (p : A -> result bool) (l r : list A) :
  filterM p l = Ok r -> forall x, In x l -> exists b, p x = Ok b.
Proof.
  revert r. induction l as [|y l IH]; intros r H x Hin; [destruct Hin|].
  simpl in H. destruct (p y) as [b| |] eqn:E; try discriminate.
  simpl in H. destruct (filterM p l) as [r'| |]; try discriminate.
  destruct Hin as [<-|Hin]; eauto.
Qed.

Lemma prune_nodes_raises (nodes : Nodes.store) (now : DateTime.datetime) (days : Z)
    (node_id : string) (node : value) (e : exn) :
  In (node_id, node) nodes ->
  Nodes.stale now days node = Raise e ->
  fst (Nodes.prune_nodes nodes now days) <> Ok tt /\
  snd (Nodes.prune_nodes nodes now days) = nodes.
Proof.
  intros Hin Hs. unfold Nodes.prune_nodes.
  destruct (filterM _ nodes) as [r| |] eqn:F; cbn [fst snd];
    [|split; [discriminate | reflexivity] ..].
  destruct (filterM_ok_each _ _ _ F _ Hin) as [b Hb]. cbn [snd] in Hb. congruence.
Qed.

Lemma sub_days_diag (t : DateTime.datetime) : DateTime.sub_days t t = 0.
Proof. unfold DateTime.sub_days. now rewrite Z.sub_diag. Qed.

Lemma filter_all {A : Type} (q : A -> bool) (l : list A) :
  (forall x, In x l -> q x = true) -> filter q l = l.
Proof.
  induction l as [|x l IH]; intros H; simpl; auto.
  rewrite (H x) by now left. f_equal. apply IH. intros y Hy. apply H. now right.
Qed.

(** X5.  A timestamp with a fraction of a second is written by
    [isoformat] with six more digits, which the format of [prune_nodes]
    does not take: a record whose [lastseen] is such a timestamp makes
    age-based pruning raise, and nothing is removed. *)
Theorem prune_nodes_fractional_lastseen :
  forall (nodes : Nodes.store) (now t : DateTime.datetime) (days : Z)
         (node_id : string) (fields : list (string * value)),
    DateTime.valid t = true ->
    DateTime.microsecond t <> 0 ->
    In (node_id, VDict fields) nodes ->
    dict_get "lastseen" fields = Some (VStr (DateTime.isoformat t)) ->
    Nodes.stale now days (VDict fields) = Raise ValueError /\
    fst (Nodes.prune_nodes nodes now days) <> Ok tt /\
    snd (Nodes.prune_nodes nodes now days) = nodes.
Proof.
  intros nodes now t days node_id fields V U Hin L.
  assert (S : Nodes.stale now days (VDict fields) = Raise ValueError).
  { unfold Nodes.stale. cbn [Py.contains Py.getitem rbind]. unfold dict_mem.
    rewrite L. cbn [negb rbind]. now rewrite (strptime_fraction t V U). }
  split; [exact S|]. exact (prune_nodes_raises _ _ _ _ _ _ Hin S).
Qed.

Lemma prune_nodes_fractional_lastseen_witness :
  Nodes.stale (DateTime.mk 2020 1 8 12 0 0 0) 7
    (VDict [("lastseen", VStr (DateTime.isoformat (DateTime.mk 2020 1 8 11 0 0 250000)))])
  = Raise ValueError /\
  fst (Nodes.prune_nodes
         [("n1", VDict [("lastseen",
                         VStr (DateTime.isoformat (DateTime.mk 2020 1 8 11 0 0 250000)))])]
         (DateTime.mk 2020 1 8 12 0 0 0) 7) <> Ok tt /\
  snd (Nodes.prune_nodes
         [("n1", VDict [("lastseen",
                         VStr (DateTime.isoformat (DateTime.mk 2020 1 8 11 0 0 250000)))])]
         (DateTime.mk 2020 1 8 12 0 0 0) 7)
  = [("n1", VDict [("lastseen",
                    VStr (DateTime.isoformat (DateTime.mk 2020 1 8 11 0 0 250000)))])].
Proof.
  apply (prune_nodes_fractional_lastseen _ _ (DateTime.mk 2020 1 8 11 0 0 250000) _ "n1").
  - reflexivity.
  - discriminate.
  - left. reflexivity.
  - reflexivity.
Defined.


(* ===================================================================== *)
(** * Pruning by age: once is enough *)
(* ===================================================================== *)

Lemma prune_nodes_by (nodes : Nodes.store) (now : DateTime.datetime) (days : Z)
    (q : string * value -> bool) :
  NoDup (dict_keys nodes) ->
  (forall x, In x nodes -> Nodes.stale now days (snd x) = Ok (q x)) ->
  Nodes.prune_nodes nodes now days = (Ok tt, filter (fun x => negb (q x)) nodes).
Proof.
  intros ND Hq. unfold Nodes.prune_nodes.
  rewrite (filterM_total _ q) by exact Hq.
  apply f_equal. rewrite fold_del_filter. apply filter_ext_in.
  intros x Hx. apply f_equal. destruct (q x) eqn:K.
  - apply existsb_exists. exists x. split.
    + apply filter_In. now split.
    + apply String.eqb_refl.
  - apply not_true_is_false. intros E.
    apply existsb_exists in E. destruct E as (y & Hy & Ey).
    apply filter_In in Hy. destruct Hy as [Hy Ky].
    apply String.eqb_eq in Ey.
    assert (y = x) by (eapply NoDup_keys_same; eauto). subst y. congruence.
Qed.

Lemma NoDup_keys_filter {A : Type} (q : string * A -> bool) (d : dict A) :
  NoDup (dict_keys d) -> NoDup (dict_keys (filter q d)).
Proof.
  unfold dict_keys. induction d as [|x d IH]; intros ND; simpl; [constructor|].
  inversion ND as [|? ? Hn ND']; subst.
  destruct (q x); simpl; auto. constructor; auto.
  intros Hin. apply Hn. apply in_map_iff in Hin. destruct Hin as (y & E & Hy).
  apply filter_In in Hy. apply in_map_iff. exists y. tauto.
Qed.

(** Whether a record is read does not depend on the threshold, and a record
    young enough for a threshold is young enough for a larger one. *)
Lemma stale_threshold (now : DateTime.datetime) (days days' : Z) (node : value) (b : bool) :
  Nodes.stale now days node = Ok b ->
  exists b', Nodes.stale now days' node = Ok b' /\
             (days <= days' -> b = false -> b' = false).
Proof.
  unfold Nodes.stale.
  destruct (Py.contains "lastseen" node) as [has| |]; cbn [rbind]; try discriminate.
  destruct has; cbn [negb].
  - destruct (Py.getitem node "lastseen") as [s| |]; cbn [rbind]; try discriminate.
    destruct (DateTime.strptime s) as [t| |]; cbn [rbind]; try discriminate.
    intros H. injection H as <-. eexists. split; [reflexivity|].
    intros Hle Hb. rewrite Z.geb_leb in *. apply Z.leb_gt in Hb. apply Z.leb_gt. lia.
  - intros H. injection H as <-. exists true. split; [reflexivity|]. discriminate.
Qed.

Lemma prune_nodes_ok (nodes nodes' : Nodes.store) (now : DateTime.datetime) (days : Z) :
  Nodes.prune_nodes nodes now days = (Ok tt, nodes') ->
  forall x, In x nodes -> exists b, Nodes.stale now days (snd x) = Ok b.
Proof.
  unfold Nodes.prune_nodes. intros H.
  destruct (filterM _ nodes) as [r| |] eqn:F; try discriminate.
  exact (filterM_ok_each _ _ _ F).
Qed.

(** X7.  Age-based pruning only removes: what it keeps it keeps as it
    was and in order.  Pruning the result again at the same time with the
    same threshold removes nothing more, and a larger threshold keeps at
    least the same records. *)
Theorem prune_nodes_idempotent :
  forall (nodes nodes' : Nodes.store) (now : DateTime.datetime) (days : Z),
    NoDup (dict_keys nodes) ->
    Nodes.prune_nodes nodes now days = (Ok tt, nodes') ->
    (exists q, nodes' = filter q nodes) /\
    Nodes.prune_nodes nodes' now days = (Ok tt, nodes') /\
    (forall days', days <= days' ->
       exists nodes'', Nodes.prune_nodes nodes now days' = (Ok tt, nodes'') /\
                       incl nodes' nodes'').
Proof.
  intros nodes nodes' now days ND H.
  pose proof (prune_nodes_ok _ _ _ _ H) as Hok.
  set (q := fun x : string * value =>
              match Nodes.stale now days (snd x) with Ok b => b | _ => false end).
  assert (Hq : forall x, In x nodes -> Nodes.stale now days (snd x) = Ok (q x)).
  { intros x Hx. destruct (Hok x Hx) as [b Hb]. unfold q. now rewrite Hb. }
  rewrite (prune_nodes_by _ _ _ q ND Hq) in H. injection H as <-.
  split; [eauto|]. split.
  - rewrite (prune_nodes_by _ _ _ q).
    + apply f_equal. apply filter_all. intros x Hx. apply filter_In in Hx. tauto.
    + now apply NoDup_keys_filter.
    + intros x Hx. apply filter_In in Hx. apply Hq. tauto.
  - intros days' Hle.
    set (q' := fun x : string * value =>
                 match Nodes.stale now days' (snd x) with Ok b => b | _ => false end).
    assert (Hq' : forall x, In x nodes -> Nodes.stale now days' (snd x) = Ok (q' x)).
    { intros x Hx. destruct (stale_threshold now days days' _ _ (Hq x Hx)) as (b' & Hb & _).
      unfold q'. now rewrite Hb. }
    eexists. split; [apply (prune_nodes_by _ _ _ q' ND Hq')|].
    intros x Hx. apply filter_In in Hx. destruct Hx as [Hx Kx].
    apply filter_In. split; auto.
    destruct (stale_threshold now days days' _ _ (Hq x Hx)) as (b' & Hb & Hmon).
    rewrite (Hq' x Hx) in Hb. injection Hb as ->.
    apply negb_true_iff in Kx. apply negb_true_iff. auto.
Qed.

Lemma prune_nodes_idempotent_witness :
  (exists q, [("new", VDict [("lastseen", VStr "2020-01-02T12:00:00")])]
             = filter q [("old", VDict [("lastseen", VStr "2020-01-01T12:00:00")]);
                         ("new", VDict [("lastseen", VStr "2020-01-02T12:00:00")])]) /\
  Nodes.prune_nodes [("new", VDict [("lastseen", VStr "2020-01-02T12:00:00")])]
    (DateTime.mk 2020 1 8 12 0 0 0) 7
  = (Ok tt, [("new", VDict [("lastseen", VStr "2020-01-02T12:00:00")])]) /\
  (forall days', 7 <= days' ->
     exists nodes'',
       Nodes.prune_nodes
         [("old", VDict [("lastseen", VStr "2020-01-01T12:00:00")]);
          ("new", VDict [("lastseen", VStr "2020-01-02T12:00:00")])]
         (DateTime.mk 2020 1 8 12 0 0 0) days' = (Ok tt, nodes'') /\
       incl [("new", VDict [("lastseen", VStr "2020-01-02T12:00:00")])] nodes'').
Proof.
  apply (prune_nodes_idempotent
           [("old", VDict [("lastseen", VStr "2020-01-01T12:00:00")]);
            ("new", VDict [("lastseen", VStr "2020-01-02T12:00:00")])]).
  - apply NoDup_cons; [simpl; intuition discriminate|].
    apply NoDup_cons; [simpl; tauto | apply NoDup_nil].
  - vm_compute. reflexivity.
Defined.

(** X6.  What [mark_online] writes at a whole second, [prune_nodes] reads:
    the record's age at [now'] is the age of the marking, and a store whose
    records were all last seen at [now] loses none of them to a pruning at
    [now] with a threshold of at least one day.  In any store, a record
    last seen at [now] is among those a pruning at [now] keeps, if the
    pruning returns. *)
Theorem mark_online_then_prune :
  (forall (now now' : DateTime.datetime) (days : Z) (fields flags : list (string * value)),
      DateTime.valid now = true ->
      DateTime.microsecond now = 0 ->
      dict_get "flags" fields = Some (VDict flags) ->
      Nodes.stale now' days (snd (Nodes.mark_online now (VDict fields)))
      = Ok (DateTime.sub_days now' now >=? days)) /\
  (forall (nodes : Nodes.store) (now : DateTime.datetime) (days : Z),
      DateTime.valid now = true ->
      DateTime.microsecond now = 0 ->
      0 < days ->
      NoDup (dict_keys nodes) ->
      (forall node_id node, In (node_id, node) nodes -> marked now node) ->
      Nodes.prune_nodes nodes now days = (Ok tt, nodes)) /\
  (forall (nodes nodes' : Nodes.store) (now : DateTime.datetime) (days : Z)
          (node_id : string) (node : value),
      DateTime.valid now = true ->
      DateTime.microsecond now = 0 ->
      0 < days ->
      NoDup (dict_keys nodes) ->
      In (node_id, node) nodes ->
      marked now node ->
      Nodes.prune_nodes nodes now days = (Ok tt, nodes') ->
      In (node_id, node) nodes').
Proof.
  split; [|split].
  - intros now now' days fields flags V U Hf.
    destruct (mark_online_effect now fields flags Hf) as (f' & E & L & _).
    rewrite E. cbn [snd]. unfold Nodes.stale.
    cbn [Py.contains Py.getitem rbind]. unfold dict_mem. rewrite L.
    cbn [negb rbind]. now rewrite (strptime_whole_second now V U).
  - intros nodes now days V U D ND Hm.
    assert (Hd : forall node_id node, In (node_id, node) nodes ->
                   exists d, node = VDict d /\
                     dict_get "lastseen" d = Some (VStr (DateTime.isoformat now))).
    { intros node_id node Hin. destruct (Hm _ _ Hin) as [L _].
      destruct node; try discriminate L. eauto. }
    rewrite prune_nodes_filter; auto.
    + apply f_equal. apply filter_all. intros [k v] Hin. cbn [snd].
      destruct (Hd _ _ Hin) as (d & -> & L).
      rewrite (kept_lastseen now now days d _ L (strptime_whole_second now V U)).
      rewrite sub_days_diag. now apply Z.ltb_lt.
    + intros node_id node Hin. destruct (Hd _ _ Hin) as (d & -> & L).
      exists d. split; auto. right. eauto using strptime_whole_second.
  - intros nodes nodes' now days node_id node V U D ND Hin [L _] H.
    destruct node as [| | | | | |d]; try discriminate L. cbn [field] in L.
    pose proof (prune_nodes_ok _ _ _ _ H) as Hok.
    set (q := fun x : string * value =>
                match Nodes.stale now days (snd x) with Ok b => b | _ => false end).
    assert (Hq : forall x, In x nodes -> Nodes.stale now days (snd x) = Ok (q x)).
    { intros x Hx. destruct (Hok x Hx) as [b Hb]. unfold q. now rewrite Hb. }
    rewrite (prune_nodes_by _ _ _ q ND Hq) in H. injection H as <-.
    apply filter_In. split; [exact Hin|].
    unfold q. cbn [snd]. unfold Nodes.stale.
    cbn [Py.contains Py.getitem rbind]. unfold dict_mem. rewrite L.
    cbn [negb rbind]. rewrite (strptime_whole_second now V U). cbn [rbind].
    rewrite sub_days_diag, Z.geb_leb. apply negb_true_iff. apply Z.leb_gt. exact D.
Qed.

Lemma mark_online_then_prune_witness :
  Nodes.prune_nodes
    [("n1", snd (Nodes.mark_online (DateTime.mk 2020 1 8 12 0 0 0)
                   (VDict [("flags", VDict [])])))]
    (DateTime.mk 2020 1 8 12 0 0 0) 1
  = (Ok tt,
     [("n1", snd (Nodes.mark_online (DateTime.mk 2020 1 8 12 0 0 0)
                    (VDict [("flags", VDict [])])))]).
Proof.
  apply (proj1 (proj2 mark_online_then_prune)).
  - reflexivity.
  - reflexivity.
  - lia.
  - apply NoDup_cons; [simpl; tauto | apply NoDup_nil].
  - intros node_id node [H|[]]. injection H as <- <-. split; reflexivity.
Defined.

(* ===================================================================== *)
(** * The Address Index: what it holds and what it raises *)
(* ===================================================================== *)

Lemma try_except_no_key_error {S : Type} (m : M S unit) (s : S) :
  fst (try_except [KeyError] m s) <> Raise KeyError.
Proof.
  unfold try_except. destruct (m s) as [[[]|e|] s']; cbn; try discriminate.
  destruct e; cbn; discriminate.
Qed.

Lemma bind_no_key_error {S A B : Type} (m : M S A) (k : A -> M S B) :
  (forall s, fst (m s) <> Raise KeyError) ->
  (forall a s, fst (k a s) <> Raise KeyError) ->
  forall s, fst (bind m k s) <> Raise KeyError.
Proof.
  intros Hm Hk s. unfold bind. specialize (Hm s).
  destruct (m s) as [[a|e|] s']; cbn [fst] in *; [apply Hk | | discriminate].
  intros E. apply Hm. injection E as ->. reflexivity.
Qed.

Lemma for_each_no_key_error {S A : Type} (l : list A) (body : A -> M S unit) :
  (forall x s, fst (body x s) <> Raise KeyError) ->
  forall s, fst (for_each l body s) <> Raise KeyError.
Proof.
  intros Hb. induction l as [|x l IH]; intros s.
  - cbn. discriminate.
  - cbn [for_each]. apply bind_no_key_error; auto.
Qed.

Section IndexRange.

Variable P : string -> Prop.

(** Every identifier the table holds satisfies [P], if it did before. *)
Let range (macs macs' : Nodes.mac_table) : Prop :=
  (forall a node_id, dict_get a macs = Some node_id -> P node_id) ->
  (forall a node_id, dict_get a macs' = Some node_id -> P node_id).

Lemma range_refl : forall s, range s s.
Proof. intros s H. exact H. Qed.

Lemma range_trans : forall a b c, range a b -> range b c -> range a c.
Proof. intros a b c H1 H2 H. apply H2, H1, H. Qed.

Lemma record_range (node_id : string) (mac : value) :
  P node_id -> preserves range (Nodes.record node_id mac).
Proof.
  intros Hp s. unfold Nodes.record, bind, lift, modify.
  destruct (Py.as_key mac) as [k| |]; cbn [snd]; try apply range_refl.
  intros H a i. rewrite dict_get_set. destruct (String.eqb a k).
  - intros E. injection E as <-. exact Hp.
  - apply H.
Qed.

Lemma build_mac_table_node_range (item : string * value) :
  P (fst item) -> preserves range (Nodes.build_mac_table_node item).
Proof.
  pose proof range_refl as Hr. pose proof range_trans as Ht.
  destruct item as [node_id node]. cbn [fst]. intros Hp.
  unfold Nodes.build_mac_table_node.
  apply (preserves_bind _ Ht).
  - apply preserves_try_except. apply (preserves_bind _ Ht).
    + apply (preserves_lift _ Hr).
    + intros macs. apply (preserves_for_each _ Hr Ht). intros mac _.
      now apply record_range.
  - intros _. apply preserves_try_except. apply (preserves_bind _ Ht).
    + apply (preserves_lift _ Hr).
    + intros uppers. apply (preserves_for_each _ Hr Ht). intros upper_if _.
      apply (preserves_bind _ Ht); [apply (preserves_lift _ Hr)|].
      intros lowers. apply (preserves_for_each _ Hr Ht). intros lower_if _.
      apply (preserves_bind _ Ht); [apply (preserves_lift _ Hr)|].
      intros macs. apply (preserves_for_each _ Hr Ht). intros mac _.
      now apply record_range.
Qed.

End IndexRange.

(** X8.  No [KeyError] leaves [build_mac_table], whatever the records hold,
    and every identifier in the index is the identifier of a record of the
    store, so that [nodes[macs[a]]] is defined for every address of the
    index. *)
Theorem build_mac_table_range :
  (forall (nodes : Nodes.store), Nodes.build_mac_table nodes <> Raise KeyError) /\
  (forall (nodes : Nodes.store) (macs : Nodes.mac_table) (a node_id : string),
      Nodes.build_mac_table nodes = Ok macs ->
      dict_get a macs = Some node_id ->
      exists node, In (node_id, node) nodes).
Proof.
  split.
  - intros nodes. unfold Nodes.build_mac_table.
    assert (Hb : forall x s, fst (Nodes.build_mac_table_node x s) <> Raise KeyError).
    { intros [node_id node]. unfold Nodes.build_mac_table_node.
      apply bind_no_key_error.
      - apply try_except_no_key_error.
      - intros _. apply try_except_no_key_error. }
    pose proof (for_each_no_key_error nodes Nodes.build_mac_table_node Hb []) as H.
    destruct (for_each nodes Nodes.build_mac_table_node []) as [[[]|e|] macs];
      cbn [fst] in H; congruence.
  - intros nodes macs a node_id H G.
    assert (R : forall a i, dict_get a macs = Some i ->
                            exists node, In (i, node) nodes).
    { unfold Nodes.build_mac_table in H.
      pose proof (preserves_for_each _
                    (range_refl (fun i => exists node, In (i, node) nodes))
                    (range_trans (fun i => exists node, In (i, node) nodes))
                    nodes Nodes.build_mac_table_node) as Hp.
      assert (Hb : forall x, In x nodes ->
                     preserves (fun macs macs' : Nodes.mac_table =>
                        (forall a i, dict_get a macs = Some i ->
                                     exists node, In (i, node) nodes) ->
                        (forall a i, dict_get a macs' = Some i ->
                                     exists node, In (i, node) nodes))
                       (Nodes.build_mac_table_node x)).
      { intros [i n] Hin. apply build_mac_table_node_range. cbn [fst]. eauto. }
      specialize (Hp Hb []).
      destruct (for_each nodes Nodes.build_mac_table_node []) as [[[]|e|] macs0];
        try discriminate.
      injection H as <-. cbn [snd] in Hp. apply Hp.
      intros a0 i0 E. discriminate E. }
    exact (R a node_id G).
Qed.

Lemma build_mac_table_range_witness :
  exists node,
    In ("n1", node)
       [("n1", VDict [("nodeinfo", VDict [("network",
                         VDict [("mesh_interfaces", VList [VStr "A"])])])])].
Proof.
  apply (proj2 build_mac_table_range
           [("n1", VDict [("nodeinfo", VDict [("network",
                             VDict [("mesh_interfaces", VList [VStr "A"])])])])]
           [("A", "n1")] "A" "n1"); reflexivity.
Defined.

(* ===================================================================== *)
(** * Which records a stage can reach *)
(* ===================================================================== *)

Lemma at_node_keys {A : Type} (node_id : string) (m : M value A) (nodes : Nodes.store) :
  dict_keys (snd (Nodes.at_node node_id m nodes)) = dict_keys nodes.
Proof.
  unfold Nodes.at_node. destruct (dict_get node_id nodes) as [node|] eqn:E; auto.
  destruct (m node) as [r node']. cbn [snd]. rewrite dict_keys_set.
  unfold dict_mem. now rewrite E.
Qed.

Lemma at_node_other {A : Type} (node_id k : string) (m : M value A) (nodes : Nodes.store) :
  k <> node_id ->
  dict_get k (snd (Nodes.at_node node_id m nodes)) = dict_get k nodes.
Proof.
  intros N. unfold Nodes.at_node. destruct (dict_get node_id nodes) as [node|]; auto.
  destruct (m node) as [r node']. cbn [snd]. now apply dict_get_set_other.
Qed.

(** The identifier a document names. *)
Lemma node_id_named (d : value) (k : string) :
  (v <- Py.getitem d "node_id" ;; Py.as_key v) = Ok k ->
  Py.getitem d "node_id" = Ok (VStr k).
Proof.
  destruct (Py.getitem d "node_id") as [v| |]; cbn [rbind]; try discriminate.
  intros H. apply as_key_ok in H. now subst.
Qed.

Lemma preserves_bind_lift {S A B : Type} (R : S -> S -> Prop)
    (Hr : forall s, R s s) (r : result A) (k : A -> M S B) :
  (forall a, r = Ok a -> preserves R (k a)) ->
  preserves R (bind (lift r) k).
Proof.
  intros H s. unfold bind, lift. destruct r as [a| |]; cbn [snd]; auto.
  now apply H.
Qed.

Section SameKeys.

Let same_keys (nodes nodes' : Nodes.store) : Prop := dict_keys nodes' = dict_keys nodes.

Lemma same_keys_refl : forall s, same_keys s s.
Proof. reflexivity. Qed.

Lemma same_keys_trans : forall a b c, same_keys a b -> same_keys b c -> same_keys a c.
Proof. unfold same_keys. intros a b c H1 H2. congruence. Qed.

Lemma same_keys_at_node {A : Type} (node_id : string) (m : M value A) :
  preserves same_keys (Nodes.at_node node_id m).
Proof. intros s. apply at_node_keys. Qed.

Lemma same_keys_loop {X : Type} (l : list X) (body : X -> M Nodes.store unit) :
  (forall x, In x l -> preserves same_keys (body x)) ->
  forall nodes, dict_keys (snd (for_each l body nodes)) = dict_keys nodes.
Proof.
  intros H. exact (preserves_for_each _ same_keys_refl same_keys_trans l body H).
Qed.

Lemma same_keys_import_statistics_doc (d : value) :
  preserves same_keys (Nodes.import_statistics_doc d).
Proof.
  pose proof same_keys_refl as Hr. pose proof same_keys_trans as Ht.
  intros nodes. unfold Nodes.import_statistics_doc.
  apply (preserves_bind _ Ht); [apply (preserves_lift _ Hr)|].
  intros has. destruct has; [|apply (preserves_ret _ Hr)].
  apply (preserves_bind _ Ht); [apply (preserves_lift _ Hr)|].
  intros known. destruct known; [|apply (preserves_ret _ Hr)].
  apply (preserves_bind _ Ht); [apply (preserves_lift _ Hr)|].
  intros node_id. apply same_keys_at_node.
Qed.

End SameKeys.

Lemma reset_statistics_keys (nodes : Nodes.store) :
  dict_keys (snd (Nodes.reset_statistics nodes)) = dict_keys nodes.
Proof.
  unfold Nodes.reset_statistics.
  apply same_keys_loop. intros node_id _. apply same_keys_at_node.
Qed.

Lemma import_statistics_keys (nodes : Nodes.store) (stats : list value) :
  dict_keys (snd (Nodes.import_statistics nodes stats)) = dict_keys nodes.
Proof.
  unfold Nodes.import_statistics.
  destruct (Nodes.build_mac_table nodes); cbn [snd]; auto.
  apply same_keys_loop. intros d _. apply same_keys_import_statistics_doc.
Qed.

Lemma import_vis_clientcount_keys (nodes : Nodes.store) (vis_data : list value) :
  dict_keys (snd (Nodes.import_vis_clientcount nodes vis_data)) = dict_keys nodes.
Proof.
  unfold Nodes.import_vis_clientcount.
  destruct (Nodes.build_mac_table nodes) as [macs| |]; cbn [snd]; auto.
  destruct (Nodes.client_nodes macs vis_data) as [data| |]; cbn [snd]; auto.
  apply same_keys_loop. intros [node_id n] _. apply same_keys_at_node.
Qed.

(** X10.  The stages that work on existing records neither add nor remove
    a node: after the Statistics Resetter, the Statistics Importer and the
    three vis stages the store has the identifiers it had, in the same
    order, whether the stage returned or raised. *)
Theorem stages_keep_node_ids :
  (forall nodes,
      dict_keys (snd (Nodes.reset_statistics nodes)) = dict_keys nodes) /\
  (forall nodes stats,
      dict_keys (snd (Nodes.import_statistics nodes stats)) = dict_keys nodes) /\
  (forall set_order nodes vis_data,
      dict_keys (snd (Nodes.import_mesh_ifs_vis_data set_order nodes vis_data))
      = dict_keys nodes) /\
  (forall nodes vis_data,
      dict_keys (snd (Nodes.import_vis_clientcount nodes vis_data)) = dict_keys nodes) /\
  (forall set_order nodes vis_data now,
      dict_keys (snd (Nodes.mark_vis_data_online set_order nodes vis_data now))
      = dict_keys nodes).
Proof.
  split; [|split; [|split; [|split]]].
  - exact reset_statistics_keys.
  - exact import_statistics_keys.
  - intros set_order nodes vis_data. unfold Nodes.import_mesh_ifs_vis_data.
    destruct (Nodes.build_mac_table nodes) as [macs| |]; cbn [snd]; auto.
    destruct (Nodes.mesh_groups vis_data) as [[[]| |] mesh_ifs]; cbn [snd]; auto.
    apply same_keys_loop. intros ifs _.
    destruct (Nodes.if_to_node set_order macs ifs) as [[node_id group]|].
    + apply same_keys_at_node.
    + intros s. reflexivity.
  - exact import_vis_clientcount_keys.
  - intros set_order nodes vis_data now. unfold Nodes.mark_vis_data_online.
    destruct (Nodes.build_mac_table nodes) as [macs| |]; cbn [snd]; auto.
    destruct (Nodes.online_set vis_data) as [[[]| |] online]; cbn [snd]; auto.
    apply same_keys_loop. intros mac _.
    destruct (dict_get mac macs) as [node_id|].
    + apply same_keys_at_node.
    + intros s. reflexivity.
Qed.

Section Growth.

Variable docs : list value.

Let named (node_id : string) : Prop :=
  exists doc, In doc docs /\ Py.getitem doc "node_id" = Ok (VStr node_id).

Let grows (nodes nodes' : Nodes.store) : Prop :=
  exists new, dict_keys nodes' = dict_keys nodes ++ new /\
              forall node_id, In node_id new -> named node_id.

Lemma grows_refl : forall s, grows s s.
Proof. intros s. exists []. split; [now rewrite app_nil_r | intros i []]. Qed.

Lemma grows_trans : forall a b c, grows a b -> grows b c -> grows a c.
Proof.
  intros a b c (n1 & E1 & H1) (n2 & E2 & H2). exists (n1 ++ n2). split.
  - now rewrite E2, E1, app_assoc.
  - intros i Hi. apply in_app_or in Hi. destruct Hi; auto.
Qed.

Lemma grows_import_nodeinfo_doc (now : DateTime.datetime) (assume_online : bool)
    (d : value) :
  In d docs -> preserves grows (Nodes.import_nodeinfo_doc now assume_online d).
Proof.
  intros Hin. unfold Nodes.import_nodeinfo_doc.
  apply (preserves_bind_lift _ grows_refl). intros node_id E.
  apply node_id_named in E.
  apply (preserves_bind _ grows_trans).
  - intros nodes. unfold Nodes.get_or_create, modify. cbn [snd].
    destruct (dict_mem node_id nodes) eqn:Hm.
    + apply grows_refl.
    + exists [node_id]. rewrite dict_keys_set, Hm. split; auto.
      intros i [<-|[]]. exists d. auto.
  - intros _ nodes. exists []. rewrite at_node_keys, app_nil_r. split; auto.
    intros i [].
Qed.

End Growth.

(** X11.  The NodeInfo Importer only adds nodes: the identifiers the store
    had stay, in their order, and each identifier that comes after them is
    the identifier of one of the documents, whether the import returned or
    raised. *)
Theorem import_nodeinfo_keeps_nodes :
  forall (nodes : Nodes.store) (nodeinfos : list value) (now : DateTime.datetime)
         (assume_online : bool),
    exists new,
      dict_keys (snd (Nodes.import_nodeinfo nodes nodeinfos now assume_online))
      = dict_keys nodes ++ new /\
      forall node_id, In node_id new ->
        exists doc, In doc nodeinfos /\ Py.getitem doc "node_id" = Ok (VStr node_id).
Proof.
  intros nodes nodeinfos now assume_online. unfold Nodes.import_nodeinfo.
  apply (preserves_for_each _ (grows_refl nodeinfos) (grows_trans nodeinfos)).
  intros d Hin.
  apply (preserves_bind _ (grows_trans nodeinfos));
    [apply (preserves_lift _ (grows_refl nodeinfos))|].
  intros has. destruct has.
  - now apply grows_import_nodeinfo_doc.
  - apply (preserves_ret _ (grows_refl nodeinfos)).
Qed.

Section Untouched.

Variable node_id : string.

Let untouched (nodes nodes' : Nodes.store) : Prop :=
  dict_get node_id nodes' = dict_get node_id nodes.

Lemma untouched_refl : forall s, untouched s s.
Proof. reflexivity. Qed.

Lemma untouched_trans : forall a b c, untouched a b -> untouched b c -> untouched a c.
Proof. unfold untouched. intros a b c H1 H2. congruence. Qed.

Lemma untouched_import_nodeinfo_doc (now : DateTime.datetime) (assume_online : bool)
    (d : value) :
  Py.getitem d "node_id" <> Ok (VStr node_id) ->
  preserves untouched (Nodes.import_nodeinfo_doc now assume_online d).
Proof.
  intros N. unfold Nodes.import_nodeinfo_doc.
  apply (preserves_bind_lift _ untouched_refl). intros k E.
  apply node_id_named in E.
  assert (node_id <> k) by congruence.
  apply (preserves_bind _ untouched_trans).
  - intros nodes. unfold Nodes.get_or_create, modify, untouched. cbn [snd].
    destruct (dict_mem k nodes); auto. now apply dict_get_set_other.
  - intros _ nodes. now apply at_node_other.
Qed.

Lemma untouched_import_statistics_doc (d : value) :
  Py.getitem d "node_id" <> Ok (VStr node_id) ->
  preserves untouched (Nodes.import_statistics_doc d).
Proof.
  intros N nodes. unfold Nodes.import_statistics_doc.
  apply (preserves_bind _ untouched_trans);
    [apply (preserves_lift _ untouched_refl)|].
  intros has. destruct has; [|apply (preserves_ret _ untouched_refl)].
  apply (preserves_bind _ untouched_trans);
    [apply (preserves_lift _ untouched_refl)|].
  intros known. destruct known; [|apply (preserves_ret _ untouched_refl)].
  apply (preserves_bind_lift _ untouched_refl). intros k E.
  apply node_id_named in E.
  assert (node_id <> k) by congruence.
  intros s. now apply at_node_other.
Qed.

End Untouched.

(** X12.  The two document importers reach a record only through a
    document that names it: a record whose identifier is the [node_id] of
    none of the documents is, after the import, exactly what it was (and a
    node that was not there is still not there), whatever the other
    documents hold and whether the import returned or raised. *)
Theorem importers_touch_named_records :
  (forall (nodes : Nodes.store) (nodeinfos : list value) (now : DateTime.datetime)
          (assume_online : bool) (node_id : string),
      (forall d, In d nodeinfos -> Py.getitem d "node_id" <> Ok (VStr node_id)) ->
      dict_get node_id (snd (Nodes.import_nodeinfo nodes nodeinfos now assume_online))
      = dict_get node_id nodes) /\
  (forall (nodes : Nodes.store) (stats : list value) (node_id : string),
      (forall d, In d stats -> Py.getitem d "node_id" <> Ok (VStr node_id)) ->
      dict_get node_id (snd (Nodes.import_statistics nodes stats))
      = dict_get node_id nodes).
Proof.
  split.
  - intros nodes nodeinfos now assume_online node_id H. unfold Nodes.import_nodeinfo.
    apply (preserves_for_each _ (untouched_refl node_id) (untouched_trans node_id)).
    intros d Hin.
    apply (preserves_bind _ (untouched_trans node_id));
      [apply (preserves_lift _ (untouched_refl node_id))|].
    intros has. destruct has.
    + apply untouched_import_nodeinfo_doc. auto.
    + apply (preserves_ret _ (untouched_refl node_id)).
  - intros nodes stats node_id H. unfold Nodes.import_statistics.
    destruct (Nodes.build_mac_table nodes); cbn [snd]; auto.
    apply (preserves_for_each _ (untouched_refl node_id) (untouched_trans node_id)).
    intros d Hin. apply untouched_import_statistics_doc. auto.
Qed.

Lemma importers_touch_named_records_witness :
  dict_get "n2"
    (snd (Nodes.import_statistics
            [("n1", VDict [("flags", VDict []); ("statistics", VDict [])]);
             ("n2", VDict [("flags", VDict []); ("statistics", VDict [])])]
            [VDict [("node_id", VStr "n1"); ("uptime", VInt 5)]]))
  = dict_get "n2"
      [("n1", VDict [("flags", VDict []); ("statistics", VDict [])]);
       ("n2", VDict [("flags", VDict []); ("statistics", VDict [])])].
Proof.
  apply (proj2 importers_touch_named_records).
  intros d [<-|[]]. discriminate.
Defined.

(* ===================================================================== *)
(** * Where the NodeInfo Importer stops *)
(* ===================================================================== *)

(** X9.  Two documents the NodeInfo Importer stops at.  One that names an
    existing record without [flags]: the [KeyError] is raised after the
    record's [nodeinfo] has been replaced, and that write stays.  One whose
    identifier is a list or an object: the [TypeError] is raised before
    anything is written.  In both cases the documents after it are not
    imported. *)
Theorem import_nodeinfo_faults :
  (forall (nodes : Nodes.store) (doc : value) (rest : list value) (node_id : string)
          (fields : list (string * value)) (now : DateTime.datetime)
          (assume_online : bool),
      Py.getitem doc "node_id" = Ok (VStr node_id) ->
      dict_get node_id nodes = Some (VDict fields) ->
      dict_get "flags" fields = None ->
      Nodes.import_nodeinfo nodes (doc :: rest) now assume_online
      = (Raise KeyError,
         dict_set node_id (VDict (dict_set "nodeinfo" doc fields)) nodes)) /\
  (forall (nodes : Nodes.store) (doc : value) (rest : list value) (v : value)
          (now : DateTime.datetime) (assume_online : bool),
      Py.getitem doc "node_id" = Ok v ->
      Py.as_key v = Raise TypeError ->
      Nodes.import_nodeinfo nodes (doc :: rest) now assume_online
      = (Raise TypeError, nodes)).
Proof.
  split.
  - intros nodes doc rest node_id fields now assume_online G Hn Hf.
    assert (C : Py.contains "node_id" doc = Ok true).
    { destruct doc; try discriminate G. cbn in *. unfold dict_mem.
      destruct (dict_get "node_id" d); [reflexivity | discriminate]. }
    unfold Nodes.import_nodeinfo. cbn [for_each].
    unfold bind at 1. unfold bind at 1, lift at 1. rewrite C.
    unfold Nodes.import_nodeinfo_doc.
    unfold bind at 1, lift at 1. rewrite G. cbn [rbind Py.as_key].
    unfold bind at 1, Nodes.get_or_create, modify, dict_mem. rewrite Hn.
    unfold Nodes.at_node. rewrite Hn.
    unfold bind at 1. cbn [Py.setitem].
    unfold bind at 1. rewrite at_key_missing by (now rewrite dict_get_set_other).
    reflexivity.
  - intros nodes doc rest v now assume_online G K.
    assert (C : Py.contains "node_id" doc = Ok true).
    { destruct doc; try discriminate G. cbn in *. unfold dict_mem.
      destruct (dict_get "node_id" d); [reflexivity | discriminate]. }
    unfold Nodes.import_nodeinfo. cbn [for_each].
    unfold bind at 1. unfold bind at 1, lift at 1. rewrite C.
    unfold Nodes.import_nodeinfo_doc.
    unfold bind at 1, lift at 1. rewrite G. cbn [rbind]. rewrite K. reflexivity.
Qed.

Lemma import_nodeinfo_faults_witness :
  Nodes.import_nodeinfo
    [("n1", VDict [("nodeinfo", VDict [("node_id", VStr "n1"); ("hostname", VStr "old")])])]
    [VDict [("node_id", VStr "n1"); ("hostname", VStr "new")];
     VDict [("node_id", VStr "n2")]]
    (DateTime.mk 2020 1 1 0 0 0 0) false
  = (Raise KeyError,
     dict_set "n1"
       (VDict (dict_set "nodeinfo"
                 (VDict [("node_id", VStr "n1"); ("hostname", VStr "new")])
                 [("nodeinfo", VDict [("node_id", VStr "n1"); ("hostname", VStr "old")])]))
       [("n1", VDict [("nodeinfo",
                       VDict [("node_id", VStr "n1"); ("hostname", VStr "old")])])]).
Proof.
  apply (proj1 import_nodeinfo_faults); reflexivity.
Defined.

(* ===================================================================== *)
(** * Statistics: the order of the stages *)
(* ===================================================================== *)

Section NoStatistics.

(** A record without [statistics] is left as it is. *)
Let closed (node node' : value) : Prop :=
  field "statistics" node = None -> node' = node.

Lemma closed_refl : forall v, closed v v.
Proof. intros v _. reflexivity. Qed.

Lemma closed_trans : forall a b c, closed a b -> closed b c -> closed a c.
Proof.
  intros a b c H1 H2 H. specialize (H1 H). subst b. auto.
Qed.

Lemma at_statistics_closed {A : Type} (m : M value A) (node : value) :
  field "statistics" node = None ->
  snd (Py.at_key "statistics" m node) = node.
Proof.
  intros H. destruct node; try reflexivity.
  cbn [field] in H. now rewrite at_key_missing.
Qed.

Lemma add_closed (stats : value) (target : string) (source : list string)
    (f : value -> result value) :
  preserves closed (Nodes.add stats target source f).
Proof.
  intros node H. unfold Nodes.add, try_except, bind, lift.
  destruct (d <- Py.reduce Py.dict_getitem source stats ;; f d) as [v|e|].
  - pose proof (at_statistics_closed (Py.setitem target v) node H) as E.
    destruct (Py.at_key "statistics" (Py.setitem target v) node) as [[[]|e|] node'];
      cbn [snd] in *; auto.
    destruct (existsb (exn_eqb e) [KeyError; TypeError; ZeroDivisionError]); auto.
  - destruct (existsb (exn_eqb e) [KeyError; TypeError; ZeroDivisionError]); auto.
  - reflexivity.
Qed.

Lemma extract_closed (stats : value) : preserves closed (Nodes.extract stats).
Proof.
  unfold Nodes.extract.
  repeat (apply preserves_bind;
          [exact closed_trans | apply add_closed | intros _]).
  apply add_closed.
Qed.

End NoStatistics.

(** X13.  The Statistics Importer stores values only in an existing
    [statistics] object.  On a record that has none, the six extractions
    write nothing at all; uplink marking, when the document has peers that
    count, sets [flags.uplink] and then loses the peer list to the
    [KeyError] it swallows. *)
Theorem import_statistics_without_statistics :
  (forall (stats node : value),
      field "statistics" node = None ->
      snd (Nodes.extract stats node) = node) /\
  (forall (stats : value) (peers : list value) (fields flags : list (string * value)),
      derived_peers stats = Ok peers -> peers <> [] ->
      dict_get "flags" fields = Some (VDict flags) ->
      dict_get "statistics" fields = None ->
      Nodes.mark_uplink stats (VDict fields)
      = (Ok tt,
         VDict (dict_set "flags" (VDict (dict_set "uplink" (VBool true) flags)) fields))).
Proof.
  split.
  - intros stats node H. exact (extract_closed stats node H).
  - intros stats peers fields flags Hd Hne Hf Hs.
    unfold Nodes.mark_uplink. apply try_except_caught with (e := KeyError);
      [|reflexivity].
    unfold derived_peers in Hd.
    rewrite (bind_ok _ _ (VDict fields) (VDict fields) peers)
      by (unfold lift; now rewrite Hd).
    destruct peers as [|p peers]; [congruence|].
    rewrite (bind_ok _ _ (VDict fields)
               (VDict (dict_set "flags" (VDict (dict_set "uplink" (VBool true) flags)) fields))
               tt)
      by (now rewrite (at_key_dict _ _ _ _ Hf)).
    rewrite at_key_missing; [reflexivity|].
    rewrite dict_get_set_other by discriminate. exact Hs.
Qed.

Lemma import_statistics_without_statistics_witness :
  snd (Nodes.extract (VDict [("uptime", VInt 60); ("clients", VDict [("total", VInt 3)])])
         (VDict [("flags", VDict [])]))
  = VDict [("flags", VDict [])].
Proof.
  apply (proj1 import_statistics_without_statistics). reflexivity.
Defined.

(* ===================================================================== *)
(** * Uplink detection stops at a group without peers *)
(* ===================================================================== *)

Lemma rbind_ok {A B : Type} (r : result A) (k : A -> result B) (b : B) :
  rbind r k = Ok b -> exists a, r = Ok a /\ k a = Ok b.
Proof. destruct r as [a| |]; cbn; try discriminate. eauto. Qed.

Lemma check_uplink_without_peers (g : list (string * value)) :
  dict_get "peers" g = None -> Nodes.check_uplink (VDict g) = Raise KeyError.
Proof. intros H. unfold Nodes.check_uplink. cbn [Py.getitem]. now rewrite H. Qed.

Lemma check_uplink_recursive_without_peers (groups : list (string * value))
    (name : string) (g : list (string * value)) :
  In (name, VDict g) groups -> dict_get "peers" g = None ->
  forall peers, Nodes.check_uplink_recursive (VDict groups) <> Ok peers.
Proof.
  intros Hin Hp. induction groups as [|[n group] rest IH]; [destruct Hin|].
  intros peers E. rewrite check_uplink_recursive_step in E.
  destruct Hin as [Hin|Hin].
  - injection Hin as -> ->. rewrite (check_uplink_without_peers g Hp) in E.
    discriminate.
  - apply rbind_ok in E. destruct E as (own & _ & E).
    apply rbind_ok in E. destruct E as (has & _ & E).
    apply rbind_ok in E. destruct E as (sub & _ & E).
    apply rbind_ok in E. destruct E as (more & E & _).
    exact (IH Hin more E).
Qed.

(** X14.  Every group at the top of [mesh_vpn.groups] must have [peers]:
    when one of them has none, no list of uplink peers is derived and
    [mark_uplink] leaves the record as it was, whatever the other groups
    hold; when it is the first group, the [KeyError] is swallowed. *)
Theorem mark_uplink_group_without_peers :
  forall (stats node : value) (groups : list (string * value)) (name : string)
         (g : list (string * value)),
    Nodes.walk stats ["mesh_vpn"; "groups"] = Ok (VDict groups) ->
    In (name, VDict g) groups ->
    dict_get "peers" g = None ->
    (forall peers, derived_peers stats <> Ok peers) /\
    snd (Nodes.mark_uplink stats node) = node /\
    (forall rest, groups = (name, VDict g) :: rest ->
                  Nodes.mark_uplink stats node = (Ok tt, node)).
Proof.
  intros stats node groups name g W Hin Hp.
  assert (D : forall peers, derived_peers stats <> Ok peers).
  { intros peers. unfold derived_peers. rewrite W. cbn [rbind].
    now apply (check_uplink_recursive_without_peers groups name g). }
  split; [exact D|]. split.
  - unfold Nodes.mark_uplink, try_except, bind, lift.
    fold (derived_peers stats).
    destruct (derived_peers stats) as [peers|e|] eqn:E; cbn [snd].
    + now destruct (D peers).
    + now destruct (existsb (exn_eqb e) [KeyError]).
    + reflexivity.
  - intros rest ->. apply mark_uplink_unchanged. right.
    unfold derived_peers. rewrite W. cbn [rbind].
    rewrite check_uplink_recursive_step.
    now rewrite (check_uplink_without_peers g Hp).
Qed.

Lemma mark_uplink_group_without_peers_witness :
  (forall peers,
      derived_peers
        (VDict [("mesh_vpn", VDict [("groups",
           VDict [("backbone",
                   VDict [("peers", VDict [("aa:bb", VDict [("established", VInt 5)])])]);
                  ("others", VDict [("groups", VDict [])])])])])
      <> Ok peers) /\
  snd (Nodes.mark_uplink
         (VDict [("mesh_vpn", VDict [("groups",
            VDict [("backbone",
                    VDict [("peers", VDict [("aa:bb", VDict [("established", VInt 5)])])]);
                   ("others", VDict [("groups", VDict [])])])])])
         (VDict [("flags", VDict []); ("statistics", VDict [])]))
  = VDict [("flags", VDict []); ("statistics", VDict [])] /\
  (forall rest,
      [("backbone",
        VDict [("peers", VDict [("aa:bb", VDict [("established", VInt 5)])])]);
       ("others", VDict [("groups", VDict [])])]
      = ("others", VDict [("groups", VDict [])]) :: rest ->
      Nodes.mark_uplink
        (VDict [("mesh_vpn", VDict [("groups",
           VDict [("backbone",
                   VDict [("peers", VDict [("aa:bb", VDict [("established", VInt 5)])])]);
                  ("others", VDict [("groups", VDict [])])])])])
        (VDict [("flags", VDict []); ("statistics", VDict [])])
      = (Ok tt, VDict [("flags", VDict []); ("statistics", VDict [])])).
Proof.
  apply (mark_uplink_group_without_peers _ _ _ "others" [("groups", VDict [])]).
  - reflexivity.
  - right. left. reflexivity.
  - reflexivity.
Defined.

(* ===================================================================== *)
(** * The client count of a cycle *)
(* ===================================================================== *)

Section HasClients.

(** A record that has a client count still has one. *)
Let counted (node node' : value) : Prop :=
  (exists c, statistic "clients" node = Some c) ->
  exists c', statistic "clients" node' = Some c'.

Lemma counted_refl : forall v, counted v v.
Proof. intros v H. exact H. Qed.

Lemma counted_trans : forall a b c, counted a b -> counted b c -> counted a c.
Proof. intros a b c H1 H2 H. auto. Qed.

Lemma at_key_setitem_counted (k target : string) (v : value) :
  preserves counted (Py.at_key k (Py.setitem target v)).
Proof.
  intros node [c H]. destruct node as [| | | | | |fields]; try discriminate H.
  destruct (dict_get k fields) as [child|] eqn:E.
  - rewrite (at_key_dict _ _ _ child E). cbn [snd].
    destruct child as [| | | | | |st];
      try (cbn [Py.setitem snd]; rewrite (dict_set_same _ _ _ E); eauto).
    cbn [Py.setitem snd]. unfold statistic in *. rewrite field_set.
    destruct (String.eqb "statistics" k) eqn:K.
    + apply String.eqb_eq in K. subst k. cbn [field] in *. rewrite E in H.
      cbn [field] in H. rewrite dict_get_set.
      destruct (String.eqb "clients" target); eauto.
    + eauto.
  - rewrite at_key_missing by exact E. cbn [snd]. eauto.
Qed.

Lemma add_counted (stats : value) (target : string) (source : list string)
    (f : value -> result value) :
  preserves counted (Nodes.add stats target source f).
Proof.
  unfold Nodes.add. apply preserves_try_except.
  apply (preserves_bind _ counted_trans); [apply (preserves_lift _ counted_refl)|].
  intros v. apply at_key_setitem_counted.
Qed.

Lemma extract_counted (stats : value) : preserves counted (Nodes.extract stats).
Proof.
  unfold Nodes.extract.
  repeat (apply preserves_bind;
          [exact counted_trans | apply add_counted | intros _]).
  apply add_counted.
Qed.

Lemma mark_uplink_counted (stats : value) : preserves counted (Nodes.mark_uplink stats).
Proof.
  unfold Nodes.mark_uplink. apply preserves_try_except.
  apply (preserves_bind _ counted_trans); [apply (preserves_lift _ counted_refl)|].
  intros peers. destruct peers; [apply (preserves_ret _ counted_refl)|].
  apply (preserves_bind _ counted_trans); [apply at_key_setitem_counted|].
  intros _. apply at_key_setitem_counted.
Qed.

Lemma import_statistics_counted (stats : list value) :
  preserves (each_node counted) (fun nodes => Nodes.import_statistics nodes stats).
Proof.
  pose proof (each_node_refl _ counted_refl) as Hr.
  pose proof (each_node_trans _ counted_trans) as Ht.
  intros nodes. unfold Nodes.import_statistics.
  destruct (Nodes.build_mac_table nodes); cbn [snd]; auto.
  apply (preserves_for_each _ Hr Ht). intros d _ s.
  unfold Nodes.import_statistics_doc.
  apply (preserves_bind _ Ht); [apply (preserves_lift _ Hr)|].
  intros has. destruct has; [|apply (preserves_ret _ Hr)].
  apply (preserves_bind _ Ht); [apply (preserves_lift _ Hr)|].
  intros known. destruct known; [|apply (preserves_ret _ Hr)].
  apply (preserves_bind _ Ht); [apply (preserves_lift _ Hr)|].
  intros node_id. apply preserves_at_node; [apply counted_refl|].
  apply (preserves_bind _ counted_trans); [apply extract_counted|].
  intros _. apply mark_uplink_counted.
Qed.

End HasClients.

Lemma dict_get_same_keys {A : Type} (k : string) (d d' : dict A) :
  dict_keys d' = dict_keys d -> dict_get k d = None -> dict_get k d' = None.
Proof.
  intros E H. apply dict_get_None_keys. rewrite E. now apply dict_get_None_keys.
Qed.

Lemma reset_statistics_record (nodes : Nodes.store) (node_id : string)
    (fields : list (string * value)) :
  NoDup (dict_keys nodes) ->
  (forall node_id node, dict_get node_id nodes = Some node ->
                        exists fields, node = VDict fields) ->
  dict_get node_id nodes = Some (VDict fields) ->
  dict_get node_id (snd (Nodes.reset_statistics nodes))
  = Some (VDict (dict_set "statistics" (VDict [("clients", VInt 0)]) fields)).
Proof.
  intros ND Hd G. unfold Nodes.reset_statistics.
  assert (Ok_ : fst (for_each (dict_keys nodes)
                       (fun node_id =>
                          Nodes.at_node node_id
                            (Py.setitem "statistics" (VDict [("clients", VInt 0)])))
                       nodes) = Ok tt).
  { apply reset_loop_ok. intros k Hk.
    destruct (dict_get_keys_Some k nodes Hk) as [v Gv].
    destruct (Hd _ _ Gv) as [fields' ->]. eauto. }
  destruct (for_each (dict_keys nodes) _ nodes) as [r nodes'] eqn:Run.
  cbn [fst snd] in *. subst r.
  assert (Run' : for_each (map (fun k => (k, tt)) (dict_keys nodes))
                   (fun it : string * unit =>
                      let (k, x) := it in
                      Nodes.at_node k
                        ((fun _ : unit =>
                            Py.setitem "statistics" (VDict [("clients", VInt 0)])) x))
                   nodes = (Ok tt, nodes')).
  { rewrite for_each_map. exact Run. }
  assert (Hin : In (node_id, tt) (map (fun k => (k, tt)) (dict_keys nodes))).
  { apply in_map_iff. exists node_id. split; auto.
    apply dict_get_In in G. change node_id with (fst (node_id, VDict fields)).
    now apply in_map. }
  assert (ND' : NoDup (map fst (map (fun k : string => (k, tt)) (dict_keys nodes)))).
  { rewrite map_map. simpl. now rewrite map_id. }
  destruct (for_each_at_node_distinct _ _ _ _ ND' Run' _ _ Hin) as (n & G1 & G2).
  rewrite G in G1. injection G1 as <-. exact G2.
Qed.

Lemma reset_statistics_counted (nodes : Nodes.store) :
  NoDup (dict_keys nodes) ->
  (forall node_id node, dict_get node_id nodes = Some node ->
                        exists fields, node = VDict fields) ->
  forall node_id node',
    dict_get node_id (snd (Nodes.reset_statistics nodes)) = Some node' ->
    statistic "clients" node' = Some (VInt 0).
Proof.
  intros ND Hd node_id node' G'.
  destruct (dict_get node_id nodes) as [node|] eqn:G.
  2:{ rewrite (dict_get_same_keys _ _ _ (reset_statistics_keys nodes) G) in G'.
      discriminate. }
  destruct (Hd _ _ G) as [fields ->].
  rewrite (reset_statistics_record nodes node_id fields ND Hd G) in G'.
  injection G' as <-. unfold statistic. rewrite field_set. reflexivity.
Qed.

(** X15.  In a cycle that starts with the Statistics Resetter the client
    count taken from the vis data is never used.  On a store whose records
    all have [statistics.clients], [import_vis_clientcount] changes no
    record; the Resetter gives every record that field and the Statistics
    Importer keeps it, so after the two the vis stage is without effect. *)
Theorem import_vis_clientcount_after_reset :
  (forall (nodes : Nodes.store) (vis_data : list value),
      (forall node_id node, dict_get node_id nodes = Some node ->
                            exists c, statistic "clients" node = Some c) ->
      forall node_id,
        dict_get node_id (snd (Nodes.import_vis_clientcount nodes vis_data))
        = dict_get node_id nodes) /\
  (forall (nodes : Nodes.store) (stats vis_data : list value),
      NoDup (dict_keys nodes) ->
      (forall node_id node, dict_get node_id nodes = Some node ->
                            exists fields, node = VDict fields) ->
      forall node_id,
        dict_get node_id
          (snd (Nodes.import_vis_clientcount
                  (snd (Nodes.import_statistics (snd (Nodes.reset_statistics nodes)) stats))
                  vis_data))
        = dict_get node_id
            (snd (Nodes.import_statistics (snd (Nodes.reset_statistics nodes)) stats))).
Proof.
  assert (A : forall (nodes : Nodes.store) (vis_data : list value),
             (forall node_id node, dict_get node_id nodes = Some node ->
                                   exists c, statistic "clients" node = Some c) ->
             forall node_id,
               dict_get node_id (snd (Nodes.import_vis_clientcount nodes vis_data))
               = dict_get node_id nodes).
  { intros nodes vis_data H node_id.
    destruct (dict_get node_id nodes) as [node|] eqn:G.
    - destruct (import_vis_clientcount_frame vis_data nodes node_id node G)
        as (node' & G' & K).
      rewrite G'. f_equal. apply K. eauto.
    - apply (dict_get_same_keys node_id nodes); auto.
      apply import_vis_clientcount_keys. }
  split; [exact A|].
  intros nodes stats vis_data ND Hd. apply A.
  intros node_id node G.
  set (s1 := snd (Nodes.reset_statistics nodes)) in *.
  destruct (dict_get node_id s1) as [n1|] eqn:G1.
  - destruct (import_statistics_counted stats s1 node_id n1 G1) as (n2 & G2 & K).
    rewrite G2 in G. injection G as <-. apply K.
    exists (VInt 0). exact (reset_statistics_counted nodes ND Hd node_id n1 G1).
  - rewrite (dict_get_same_keys node_id s1) in G; [discriminate| |exact G1].
    apply import_statistics_keys.
Qed.

Lemma import_vis_clientcount_after_reset_witness :
  dict_get "n1"
    (snd (Nodes.import_vis_clientcount
            (snd (Nodes.import_statistics
                    (snd (Nodes.reset_statistics
                            [("n1", VDict [("nodeinfo", VDict [("network",
                                              VDict [("mesh_interfaces", VList [VStr "A"])])])])]))
                    []))
            [VDict [("label", VStr "TT"); ("router", VStr "A")]]))
  = dict_get "n1"
      (snd (Nodes.import_statistics
              (snd (Nodes.reset_statistics
                      [("n1", VDict [("nodeinfo", VDict [("network",
                                        VDict [("mesh_interfaces", VList [VStr "A"])])])])]))
              [])).
Proof.
  apply (proj2 import_vis_clientcount_after_reset).
  - apply NoDup_cons; [simpl; tauto | apply NoDup_nil].
  - intros node_id node H. cbn [dict_get] in H.
    destruct (String.eqb node_id "n1"); [injection H as <-; eauto | discriminate].
Defined.

(* ===================================================================== *)
(** * Malformed vis lines *)
(* ===================================================================== *)

Lemma client_nodes_ok_each (macs : Nodes.mac_table) (vis_data : list value)
    (r : list string) :
  Nodes.client_nodes macs vis_data = Ok r ->
  forall line, In line vis_data -> exists o, Nodes.client_router macs line = Ok o.
Proof.
  revert r. induction vis_data as [|d rest IH]; intros r H line Hin; [destruct Hin|].
  cbn [Nodes.client_nodes] in H.
  apply rbind_ok in H. destruct H as (o & Ho & H).
  apply rbind_ok in H. destruct H as (r' & Hr & _).
  destruct Hin as [<-|Hin]; eauto.
Qed.

Lemma for_each_ok_each {S A : Type} (l : list A) (body : A -> M S unit) (s : S) :
  fst (for_each l body s) = Ok tt ->
  forall x, In x l -> exists s0, fst (body x s0) = Ok tt.
Proof.
  revert s. induction l as [|y l IH]; intros s H x Hin; [destruct Hin|].
  cbn [for_each] in H. rewrite bind_fst in H.
  destruct (fst (body y s)) as [[]|e|] eqn:E; try discriminate.
  destruct Hin as [<-|Hin]; eauto.
Qed.

(** X16.  The vis stages read all the lines before they write to the
    store.  A client-table line without [router], a line with [secondary]
    but without [of], or a line whose active address is a list or an
    object makes the stage raise, and the store is as it was: no line is
    applied, also none of those before the malformed one. *)
Theorem vis_stages_stop_before_writing :
  (forall (nodes : Nodes.store) (vis_data : list value) (d : list (string * value)),
      In (VDict d) vis_data ->
      dict_get "label" d = Some (VStr "TT") ->
      dict_get "router" d = None ->
      fst (Nodes.import_vis_clientcount nodes vis_data) <> Ok tt /\
      snd (Nodes.import_vis_clientcount nodes vis_data) = nodes) /\
  (forall (set_order : Nodes.pyset -> list string) (nodes : Nodes.store)
          (vis_data : list value) (d : list (string * value)),
      In (VDict d) vis_data ->
      dict_mem "secondary" d = true ->
      dict_get "of" d = None ->
      fst (Nodes.import_mesh_ifs_vis_data set_order nodes vis_data) <> Ok tt /\
      snd (Nodes.import_mesh_ifs_vis_data set_order nodes vis_data) = nodes) /\
  (forall (set_order : Nodes.pyset -> list string) (nodes : Nodes.store)
          (vis_data : list value) (now : DateTime.datetime) (line v : value),
      In line vis_data ->
      Nodes.active_address line = Ok (Some v) ->
      Py.as_key v = Raise TypeError ->
      fst (Nodes.mark_vis_data_online set_order nodes vis_data now) <> Ok tt /\
      snd (Nodes.mark_vis_data_online set_order nodes vis_data now) = nodes).
Proof.
  split; [|split].
  - intros nodes vis_data d Hin Hl Hr. unfold Nodes.import_vis_clientcount.
    destruct (Nodes.build_mac_table nodes) as [macs| |]; cbn [fst snd];
      [|split; [discriminate | reflexivity] ..].
    destruct (Nodes.client_nodes macs vis_data) as [data| |] eqn:C; cbn [fst snd];
      [|split; [discriminate | reflexivity] ..].
    destruct (client_nodes_ok_each _ _ _ C _ Hin) as [o Ho].
    unfold Nodes.client_router in Ho. cbn [Py.get rbind] in Ho. rewrite Hl in Ho.
    cbn [Py.is_str String.eqb Ascii.eqb Bool.eqb andb Py.getitem] in Ho.
    rewrite Hr in Ho. discriminate.
  - intros set_order nodes vis_data d Hin Hs Ho. unfold Nodes.import_mesh_ifs_vis_data.
    destruct (Nodes.build_mac_table nodes) as [macs| |]; cbn [fst snd];
      [|split; [discriminate | reflexivity] ..].
    destruct (Nodes.mesh_groups vis_data) as [[[]| |] mesh_ifs] eqn:G; cbn [fst snd];
      [|split; [discriminate | reflexivity] ..].
    unfold Nodes.mesh_groups in G.
    assert (F : fst (for_each vis_data
                       (fun line =>
                          has <~ lift (Py.contains "secondary" line) ;;
                          if has then
                            primary <~ lift (v <- Py.getitem line "of" ;; Py.as_key v) ;;
                            Nodes.group_add primary primary ;;;
                            secondary <~ lift (v <- Py.getitem line "secondary" ;;
                                               Py.as_key v) ;;
                            Nodes.group_add primary secondary
                          else ret tt) []) = Ok tt)
      by (now rewrite G).
    destruct (for_each_ok_each _ _ _ F _ Hin) as [s0 H0].
    unfold bind, lift in H0. cbn [Py.contains Py.getitem] in H0.
    rewrite Hs, Ho in H0. discriminate.
  - intros set_order nodes vis_data now line v Hin Ha Hk.
    unfold Nodes.mark_vis_data_online.
    destruct (Nodes.build_mac_table nodes) as [macs| |]; cbn [fst snd];
      [|split; [discriminate | reflexivity] ..].
    destruct (Nodes.online_set vis_data) as [[[]| |] online] eqn:G; cbn [fst snd];
      [|split; [discriminate | reflexivity] ..].
    unfold Nodes.online_set in G.
    assert (F : fst (for_each vis_data
                       (fun line =>
                          a <~ lift (Nodes.active_address line) ;;
                          match a with
                          | Some v => k <~ lift (Py.as_key v) ;; modify (Nodes.set_add k)
                          | None => ret tt
                          end) []) = Ok tt)
      by (now rewrite G).
    destruct (for_each_ok_each _ _ _ F _ Hin) as [s0 H0].
    unfold bind, lift in H0. rewrite Ha, Hk in H0. discriminate.
Qed.

Lemma vis_stages_stop_before_writing_witness :
  fst (Nodes.import_vis_clientcount
         [("n1", VDict [("nodeinfo", VDict [("network",
                           VDict [("mesh_interfaces", VList [VStr "A"])])]);
                        ("statistics", VDict [])])]
         [VDict [("label", VStr "TT"); ("router", VStr "A")];
          VDict [("label", VStr "TT")]]) <> Ok tt /\
  snd (Nodes.import_vis_clientcount
         [("n1", VDict [("nodeinfo", VDict [("network",
                           VDict [("mesh_interfaces", VList [VStr "A"])])]);
                        ("statistics", VDict [])])]
         [VDict [("label", VStr "TT"); ("router", VStr "A")];
          VDict [("label", VStr "TT")]])
  = [("n1", VDict [("nodeinfo", VDict [("network",
                      VDict [("mesh_interfaces", VList [VStr "A"])])]);
                   ("statistics", VDict [])])].
Proof.
  apply (proj1 vis_stages_stop_before_writing _ _ [("label", VStr "TT")]).
  - right. left. reflexivity.
  - reflexivity.
  - reflexivity.
Defined.

(* ===================================================================== *)
(** * Marking a record online again *)
(* ===================================================================== *)

Lemma mark_online_fixed (now : DateTime.datetime) (fields flags : list (string * value))
    (first : value) :
  dict_get "lastseen" fields = Some (VStr (DateTime.isoformat now)) ->
  dict_get "firstseen" fields = Some first ->
  dict_get "flags" fields = Some (VDict flags) ->
  dict_get "online" flags = Some (VBool true) ->
  Nodes.mark_online now (VDict fields) = (Ok tt, VDict fields).
Proof.
  intros L F G O. unfold Nodes.mark_online, bind.
  cbn [Py.setitem]. rewrite (dict_set_same _ _ _ L).
  cbn [Py.setdefault]. rewrite F.
  rewrite (at_key_dict _ _ _ _ G). cbn [Py.setitem fst snd].
  now rewrite (dict_set_same _ _ _ O), (dict_set_same _ _ _ G).
Qed.

(** X17.  Marking a record online twice.  At the same time the second
    call changes nothing; at another time it moves [lastseen] and leaves
    every other field, [firstseen] among them, as the first call left
    it. *)
Theorem mark_online_again :
  forall (t1 t2 : DateTime.datetime) (fields flags : list (string * value)),
    dict_get "flags" fields = Some (VDict flags) ->
    exists n1,
      Nodes.mark_online t1 (VDict fields) = (Ok tt, n1) /\
      Nodes.mark_online t1 n1 = (Ok tt, n1) /\
      exists n2,
        Nodes.mark_online t2 n1 = (Ok tt, n2) /\
        field "lastseen" n2 = Some (VStr (DateTime.isoformat t2)) /\
        (forall k, k <> "lastseen" -> field k n2 = field k n1).
Proof.
  intros t1 t2 fields flags Hf.
  destruct (mark_online_effect t1 fields flags Hf) as (f1 & E1 & L1 & F1 & O1 & R1).
  exists (VDict f1). split; [exact E1|]. split.
  - apply (mark_online_fixed t1 f1 _ _ L1 F1 O1). apply dict_get_set_same.
  - destruct (mark_online_effect t2 f1 _ O1) as (f2 & E2 & L2 & F2 & O2 & R2).
    exists (VDict f2). split; [exact E2|]. split; [exact L2|].
    intros k N. cbn [field].
    destruct (String.eqb k "firstseen") eqn:K1.
    { apply String.eqb_eq in K1. subst k. rewrite F2, F1. reflexivity. }
    destruct (String.eqb k "flags") eqn:K2.
    { apply String.eqb_eq in K2. subst k. rewrite O2, O1.
      now rewrite dict_set_set. }
    apply String.eqb_neq in K1, K2. now apply R2.
Qed.

Lemma mark_online_again_witness :
  exists n1,
    Nodes.mark_online (DateTime.mk 2020 1 1 0 0 0 0) (VDict [("flags", VDict [])])
    = (Ok tt, n1) /\
    Nodes.mark_online (DateTime.mk 2020 1 1 0 0 0 0) n1 = (Ok tt, n1) /\
    exists n2,
      Nodes.mark_online (DateTime.mk 2020 1 2 0 0 0 0) n1 = (Ok tt, n2) /\
      field "lastseen" n2
      = Some (VStr (DateTime.isoformat (DateTime.mk 2020 1 2 0 0 0 0))) /\
      (forall k, k <> "lastseen" -> field k n2 = field k n1).
Proof.
  apply (mark_online_again _ _ [("flags", VDict [])] []). reflexivity.
Defined.

(* ===================================================================== *)
(** * What each stage leaves alone *)
(* ===================================================================== *)

Section Frames.

Variables keys flags : list string.

Lemma same_outside_refl : forall v, same_outside keys flags v v.
Proof. intros v. split; auto. Qed.

Lemma same_outside_trans :
  forall a b c, same_outside keys flags a b -> same_outside keys flags b c ->
                same_outside keys flags a c.
Proof.
  intros a b c [H1 H2] [H3 H4]. split; intros k N.
  - now rewrite H3, H1.
  - now rewrite H4, H2.
Qed.

(** Replacing the field [k]. *)
Lemma same_outside_field (k : string) (v : value) (d : list (string * value)) :
  In k keys -> k <> "flags" ->
  same_outside keys flags (VDict d) (VDict (dict_set k v d)).
Proof.
  intros Hk N. split.
  - intros k' N'. rewrite field_set. destruct (String.eqb k' k) eqn:E; auto.
    apply String.eqb_eq in E. subst. contradiction.
  - intros f _. now apply flag_set_other_field.
Qed.

Lemma setitem_same_outside (k : string) (v : value) :
  In k keys -> k <> "flags" -> preserves (same_outside keys flags) (Py.setitem k v).
Proof.
  intros Hk N node. destruct node; try apply same_outside_refl.
  cbn [Py.setitem snd]. now apply same_outside_field.
Qed.

Lemma setdefault_same_outside (k : string) (v : value) :
  In k keys -> k <> "flags" -> preserves (same_outside keys flags) (Py.setdefault k v).
Proof.
  intros Hk N node. destruct node; try apply same_outside_refl.
  cbn [Py.setdefault]. destruct (dict_get k d); cbn [snd].
  - apply same_outside_refl.
  - now apply same_outside_field.
Qed.

Lemma at_key_same_outside {A : Type} (k : string) (m : M value A) :
  In k keys -> k <> "flags" -> preserves (same_outside keys flags) (Py.at_key k m).
Proof.
  intros Hk N node. destruct node as [| | | | | |d]; try apply same_outside_refl.
  destruct (dict_get k d) as [child|] eqn:E.
  - rewrite (at_key_dict _ _ _ _ E). cbn [snd]. now apply same_outside_field.
  - rewrite (at_key_missing _ _ _ E). apply same_outside_refl.
Qed.

Lemma set_flag_same_outside (f : string) (v : value) :
  In "flags" keys -> In f flags ->
  preserves (same_outside keys flags) (Py.at_key "flags" (Py.setitem f v)).
Proof.
  intros Hk Hf node. destruct node as [| | | | | |d]; try apply same_outside_refl.
  destruct (dict_get "flags" d) as [fl|] eqn:E.
  - rewrite (at_key_dict _ _ _ _ E). cbn [snd]. split.
    + intros k N. rewrite field_set. destruct (String.eqb k "flags") eqn:E'; auto.
      apply String.eqb_eq in E'. subst. contradiction.
    + intros g N. unfold flag. rewrite field_set. cbn [String.eqb Ascii.eqb Bool.eqb andb field].
      rewrite E. destruct fl; cbn [Py.setitem snd field]; auto.
      rewrite dict_get_set. destruct (String.eqb g f) eqn:E'; auto.
      apply String.eqb_eq in E'. subst. contradiction.
  - rewrite (at_key_missing _ _ _ E). apply same_outside_refl.
Qed.

End Frames.

Lemma add_same_outside (stats : value) (target : string) (source : list string)
    (f : value -> result value) :
  preserves (same_outside ["statistics"; "flags"] ["uplink"])
    (Nodes.add stats target source f).
Proof.
  unfold Nodes.add. apply preserves_try_except.
  apply (preserves_bind _ (same_outside_trans _ _));
    [apply (preserves_lift _ (same_outside_refl _ _))|].
  intros v. apply at_key_same_outside; [now left | discriminate].
Qed.

Lemma extract_same_outside (stats : value) :
  preserves (same_outside ["statistics"; "flags"] ["uplink"]) (Nodes.extract stats).
Proof.
  unfold Nodes.extract.
  repeat (apply preserves_bind;
          [exact (same_outside_trans _ _) | apply add_same_outside | intros _]).
  apply add_same_outside.
Qed.

Lemma mark_uplink_same_outside (stats : value) :
  preserves (same_outside ["statistics"; "flags"] ["uplink"]) (Nodes.mark_uplink stats).
Proof.
  unfold Nodes.mark_uplink. apply preserves_try_except.
  apply (preserves_bind _ (same_outside_trans _ _));
    [apply (preserves_lift _ (same_outside_refl _ _))|].
  intros peers. destruct peers; [apply (preserves_ret _ (same_outside_refl _ _))|].
  apply (preserves_bind _ (same_outside_trans _ _)).
  - apply set_flag_same_outside; [right; now left | now left].
  - intros _. apply at_key_same_outside; [now left | discriminate].
Qed.

Lemma mark_online_same_outside (now : DateTime.datetime) :
  preserves (same_outside ["lastseen"; "firstseen"; "flags"] ["online"])
    (Nodes.mark_online now).
Proof.
  unfold Nodes.mark_online.
  apply (preserves_bind _ (same_outside_trans _ _)).
  - apply setitem_same_outside; [now left | discriminate].
  - intros _. apply (preserves_bind _ (same_outside_trans _ _)).
    + apply setdefault_same_outside; [right; now left | discriminate].
    + intros _. apply set_flag_same_outside; [right; right; now left | now left].
Qed.

Lemma merge_ifs_same_outside (set_order : Nodes.pyset -> list string) (group : Nodes.pyset) :
  preserves (same_outside ["nodeinfo"] []) (Nodes.merge_ifs set_order group).
Proof.
  intros node. unfold Nodes.merge_ifs.
  match goal with
  | |- context [match ?g [] with _ => _ end] => destruct (g []) as [[[]| |] ifs]
  end; cbn [snd]; try apply same_outside_refl.
  apply at_key_same_outside; [now left | discriminate].
Qed.

(** X18.  What the stages that work on existing records leave alone, in
    every record and whatever the outcome.  The Statistics Importer changes
    nothing outside [statistics] and [flags.uplink]; the vis client count
    nothing outside [statistics]; interface reconciliation nothing outside
    [nodeinfo]; vis online marking nothing outside [lastseen], [firstseen]
    and [flags.online]. *)
Theorem stage_frames :
  (forall (nodes : Nodes.store) (stats : list value),
      each_node (same_outside ["statistics"; "flags"] ["uplink"])
        nodes (snd (Nodes.import_statistics nodes stats))) /\
  (forall (nodes : Nodes.store) (vis_data : list value),
      each_node (same_outside ["statistics"] [])
        nodes (snd (Nodes.import_vis_clientcount nodes vis_data))) /\
  (forall (set_order : Nodes.pyset -> list string) (nodes : Nodes.store)
          (vis_data : list value),
      each_node (same_outside ["nodeinfo"] [])
        nodes (snd (Nodes.import_mesh_ifs_vis_data set_order nodes vis_data))) /\
  (forall (set_order : Nodes.pyset -> list string) (nodes : Nodes.store)
          (vis_data : list value) (now : DateTime.datetime),
      each_node (same_outside ["lastseen"; "firstseen"; "flags"] ["online"])
        nodes (snd (Nodes.mark_vis_data_online set_order nodes vis_data now))).
Proof.
  split; [|split; [|split]].
  - intros nodes stats.
    pose proof (each_node_refl _ (same_outside_refl ["statistics"; "flags"] ["uplink"]))
      as Hr.
    pose proof (each_node_trans _ (same_outside_trans ["statistics"; "flags"] ["uplink"]))
      as Ht.
    unfold Nodes.import_statistics.
    destruct (Nodes.build_mac_table nodes); cbn [snd]; auto.
    apply (preserves_for_each _ Hr Ht). intros d _ s.
    unfold Nodes.import_statistics_doc.
    apply (preserves_bind _ Ht); [apply (preserves_lift _ Hr)|].
    intros has. destruct has; [|apply (preserves_ret _ Hr)].
    apply (preserves_bind _ Ht); [apply (preserves_lift _ Hr)|].
    intros known. destruct known; [|apply (preserves_ret _ Hr)].
    apply (preserves_bind _ Ht); [apply (preserves_lift _ Hr)|].
    intros node_id. apply preserves_at_node; [apply same_outside_refl|].
    apply (preserves_bind _ (same_outside_trans _ _)); [apply extract_same_outside|].
    intros _. apply mark_uplink_same_outside.
  - intros nodes vis_data.
    pose proof (each_node_refl _ (same_outside_refl ["statistics"] [])) as Hr.
    pose proof (each_node_trans _ (same_outside_trans ["statistics"] [])) as Ht.
    unfold Nodes.import_vis_clientcount.
    destruct (Nodes.build_mac_table nodes) as [macs| |]; cbn [snd]; auto.
    destruct (Nodes.client_nodes macs vis_data) as [data| |]; cbn [snd]; auto.
    apply (preserves_for_each _ Hr Ht). intros [node_id n] _.
    apply preserves_at_node; [apply same_outside_refl|].
    apply at_key_same_outside; [now left | discriminate].
  - intros set_order nodes vis_data.
    pose proof (each_node_refl _ (same_outside_refl ["nodeinfo"] [])) as Hr.
    pose proof (each_node_trans _ (same_outside_trans ["nodeinfo"] [])) as Ht.
    unfold Nodes.import_mesh_ifs_vis_data.
    destruct (Nodes.build_mac_table nodes) as [macs| |]; cbn [snd]; auto.
    destruct (Nodes.mesh_groups vis_data) as [[[]| |] mesh_ifs]; cbn [snd]; auto.
    apply (preserves_for_each _ Hr Ht). intros ifs _.
    destruct (Nodes.if_to_node set_order macs ifs) as [[node_id group]|].
    + apply preserves_at_node; [apply same_outside_refl|].
      apply merge_ifs_same_outside.
    + apply (preserves_ret _ Hr).
  - intros set_order nodes vis_data now.
    pose proof (each_node_refl _
                  (same_outside_refl ["lastseen"; "firstseen"; "flags"] ["online"])) as Hr.
    pose proof (each_node_trans _
                  (same_outside_trans ["lastseen"; "firstseen"; "flags"] ["online"])) as Ht.
    unfold Nodes.mark_vis_data_online.
    destruct (Nodes.build_mac_table nodes) as [macs| |]; cbn [snd]; auto.
    destruct (Nodes.online_set vis_data) as [[[]| |] online]; cbn [snd]; auto.
    apply (preserves_for_each _ Hr Ht). intros mac _.
    destruct (dict_get mac macs) as [node_id|].
    + apply preserves_at_node; [apply same_outside_refl|].
      apply mark_online_same_outside.
    + apply (preserves_lift _ Hr).
Qed.

(* ===================================================================== *)
(** * [firstseen] is written once *)
(* ===================================================================== *)

Lemma keeps_firstseen_refl : forall v, keeps_firstseen v v.
Proof. intros v x H. exact H. Qed.

Lemma keeps_firstseen_trans :
  forall a b c, keeps_firstseen a b -> keeps_firstseen b c -> keeps_firstseen a c.
Proof. intros a b c H1 H2 x H. auto. Qed.

Lemma same_outside_keeps_firstseen (keys flags : list string) (m : M value unit) :
  ~ In "firstseen" keys ->
  preserves (same_outside keys flags) m -> preserves keeps_firstseen m.
Proof.
  intros N H node x Hx. destruct (H node) as [Hk _]. now rewrite Hk.
Qed.

Lemma mark_online_keeps_firstseen (now : DateTime.datetime) :
  preserves keeps_firstseen (Nodes.mark_online now).
Proof.
  intros node x Hx. destruct node as [| | | | | |d]; try discriminate Hx.
  cbn [field] in Hx.
  destruct (mark_online_unfold now d) as (d2 & E & _).
  unfold Nodes.mark_online, bind in *. cbn [Py.setitem Py.setdefault] in *.
  rewrite dict_get_set_other in * by discriminate. rewrite Hx in *.
  set (d1 := dict_set "lastseen" (VStr (DateTime.isoformat now)) d) in *.
  assert (H1 : dict_get "firstseen" d1 = Some x)
    by (unfold d1; now rewrite dict_get_set_other by discriminate).
  destruct (dict_get "flags" d1) as [fl|] eqn:G.
  - rewrite (at_key_dict _ _ _ _ G). cbn [snd field].
    now rewrite dict_get_set_other by discriminate.
  - rewrite (at_key_missing _ _ _ G). exact H1.
Qed.

(** X19.  The two stages that mark records online do not overwrite a
    [firstseen]: a record that has one has the same after the NodeInfo
    Importer, with or without [assume_online], and after vis online
    marking, whether the stage returned or raised. *)
Theorem firstseen_is_kept :
  (forall (nodes : Nodes.store) (nodeinfos : list value) (now : DateTime.datetime)
          (assume_online : bool),
      each_node keeps_firstseen
        nodes (snd (Nodes.import_nodeinfo nodes nodeinfos now assume_online))) /\
  (forall (set_order : Nodes.pyset -> list string) (nodes : Nodes.store)
          (vis_data : list value) (now : DateTime.datetime),
      each_node keeps_firstseen
        nodes (snd (Nodes.mark_vis_data_online set_order nodes vis_data now))).
Proof.
  pose proof (each_node_refl _ keeps_firstseen_refl) as Hr.
  pose proof (each_node_trans _ keeps_firstseen_trans) as Ht.
  split.
  - intros nodes nodeinfos now assume_online. unfold Nodes.import_nodeinfo.
    apply (preserves_for_each _ Hr Ht). intros d _.
    apply (preserves_bind _ Ht); [apply (preserves_lift _ Hr)|].
    intros has. destruct has; [|apply (preserves_ret _ Hr)].
    unfold Nodes.import_nodeinfo_doc.
    apply (preserves_bind _ Ht); [apply (preserves_lift _ Hr)|].
    intros node_id.
    apply (preserves_bind _ Ht);
      [apply get_or_create_frame, keeps_firstseen_refl|].
    intros _. apply preserves_at_node; [apply keeps_firstseen_refl|].
    apply (preserves_bind _ keeps_firstseen_trans).
    { apply (same_outside_keeps_firstseen ["nodeinfo"] []).
      - simpl. intuition discriminate.
      - apply setitem_same_outside; [now left | discriminate]. }
    intros _. apply (preserves_bind _ keeps_firstseen_trans).
    { apply (same_outside_keeps_firstseen ["flags"] ["online"]).
      - simpl. intuition discriminate.
      - apply set_flag_same_outside; now left. }
    intros _. apply (preserves_bind _ keeps_firstseen_trans).
    { apply (same_outside_keeps_firstseen ["flags"] ["uplink"]).
      - simpl. intuition discriminate.
      - apply set_flag_same_outside; now left. }
    intros _. destruct assume_online.
    + apply mark_online_keeps_firstseen.
    + apply (preserves_ret _ keeps_firstseen_refl).
  - intros set_order nodes vis_data now. unfold Nodes.mark_vis_data_online.
    destruct (Nodes.build_mac_table nodes) as [macs| |]; cbn [snd]; auto.
    destruct (Nodes.online_set vis_data) as [[[]| |] online]; cbn [snd]; auto.
    apply (preserves_for_each _ Hr Ht). intros mac _.
    destruct (dict_get mac macs) as [node_id|].
    + apply preserves_at_node; [apply keeps_firstseen_refl|].
      apply mark_online_keeps_firstseen.
    + apply (preserves_lift _ Hr).
Qed.

(* ===================================================================== *)
(** * The statistics of a record after a cycle *)
(* ===================================================================== *)

Section StatisticsFrame.

(** The statistics other than [vpn_peers] are the same. *)
Let same_statistics (node node' : value) : Prop :=
  forall k, k <> "vpn_peers" -> statistic k node' = statistic k node.

Lemma same_statistics_refl : forall v, same_statistics v v.
Proof. intros v k _. reflexivity. Qed.

Lemma same_statistics_trans :
  forall a b c, same_statistics a b -> same_statistics b c -> same_statistics a c.
Proof. intros a b c H1 H2 k N. now rewrite H2, H1. Qed.

Lemma set_flag_same_statistics (f : string) (v : value) :
  preserves same_statistics (Py.at_key "flags" (Py.setitem f v)).
Proof.
  intros node k _. destruct node as [| | | | | |d]; try reflexivity.
  destruct (dict_get "flags" d) as [fl|] eqn:E.
  - rewrite (at_key_dict _ _ _ _ E). cbn [snd]. unfold statistic.
    now rewrite field_set.
  - now rewrite (at_key_missing _ _ _ E).
Qed.

Lemma set_peers_same_statistics (v : value) :
  preserves same_statistics (Py.at_key "statistics" (Py.setitem "vpn_peers" v)).
Proof.
  intros node k N. destruct node as [| | | | | |d]; try reflexivity.
  destruct (dict_get "statistics" d) as [st|] eqn:E.
  - rewrite (at_key_dict _ _ _ _ E). cbn [snd]. unfold statistic.
    rewrite field_set. cbn [String.eqb Ascii.eqb Bool.eqb andb field]. rewrite E.
    destruct st; try reflexivity. cbn [Py.setitem snd field].
    now apply dict_get_set_other.
  - now rewrite (at_key_missing _ _ _ E).
Qed.

Lemma mark_uplink_same_statistics (stats node : value) (k : string) :
  k <> "vpn_peers" ->
  statistic k (snd (Nodes.mark_uplink stats node)) = statistic k node.
Proof.
  revert k. revert node.
  change (preserves same_statistics (Nodes.mark_uplink stats)).
  unfold Nodes.mark_uplink. apply preserves_try_except.
  apply (preserves_bind _ same_statistics_trans);
    [apply (preserves_lift _ same_statistics_refl)|].
  intros peers. destruct peers; [apply (preserves_ret _ same_statistics_refl)|].
  apply (preserves_bind _ same_statistics_trans).
  - apply set_flag_same_statistics.
  - intros _. apply set_peers_same_statistics.
Qed.

End StatisticsFrame.

Lemma contains_node_id (doc v : value) :
  Py.getitem doc "node_id" = Ok v -> Py.contains "node_id" doc = Ok true.
Proof.
  intros G. destruct doc; try discriminate G. cbn in *. unfold dict_mem.
  destruct (dict_get "node_id" d); [reflexivity | discriminate].
Qed.

(** The store after the import of one document for a record that is
    there. *)
Lemma import_statistics_one (nodes : Nodes.store) (doc node : value) (node_id : string)
    (macs : Nodes.mac_table) :
  Nodes.build_mac_table nodes = Ok macs ->
  Py.getitem doc "node_id" = Ok (VStr node_id) ->
  dict_get node_id nodes = Some node ->
  snd (Nodes.import_statistics nodes [doc])
  = dict_set node_id (snd ((Nodes.extract doc ;;; Nodes.mark_uplink doc) node)) nodes.
Proof.
  intros Hb G Hn. unfold Nodes.import_statistics. rewrite Hb.
  cbn [for_each]. unfold bind at 1. unfold Nodes.import_statistics_doc.
  unfold bind at 1, lift at 1. rewrite (contains_node_id _ _ G).
  unfold bind at 1, lift at 1. rewrite G. cbn [rbind Py.key_in].
  unfold dict_mem. rewrite Hn.
  unfold bind at 1, lift at 1. cbn [Py.as_key].
  unfold Nodes.at_node. rewrite Hn.
  destruct ((Nodes.extract doc ;;; Nodes.mark_uplink doc) node) as [[[]|e|] node'];
    reflexivity.
Qed.

(** X20.  The statistics of a record after the Statistics Resetter and the
    import of one document for it.  Each of the six targets holds what its
    extraction read from the document; a target whose value is unavailable
    is absent, except [clients], which is 0.  Nothing the record had under
    [statistics] before the cycle is left, whatever uplink marking does. *)
Theorem statistics_of_a_cycle :
  forall (nodes : Nodes.store) (doc : value) (node_id : string)
         (fields : list (string * value)) (macs : Nodes.mac_table),
    NoDup (dict_keys nodes) ->
    (forall i node, dict_get i nodes = Some node -> exists d, node = VDict d) ->
    dict_get node_id nodes = Some (VDict fields) ->
    Py.getitem doc "node_id" = Ok (VStr node_id) ->
    Nodes.build_mac_table (snd (Nodes.reset_statistics nodes)) = Ok macs ->
    extracted doc ["memory"] Nodes.memory_usage <> Raise OverflowError ->
    exists node',
      dict_get node_id
        (snd (Nodes.import_statistics (snd (Nodes.reset_statistics nodes)) [doc]))
      = Some node' /\
      (forall target source f,
          In (target, source, f) extractions ->
          statistic target node' =
          match extracted doc source f with
          | Ok v => Some v
          | _ => if String.eqb target "clients" then Some (VInt 0) else None
          end) /\
      (forall k, ~ In k (map (fun e => fst (fst e)) extractions) ->
                 k <> "vpn_peers" -> statistic k node' = None).
Proof.
  intros nodes doc node_id fields macs ND Hd Hn G Hb Hm.
  pose proof (reset_statistics_record nodes node_id fields ND Hd Hn) as H1.
  rewrite (import_statistics_one _ _ _ _ _ Hb G H1).
  eexists. split; [apply dict_get_set_same|].
  assert (E : Nodes.extract doc
                (VDict (dict_set "statistics" (VDict [("clients", VInt 0)]) fields))
              = _) by (apply extract_written; [apply dict_get_set_same | exact Hm]).
  unfold bind at 1. unfold bind at 1. rewrite E.
  split.
  - intros target source f Hin.
    assert (N : target <> "vpn_peers").
    { cbn in Hin.
      repeat (destruct Hin as [Hin|Hin]; [injection Hin as <- <- <-; discriminate|]).
      destruct Hin. }
    rewrite mark_uplink_same_statistics by exact N.
    unfold statistic. rewrite field_set. cbn [String.eqb Ascii.eqb Bool.eqb andb field].
    rewrite !written_get.
    cbn in Hin.
    repeat (destruct Hin as [Hin|Hin];
            [injection Hin as <- <- <-;
             cbn [String.eqb Ascii.eqb Bool.eqb andb dict_get];
             destruct (extracted doc _ _); reflexivity|]).
    destruct Hin.
  - intros k Nk Nv.
    rewrite mark_uplink_same_statistics by exact Nv.
    unfold statistic. rewrite field_set. cbn [String.eqb Ascii.eqb Bool.eqb andb field].
    rewrite !written_get. cbn [map fst extractions In] in Nk.
    repeat match goal with
           | |- context [String.eqb k ?t] =>
               let E := fresh "E" in
               destruct (String.eqb k t) eqn:E;
               [apply String.eqb_eq in E; exfalso; apply Nk; subst k; tauto|]
           end.
    cbn [dict_get]. now rewrite E5.
Qed.

Lemma statistics_of_a_cycle_witness :
  exists node',
    dict_get "n1"
      (snd (Nodes.import_statistics
              (snd (Nodes.reset_statistics
                      [("n1", VDict [("flags", VDict []);
                                     ("statistics", VDict [("loadavg", VInt 3)])])]))
              [VDict [("node_id", VStr "n1"); ("uptime", VInt 60)]]))
    = Some node' /\
    (forall target source f,
        In (target, source, f) extractions ->
        statistic target node' =
        match extracted (VDict [("node_id", VStr "n1"); ("uptime", VInt 60)]) source f with
        | Ok v => Some v
        | _ => if String.eqb target "clients" then Some (VInt 0) else None
        end) /\
    (forall k, ~ In k (map (fun e => fst (fst e)) extractions) ->
               k <> "vpn_peers" -> statistic k node' = None).
Proof.
  apply (statistics_of_a_cycle
           [("n1", VDict [("flags", VDict []);
                          ("statistics", VDict [("loadavg", VInt 3)])])]
           (VDict [("node_id", VStr "n1"); ("uptime", VInt 60)]) "n1"
           [("flags", VDict []); ("statistics", VDict [("loadavg", VInt 3)])] []).
  - apply NoDup_cons; [simpl; tauto | apply NoDup_nil].
  - intros i node H. cbn [dict_get] in H.
    destruct (String.eqb i "n1"); [injection H as <-; eauto | discriminate].
  - reflexivity.
  - reflexivity.
  - reflexivity.
  - discriminate.
Defined.

(* ===================================================================== *)
(** * An imported node is found through its addresses *)
(* ===================================================================== *)

(** The import of one document that names a node. *)
Lemma import_nodeinfo_one (nodes : Nodes.store) (doc : value) (node_id : string)
    (now : DateTime.datetime) (assume_online : bool) :
  Py.getitem doc "node_id" = Ok (VStr node_id) ->
  (forall node, dict_get node_id nodes = Some node -> is_record node) ->
  exists fields',
    Nodes.import_nodeinfo nodes [doc] now assume_online
    = (Ok tt, dict_set node_id (VDict fields') nodes) /\
    dict_get "nodeinfo" fields' = Some doc.
Proof.
  intros Hid Hrec.
  set (base := match dict_get node_id nodes with
               | Some n => n
               | None => VDict [("flags", VDict [])]
               end).
  assert (Hbase : exists fields flags,
             base = VDict fields /\ dict_get "flags" fields = Some (VDict flags)).
  { unfold base. destruct (dict_get node_id nodes) as [n|] eqn:E.
    - destruct (Hrec n eq_refl) as (fs & fl & -> & Hfl). eauto.
    - exists [("flags", VDict [])], []. split; reflexivity. }
  destruct Hbase as (fields & flags & Hb & Hfl).
  destruct (import_record_effect now assume_online doc fields flags Hfl)
    as (fields' & Hrun & Hni & _).
  exists fields'. split; [|exact Hni].
  unfold Nodes.import_nodeinfo. cbn [for_each].
  rewrite (bind_ok _ _ nodes (dict_set node_id (VDict fields') nodes) tt);
    [reflexivity|].
  rewrite (bind_ok _ _ nodes nodes true)
    by (unfold lift; now rewrite (contains_node_id _ _ Hid)).
  unfold Nodes.import_nodeinfo_doc.
  rewrite (bind_ok _ _ nodes nodes node_id) by (unfold lift; now rewrite Hid).
  rewrite (bind_ok _ _ nodes
             (if dict_mem node_id nodes then nodes
              else dict_set node_id (VDict [("flags", VDict [])]) nodes) tt)
    by reflexivity.
  unfold Nodes.at_node, dict_mem. fold base.
  destruct (dict_get node_id nodes) as [n|] eqn:E.
  - rewrite E. unfold base in Hb. subst n. now rewrite Hrun.
  - rewrite dict_get_set_same. unfold base in Hb. rewrite Hb, Hrun.
    now rewrite dict_set_set.
Qed.

(** What a record reports is read from its [nodeinfo] alone. *)
Lemma walk_nodeinfo (fields : list (string * value)) (doc : value) (path : list string) :
  dict_get "nodeinfo" fields = Some doc ->
  Nodes.walk (VDict fields) ("nodeinfo" :: path) = Nodes.walk doc path.
Proof. intros H. cbn [Nodes.walk Py.getitem]. now rewrite H. Qed.

Lemma addresses_nodeinfo (fields : list (string * value)) (doc : value) :
  dict_get "nodeinfo" fields = Some doc ->
  addresses (VDict fields) = addresses (VDict [("nodeinfo", doc)]) /\
  (well_shaped (VDict [("nodeinfo", doc)]) -> well_shaped (VDict fields)).
Proof.
  intros H. unfold addresses, flat_addresses, nested_addresses, well_shaped, shape.
  rewrite !(walk_nodeinfo fields doc) by exact H.
  rewrite !(walk_nodeinfo [("nodeinfo", doc)] doc) by reflexivity.
  split; [reflexivity | tauto].
Qed.

Lemma owner_none (a : string) (nodes : Nodes.store) :
  (forall i n, In (i, n) nodes -> ~ In a (addresses n)) -> owner a nodes = None.
Proof.
  induction nodes as [|[k n] rest IH]; intros H; [reflexivity|].
  cbn [owner]. rewrite IH by (intros i x Hx; apply (H i x); now right).
  destruct (Nodes.set_mem a (addresses n)) eqn:E; auto.
  apply set_mem_In in E. destruct (H k n (or_introl eq_refl) E).
Qed.

Lemma owner_dict_set (a node_id : string) (v : value) (nodes : Nodes.store) :
  NoDup (dict_keys nodes) ->
  In a (addresses v) ->
  (forall i n, In (i, n) nodes -> i <> node_id -> ~ In a (addresses n)) ->
  owner a (dict_set node_id v nodes) = Some node_id.
Proof.
  intros ND Ha. induction nodes as [|[k n] rest IH]; intros H.
  - cbn [dict_set owner]. apply set_mem_In in Ha. now rewrite Ha.
  - inversion ND as [|? ? Hn ND']; subst. cbn [dict_set].
    destruct (String.eqb node_id k) eqn:E.
    + apply String.eqb_eq in E. subst k. cbn [owner].
      rewrite owner_none.
      * apply set_mem_In in Ha. now rewrite Ha.
      * intros i x Hx. apply (H i x); [now right|].
        intros ->. apply Hn. change node_id with (fst (node_id, x)).
        now apply in_map.
    + cbn [owner]. rewrite IH; auto.
      intros i x Hx. apply (H i x). now right.
Qed.

Lemma well_shaped_dict_set (node_id : string) (v : value) (nodes : Nodes.store) :
  well_shaped v ->
  (forall i n, In (i, n) nodes -> well_shaped n) ->
  forall i n, In (i, n) (dict_set node_id v nodes) -> well_shaped n.
Proof.
  intros Hv. induction nodes as [|[k x] rest IH]; intros H i n Hin; cbn [dict_set] in Hin.
  - destruct Hin as [E|[]]. now injection E as <- <-.
  - destruct (String.eqb node_id k).
    + destruct Hin as [E|Hin]; [now injection E as <- <-|].
      apply (H i n). now right.
    + destruct Hin as [E|Hin].
      * injection E as <- <-. apply (H k x). now left.
      * apply (IH (fun i n Hx => H i n (or_intror Hx)) i n Hin).
Qed.

(** X21.  After the NodeInfo Importer has taken a document, the Address
    Index resolves the addresses the document reports to the document's
    node, provided no other record reports them: the stages that look a
    node up by an address find the node just imported. *)
Theorem import_nodeinfo_then_index :
  forall (nodes : Nodes.store) (doc : value) (node_id a : string)
         (now : DateTime.datetime) (assume_online : bool),
    NoDup (dict_keys nodes) ->
    Py.getitem doc "node_id" = Ok (VStr node_id) ->
    (forall node, dict_get node_id nodes = Some node -> is_record node) ->
    (forall i n, In (i, n) nodes -> well_shaped n) ->
    well_shaped (VDict [("nodeinfo", doc)]) ->
    In a (addresses (VDict [("nodeinfo", doc)])) ->
    (forall i n, In (i, n) nodes -> i <> node_id -> ~ In a (addresses n)) ->
    exists macs,
      Nodes.build_mac_table (snd (Nodes.import_nodeinfo nodes [doc] now assume_online))
      = Ok macs /\
      dict_get a macs = Some node_id.
Proof.
  intros nodes doc node_id a now assume_online ND Hid Hrec Hw Hwd Ha Hothers.
  destruct (import_nodeinfo_one nodes doc node_id now assume_online Hid Hrec)
    as (fields' & Hrun & Hni).
  rewrite Hrun. cbn [snd].
  destruct (addresses_nodeinfo fields' doc Hni) as [Ea Ew].
  destruct (build_mac_table_loop (dict_set node_id (VDict fields') nodes) [])
    as (macs & Hm & Hget).
  { apply well_shaped_dict_set; auto. }
  exists macs. unfold Nodes.build_mac_table. rewrite Hm. split; [reflexivity|].
  rewrite Hget, owner_dict_set; auto. now rewrite Ea.
Qed.

Lemma import_nodeinfo_then_index_witness :
  exists macs,
    Nodes.build_mac_table
      (snd (Nodes.import_nodeinfo []
              [VDict [("node_id", VStr "n1");
                      ("network", VDict [("mesh_interfaces", VList [VStr "A"])])]]
              (DateTime.mk 2020 1 1 0 0 0 0) false))
    = Ok macs /\
    dict_get "A" macs = Some "n1".
Proof.
  apply import_nodeinfo_then_index.
  - apply NoDup_nil.
  - reflexivity.
  - intros node H. discriminate H.
  - intros i n [].
  - split.
    + exists ["A"]. reflexivity.
    + exact I.
  - left. reflexivity.
  - intros i n [].
Defined.

(* ===================================================================== *)
(** * Importing a nodeinfo snapshot twice *)
(* ===================================================================== *)

Lemma dict_set_comm {A : Type} (k k' : string) (v v' x y : A) (d : dict A) :
  k <> k' ->
  dict_get k d = Some x -> dict_get k' d = Some y ->
  dict_set k v (dict_set k' v' d) = dict_set k' v' (dict_set k v d).
Proof.
  intros N. induction d as [|[k0 v0] d IH]; [discriminate|].
  cbn [dict_get dict_set].
  destruct (String.eqb k k0) eqn:E1, (String.eqb k' k0) eqn:E2.
  - apply String.eqb_eq in E1, E2. congruence.
  - intros _ _. cbn [dict_set]. now rewrite E1, E2.
  - intros _ _. cbn [dict_set]. now rewrite E1, E2.
  - intros H1 H2. cbn [dict_set]. rewrite E1, E2. now rewrite IH.
Qed.

(** ** One record *)

Lemma record_update_shape (now : DateTime.datetime) (assume_online : bool)
    (doc node : value) :
  fst (record_update now assume_online doc node) = Ok tt ->
  exists fields flags,
    node = VDict fields /\ dict_get "flags" fields = Some (VDict flags).
Proof.
  unfold record_update. intros H.
  destruct node as [| | | | | |fields]; try discriminate H.
  exists fields. rewrite bind_fst in H. cbn [Py.setitem fst snd] in H.
  rewrite bind_fst in H.
  destruct (dict_get "flags" fields) as [fl|] eqn:E.
  - assert (E' : dict_get "flags" (dict_set "nodeinfo" doc fields) = Some fl)
      by (now rewrite dict_get_set_other by discriminate).
    rewrite (at_key_dict _ _ _ _ E') in H. cbn [fst snd] in H.
    destruct fl; try discriminate H. eauto.
  - assert (E' : dict_get "flags" (dict_set "nodeinfo" doc fields) = None)
      by (now rewrite dict_get_set_other by discriminate).
    rewrite (at_key_missing _ _ _ E') in H. discriminate H.
Qed.

Lemma record_update_settled (now : DateTime.datetime) (assume_online : bool)
    (doc : value) (fields flags : list (string * value)) :
  dict_get "flags" fields = Some (VDict flags) ->
  exists fields',
    record_update now assume_online doc (VDict fields) = (Ok tt, VDict fields') /\
    dict_get "nodeinfo" fields' = Some doc /\
    settled now assume_online (VDict fields').
Proof.
  intros Hf. unfold record_update.
  set (f1 := dict_set "nodeinfo" doc fields).
  set (fl1 := dict_set "online" (VBool false) flags).
  set (f2 := dict_set "flags" (VDict fl1) f1).
  set (fl2 := dict_set "uplink" (VBool false) fl1).
  set (f3 := dict_set "flags" (VDict fl2) f2).
  assert (E1 : dict_get "flags" f1 = Some (VDict flags))
    by (unfold f1; now rewrite dict_get_set_other by discriminate).
  assert (E2 : dict_get "flags" f2 = Some (VDict fl1)) by apply dict_get_set_same.
  assert (E3 : dict_get "flags" f3 = Some (VDict fl2)) by apply dict_get_set_same.
  assert (N3 : dict_get "nodeinfo" f3 = Some doc).
  { unfold f3, f2, f1. rewrite !dict_get_set_other by discriminate.
    apply dict_get_set_same. }
  rewrite (bind_ok _ _ (VDict fields) (VDict f1) tt) by reflexivity.
  rewrite (bind_ok _ _ (VDict f1) (VDict f2) tt)
    by (now rewrite (at_key_dict _ _ _ _ E1)).
  rewrite (bind_ok _ _ (VDict f2) (VDict f3) tt)
    by (now rewrite (at_key_dict _ _ _ _ E2)).
  destruct assume_online.
  - destruct (mark_online_effect now f3 fl2 E3) as (f4 & Run & L & F & O & R).
    exists f4. split; [exact Run|]. split.
    + rewrite R by discriminate. exact N3.
    + exists f4, (dict_set "online" (VBool true) fl2).
      split; [reflexivity|]. split; [exact O|].
      split; [apply dict_get_set_same|]. split.
      * rewrite dict_get_set_other by discriminate. apply dict_get_set_same.
      * intros _. split; [exact L|]. eauto.
  - exists f3. split; [reflexivity|]. split; [exact N3|].
    exists f3, fl2. split; [reflexivity|]. split; [exact E3|]. split.
    + unfold fl2, fl1. rewrite dict_get_set_other by discriminate.
      apply dict_get_set_same.
    + split; [apply dict_get_set_same | discriminate].
Qed.

Lemma record_update_fixed (now : DateTime.datetime) (assume_online : bool)
    (doc : value) (fields : list (string * value)) :
  settled now assume_online (VDict fields) ->
  record_update now assume_online doc (VDict fields)
  = (Ok tt, VDict (dict_set "nodeinfo" doc fields)) /\
  settled now assume_online (VDict (dict_set "nodeinfo" doc fields)).
Proof.
  intros (fields0 & flags & E & Hf & Ho & Hu & Hl). injection E as <-.
  set (f1 := dict_set "nodeinfo" doc fields).
  assert (E1 : dict_get "flags" f1 = Some (VDict flags))
    by (unfold f1; now rewrite dict_get_set_other by discriminate).
  split.
  2:{ exists f1, flags. split; [reflexivity|]. split; [exact E1|].
      split; [exact Ho|]. split; [exact Hu|].
      intros A. destruct (Hl A) as (L & first & F). unfold f1.
      rewrite !dict_get_set_other by discriminate. eauto. }
  unfold record_update.
  rewrite (bind_ok _ _ (VDict fields) (VDict f1) tt) by reflexivity.
  destruct assume_online.
  - destruct (Hl eq_refl) as (L & first & F).
    set (fl1 := dict_set "online" (VBool false) flags).
    set (f2 := dict_set "flags" (VDict fl1) f1).
    assert (E2 : dict_get "flags" f2 = Some (VDict fl1)) by apply dict_get_set_same.
    assert (U1 : dict_get "uplink" fl1 = Some (VBool false))
      by (unfold fl1; now rewrite dict_get_set_other by discriminate).
    rewrite (bind_ok _ _ (VDict f1) (VDict f2) tt)
      by (now rewrite (at_key_dict _ _ _ _ E1)).
    rewrite (bind_ok _ _ (VDict f2) (VDict f2) tt).
    2:{ rewrite (at_key_dict _ _ _ _ E2). cbn [Py.setitem fst snd].
        now rewrite (dict_set_same _ _ _ U1), (dict_set_same _ _ _ E2). }
    unfold Nodes.mark_online.
    assert (L2 : dict_get "lastseen" f2 = Some (VStr (DateTime.isoformat now)))
      by (unfold f2, f1; now rewrite !dict_get_set_other by discriminate).
    assert (F2 : dict_get "firstseen" f2 = Some first)
      by (unfold f2, f1; now rewrite !dict_get_set_other by discriminate).
    rewrite (bind_ok _ _ (VDict f2) (VDict f2) tt)
      by (cbn [Py.setitem]; now rewrite (dict_set_same _ _ _ L2)).
    rewrite (bind_ok _ _ (VDict f2) (VDict f2) first)
      by (cbn [Py.setdefault]; now rewrite F2).
    rewrite (at_key_dict _ _ _ _ E2). cbn [Py.setitem fst snd].
    unfold fl1, f2. rewrite (dict_set_set "online"), (dict_set_same _ _ _ Ho).
    now rewrite (dict_set_set "flags"), (dict_set_same _ _ _ E1).
  - rewrite (bind_ok _ _ (VDict f1) (VDict f1) tt).
    2:{ rewrite (at_key_dict _ _ _ _ E1). cbn [Py.setitem fst snd].
        now rewrite (dict_set_same _ _ _ Ho), (dict_set_same _ _ _ E1). }
    rewrite (bind_ok _ _ (VDict f1) (VDict f1) tt).
    2:{ rewrite (at_key_dict _ _ _ _ E1). cbn [Py.setitem fst snd].
        now rewrite (dict_set_same _ _ _ Hu), (dict_set_same _ _ _ E1). }
    reflexivity.
Qed.

(** ** One document *)

Lemma doc_id_getitem (d : value) (node_id : string) :
  doc_id d = Some node_id <-> Py.getitem d "node_id" = Ok (VStr node_id).
Proof.
  unfold doc_id. split.
  - destruct (Py.getitem d "node_id") as [[]| |]; try discriminate.
    intros H. now injection H as ->.
  - intros ->. reflexivity.
Qed.

Lemma doc_id_absent (d : value) :
  Py.contains "node_id" d = Ok false -> doc_id d = None.
Proof.
  unfold doc_id. destruct d; try reflexivity; try discriminate.
  cbn [Py.contains Py.getitem]. unfold dict_mem.
  destruct (dict_get "node_id" d); [discriminate | reflexivity].
Qed.

Section Again.

Variables (now : DateTime.datetime) (assume_online : bool).

(** The body of the loop of [import_nodeinfo], with the filter. *)
Let body (d : value) : M Nodes.store unit :=
  has <~ lift (Py.contains "node_id" d) ;;
  if has then Nodes.import_nodeinfo_doc now assume_online d else ret tt.

Lemma doc_run (d : value) (node_id : string) (nodes : Nodes.store) :
  doc_id d = Some node_id ->
  body d nodes
  = Nodes.at_node node_id (record_update now assume_online d)
      (if dict_mem node_id nodes then nodes
       else dict_set node_id (VDict [("flags", VDict [])]) nodes).
Proof.
  intros H. apply doc_id_getitem in H. unfold body.
  rewrite (bind_ok _ _ nodes nodes true)
    by (unfold lift; now rewrite (contains_node_id _ _ H)).
  unfold Nodes.import_nodeinfo_doc.
  rewrite (bind_ok _ _ nodes nodes node_id) by (unfold lift; now rewrite H).
  reflexivity.
Qed.

Lemma doc_classify (d : value) (s0 : Nodes.store) :
  fst (body d s0) = Ok tt ->
  Py.contains "node_id" d = Ok false \/ exists node_id, doc_id d = Some node_id.
Proof.
  unfold body. rewrite bind_fst. unfold lift at 1. cbn [fst snd].
  destruct (Py.contains "node_id" d) as [[]| |]; try discriminate; [|now left].
  intros H. right. unfold Nodes.import_nodeinfo_doc in H.
  rewrite bind_fst in H. unfold lift at 1 in H. cbn [fst snd] in H.
  destruct (v <- Py.getitem d "node_id" ;; Py.as_key v) as [k| |] eqn:E;
    try discriminate.
  exists k. apply doc_id_getitem. now apply node_id_named.
Qed.

Lemma doc_ok (d : value) (nodes nodes' : Nodes.store) :
  body d nodes = (Ok tt, nodes') ->
  (doc_id d = None /\ nodes' = nodes) \/
  (exists node_id node',
      doc_id d = Some node_id /\
      dict_get node_id nodes' = Some node' /\
      field "nodeinfo" node' = Some d /\
      settled now assume_online node' /\
      forall k, k <> node_id -> dict_get k nodes' = dict_get k nodes).
Proof.
  intros H.
  destruct (doc_classify d nodes) as [C|[node_id C]]; [now rewrite H| |].
  - left. split; [now apply doc_id_absent|].
    unfold body, bind, lift in H. rewrite C in H. now injection H.
  - right. exists node_id. rewrite (doc_run _ _ _ C) in H.
    set (t0 := if dict_mem node_id nodes then nodes
               else dict_set node_id (VDict [("flags", VDict [])]) nodes) in *.
    assert (O : forall k, k <> node_id -> dict_get k t0 = dict_get k nodes).
    { intros k N. unfold t0. destruct (dict_mem node_id nodes); auto.
      now apply dict_get_set_other. }
    unfold Nodes.at_node in H.
    destruct (dict_get node_id t0) as [r0|]; [|discriminate].
    destruct (record_update now assume_online d r0) as [r r1] eqn:R.
    injection H as -> <-.
    destruct (record_update_shape now assume_online d r0) as (fields & flags & -> & Hf);
      [now rewrite R|].
    destruct (record_update_settled now assume_online d fields flags Hf)
      as (fields' & R' & Ni & St).
    rewrite R in R'. injection R' as ->.
    exists (VDict fields'). split; [exact C|]. split; [apply dict_get_set_same|].
    split; [exact Ni|]. split; [exact St|].
    intros k N. rewrite dict_get_set_other by exact N. now apply O.
Qed.

Lemma doc_again (d : value) (nodes : Nodes.store) :
  (exists s0, fst (body d s0) = Ok tt) ->
  (forall node_id, doc_id d = Some node_id ->
     exists node, dict_get node_id nodes = Some node /\ settled now assume_online node) ->
  body d nodes = (Ok tt, set_nodeinfo d nodes).
Proof.
  intros [s0 H0] Hs. destruct (doc_classify d s0 H0) as [C|[node_id C]].
  - unfold set_nodeinfo. rewrite (doc_id_absent _ C).
    unfold body, bind, lift. now rewrite C.
  - destruct (Hs _ C) as (node & G & St).
    rewrite (doc_run _ _ _ C). unfold dict_mem, set_nodeinfo. rewrite C, G.
    unfold Nodes.at_node. rewrite G.
    destruct St as (fields & flags & -> & St).
    assert (St' : settled now assume_online (VDict fields)) by (exists fields, flags; auto).
    destruct (record_update_fixed now assume_online d fields St') as [R _].
    now rewrite R.
Qed.

Lemma set_nodeinfo_settled (d : value) (nodes : Nodes.store) (k : string) :
  (exists node, dict_get k nodes = Some node /\ settled now assume_online node) ->
  exists node', dict_get k (set_nodeinfo d nodes) = Some node' /\
                settled now assume_online node'.
Proof.
  intros (node & G & St). unfold set_nodeinfo.
  destruct (doc_id d) as [node_id|]; [|eauto].
  destruct (dict_get node_id nodes) as [[| | | | | |fields]|] eqn:E; eauto.
  rewrite dict_get_set. destruct (String.eqb k node_id) eqn:K; [|eauto].
  apply String.eqb_eq in K. subst k. rewrite E in G. injection G as <-.
  eexists. split; [reflexivity|].
  now apply (record_update_fixed now assume_online d fields).
Qed.

Lemma import_nodeinfo_other (l : list value) (nodes : Nodes.store) (node_id : string) :
  last_doc node_id l = None ->
  dict_get node_id (snd (for_each l body nodes)) = dict_get node_id nodes.
Proof.
  intros H. revert nodes.
  apply (preserves_for_each _ (untouched_refl node_id) (untouched_trans node_id)).
  intros d Hin. unfold body.
  apply (preserves_bind _ (untouched_trans node_id));
    [apply (preserves_lift _ (untouched_refl node_id))|].
  intros has. destruct has; [|apply (preserves_ret _ (untouched_refl node_id))].
  apply untouched_import_nodeinfo_doc. intros G. apply doc_id_getitem in G.
  induction l as [|e l IH]; [destruct Hin|].
  cbn [last_doc] in H. destruct (last_doc node_id l) eqn:L; [discriminate|].
  destruct Hin as [->|Hin]; [|now apply IH].
  rewrite G, String.eqb_refl in H. discriminate.
Qed.

Lemma first_run (l : list value) (nodes nodes' : Nodes.store) :
  for_each l body nodes = (Ok tt, nodes') ->
  forall node_id d,
    last_doc node_id l = Some d ->
    exists node,
      dict_get node_id nodes' = Some node /\
      field "nodeinfo" node = Some d /\
      settled now assume_online node.
Proof.
  revert nodes. induction l as [|d0 l IH]; intros nodes H node_id d L; [discriminate|].
  cbn [for_each] in H. unfold bind at 1 in H.
  destruct (body d0 nodes) as [[[]|e|] t] eqn:B; try discriminate.
  cbn [last_doc] in L. destruct (last_doc node_id l) as [e|] eqn:L'.
  - injection L as <-. exact (IH t H node_id e L').
  - destruct (doc_id d0) as [k|] eqn:K; [|discriminate].
    destruct (String.eqb k node_id) eqn:E; [|discriminate].
    apply String.eqb_eq in E. subst k. injection L as <-.
    pose proof (import_nodeinfo_other l t node_id L') as O.
    rewrite H in O. cbn [snd] in O. rewrite O.
    destruct (doc_ok _ _ _ B) as [[K' _]|(i & node' & Ki & G & Ni & St & _)];
      [congruence|].
    rewrite K in Ki. injection Ki as <-. eauto.
Qed.

Lemma second_run (l : list value) (nodes : Nodes.store) :
  (forall d, In d l -> exists s0, fst (body d s0) = Ok tt) ->
  (forall d node_id, In d l -> doc_id d = Some node_id ->
     exists node, dict_get node_id nodes = Some node /\ settled now assume_online node) ->
  for_each l body nodes = (Ok tt, fold_left (fun t d => set_nodeinfo d t) l nodes).
Proof.
  revert nodes. induction l as [|d l IH]; intros nodes Hok Hs; [reflexivity|].
  cbn [for_each fold_left].
  rewrite (bind_ok _ _ nodes (set_nodeinfo d nodes) tt).
  - apply IH.
    + intros e He. apply Hok. now right.
    + intros e k He Ke. apply set_nodeinfo_settled. apply (Hs e k); auto. now right.
  - apply doc_again.
    + apply Hok. now left.
    + intros k Kd. apply (Hs d k); auto. now left.
Qed.

End Again.

(** ** Replacing [nodeinfo] again and again *)

Lemma set_nodeinfo_absorb (d e : value) (nodes : Nodes.store) :
  doc_id d = doc_id e ->
  set_nodeinfo e (set_nodeinfo d nodes) = set_nodeinfo e nodes.
Proof.
  intros E. unfold set_nodeinfo. rewrite E.
  destruct (doc_id e) as [k|]; [|reflexivity].
  destruct (dict_get k nodes) as [[| | | | | |fields]|] eqn:G; rewrite ?G; try reflexivity.
  rewrite dict_get_set_same. now rewrite !dict_set_set.
Qed.

Lemma set_nodeinfo_comm (d e : value) (nodes : Nodes.store) :
  doc_id d <> doc_id e ->
  set_nodeinfo e (set_nodeinfo d nodes) = set_nodeinfo d (set_nodeinfo e nodes).
Proof.
  intros N. unfold set_nodeinfo.
  destruct (doc_id d) as [a|], (doc_id e) as [b|]; try reflexivity.
  assert (Nab : a <> b) by congruence.
  destruct (dict_get a nodes) as [[| | | | | |fa]|] eqn:Ga;
    destruct (dict_get b nodes) as [[| | | | | |fb]|] eqn:Gb;
    rewrite ?Ga, ?Gb, ?dict_get_set_other, ?Ga, ?Gb by congruence;
    try reflexivity.
  eapply dict_set_comm; eauto.
Qed.

Lemma fold_set_nodeinfo_absorb (l : list value) (d : value) (node_id : string)
    (nodes : Nodes.store) :
  doc_id d = Some node_id ->
  last_doc node_id l <> None ->
  fold_left (fun t x => set_nodeinfo x t) l (set_nodeinfo d nodes)
  = fold_left (fun t x => set_nodeinfo x t) l nodes.
Proof.
  intros Kd. revert nodes. induction l as [|x l IH]; intros nodes L; [now destruct L|].
  cbn [fold_left]. destruct (option_map (String.eqb node_id) (doc_id x)) as [[]|] eqn:Kx.
  - destruct (doc_id x) as [k|] eqn:K; [|discriminate]. cbn in Kx.
    injection Kx as Kx. apply String.eqb_eq in Kx. subst k.
    rewrite set_nodeinfo_absorb by congruence. reflexivity.
  - destruct (doc_id x) as [k|] eqn:K; [|discriminate]. cbn in Kx.
    injection Kx as Kx. apply String.eqb_neq in Kx.
    rewrite set_nodeinfo_comm by congruence. apply IH.
    cbn [last_doc] in L. rewrite K in L.
    destruct (last_doc node_id l); [discriminate|].
    destruct (String.eqb k node_id) eqn:E; [|now destruct L].
    apply String.eqb_eq in E. congruence.
  - destruct (doc_id x) as [k|] eqn:K; [discriminate|].
    rewrite set_nodeinfo_comm by congruence. apply IH.
    cbn [last_doc] in L. rewrite K in L.
    destruct (last_doc node_id l); [discriminate | now destruct L].
Qed.

Lemma fold_set_nodeinfo_fixed (l : list value) (nodes : Nodes.store) :
  (forall node_id d, last_doc node_id l = Some d ->
     exists fields, dict_get node_id nodes = Some (VDict fields) /\
                    dict_get "nodeinfo" fields = Some d) ->
  fold_left (fun t x => set_nodeinfo x t) l nodes = nodes.
Proof.
  induction l as [|x l IH]; intros H; [reflexivity|].
  cbn [fold_left].
  assert (Hl : forall node_id d, last_doc node_id l = Some d ->
                 exists fields, dict_get node_id nodes = Some (VDict fields) /\
                                dict_get "nodeinfo" fields = Some d).
  { intros node_id d L. apply H. cbn [last_doc]. now rewrite L. }
  destruct (doc_id x) as [k|] eqn:K.
  - destruct (last_doc k l) as [e|] eqn:L.
    + rewrite (fold_set_nodeinfo_absorb l x k nodes K) by (rewrite L; discriminate).
      now apply IH.
    + destruct (H k x) as (fields & G & Ni).
      { cbn [last_doc]. now rewrite L, K, String.eqb_refl. }
      unfold set_nodeinfo. rewrite K, G.
      rewrite (dict_set_same _ _ _ Ni), (dict_set_same _ _ _ G). now apply IH.
  - unfold set_nodeinfo. rewrite K. now apply IH.
Qed.

Lemma last_doc_named (l : list value) (d : value) (node_id : string) :
  In d l -> doc_id d = Some node_id -> exists e, last_doc node_id l = Some e.
Proof.
  induction l as [|x l IH]; intros Hin K; [destruct Hin|].
  cbn [last_doc]. destruct (last_doc node_id l) as [e|] eqn:L; [eauto|].
  destruct Hin as [->|Hin].
  - rewrite K, String.eqb_refl. eauto.
  - destruct (IH Hin K) as [e E]. discriminate.
Qed.

(** X22.  Importing the same nodeinfo documents a second time, with the
    same [now] and [assume_online], changes nothing: when the import
    returns, importing the same list into the store it left returns the
    same store, whether or not several documents name the same node. *)
Theorem import_nodeinfo_idempotent :
  forall (nodes nodes' : Nodes.store) (nodeinfos : list value)
         (now : DateTime.datetime) (assume_online : bool),
    Nodes.import_nodeinfo nodes nodeinfos now assume_online = (Ok tt, nodes') ->
    Nodes.import_nodeinfo nodes' nodeinfos now assume_online = (Ok tt, nodes').
Proof.
  intros nodes nodes' nodeinfos now assume_online H.
  unfold Nodes.import_nodeinfo in *.
  pose proof (first_run now assume_online nodeinfos nodes nodes' H) as F.
  assert (Hok : forall d, In d nodeinfos ->
            exists s0,
              fst ((has <~ lift (Py.contains "node_id" d) ;;
                    if has then Nodes.import_nodeinfo_doc now assume_online d
                    else ret tt) s0) = Ok tt).
  { apply (for_each_ok_each nodeinfos _ nodes). exact (f_equal fst H). }
  rewrite (second_run now assume_online nodeinfos nodes' Hok).
  - f_equal. apply fold_set_nodeinfo_fixed. intros node_id d L.
    destruct (F node_id d L) as (node & G & Ni & St).
    destruct St as (fields & flags & -> & _). eauto.
  - intros d node_id Hin K.
    destruct (last_doc_named nodeinfos d node_id Hin K) as [e L].
    destruct (F node_id e L) as (node & G & _ & St). eauto.
Qed.

Lemma import_nodeinfo_idempotent_witness :
  Nodes.import_nodeinfo
    [("n1", VDict [("flags", VDict [("online", VBool true); ("uplink", VBool false)]);
                   ("nodeinfo", VDict [("node_id", VStr "n1"); ("hostname", VStr "b")]);
                   ("lastseen", VStr "2020-01-01T00:00:00");
                   ("firstseen", VStr "2020-01-01T00:00:00")])]
    [VDict [("node_id", VStr "n1"); ("hostname", VStr "a")];
     VDict [("node_id", VStr "n1"); ("hostname", VStr "b")]]
    (DateTime.mk 2020 1 1 0 0 0 0) true
  = (Ok tt,
     [("n1", VDict [("flags", VDict [("online", VBool true); ("uplink", VBool false)]);
                    ("nodeinfo", VDict [("node_id", VStr "n1"); ("hostname", VStr "b")]);
                    ("lastseen", VStr "2020-01-01T00:00:00");
                    ("firstseen", VStr "2020-01-01T00:00:00")])]).
Proof.
  apply (import_nodeinfo_idempotent []). vm_compute. reflexivity.
Defined.

(* ===================================================================== *)
(** * The Address Index is the same for every stage of a cycle *)
(* ===================================================================== *)

Lemma same_nodeinfo_refl : forall v, same_nodeinfo v v.
Proof. reflexivity. Qed.

Lemma same_nodeinfo_trans :
  forall a b c, same_nodeinfo a b -> same_nodeinfo b c -> same_nodeinfo a c.
Proof. unfold same_nodeinfo. intros a b c H1 H2. congruence. Qed.

Section Aligned.

Variable R : value -> value -> Prop.
Hypothesis R_refl : forall v, R v v.
Hypothesis R_trans : forall a b c, R a b -> R b c -> R a c.

Lemma aligned_refl : forall s, aligned R s s.
Proof.
  intros s. induction s as [|x s IH]; constructor; auto.
Qed.

Lemma aligned_trans : forall a b c, aligned R a b -> aligned R b c -> aligned R a c.
Proof.
  intros a b c H. revert c. induction H as [|x y a b [E1 H1] _ IH]; intros c H2.
  - inversion H2. constructor.
  - inversion H2 as [|y' z b' c' [E2 H3] H4]; subst. constructor.
    + split; [congruence | eauto].
    + now apply IH.
Qed.

Lemma dict_set_aligned (node_id : string) (node node' : value) (nodes : Nodes.store) :
  dict_get node_id nodes = Some node -> R node node' ->
  aligned R nodes (dict_set node_id node' nodes).
Proof.
  induction nodes as [|[k v] nodes IH]; [discriminate|].
  cbn [dict_get dict_set]. destruct (String.eqb node_id k).
  - intros E H. injection E as ->. constructor; [now split | apply aligned_refl].
  - intros E H. constructor; [now split | now apply IH].
Qed.

Lemma at_node_aligned {A : Type} (node_id : string) (m : M value A) :
  preserves R m -> preserves (aligned R) (Nodes.at_node node_id m).
Proof.
  intros H nodes. unfold Nodes.at_node.
  destruct (dict_get node_id nodes) as [node|] eqn:G; [|apply aligned_refl].
  specialize (H node). destruct (m node) as [r node']. cbn [snd] in *.
  now apply (dict_set_aligned node_id node).
Qed.

End Aligned.

Lemma setitem_same_nodeinfo (k : string) (v : value) :
  k <> "nodeinfo" -> preserves same_nodeinfo (Py.setitem k v).
Proof.
  intros N node. destruct node; try reflexivity.
  unfold same_nodeinfo. cbn [Py.setitem snd Py.getitem].
  now rewrite dict_get_set_other by congruence.
Qed.

Lemma setdefault_same_nodeinfo (k : string) (v : value) :
  k <> "nodeinfo" -> preserves same_nodeinfo (Py.setdefault k v).
Proof.
  intros N node. destruct node; try reflexivity.
  unfold same_nodeinfo. cbn [Py.setdefault]. destruct (dict_get k d); [reflexivity|].
  cbn [snd Py.getitem]. now rewrite dict_get_set_other by congruence.
Qed.

Lemma at_key_same_nodeinfo {A : Type} (k : string) (m : M value A) :
  k <> "nodeinfo" -> preserves same_nodeinfo (Py.at_key k m).
Proof.
  intros N node. destruct node as [| | | | | |d]; try reflexivity.
  destruct (dict_get k d) as [child|] eqn:E.
  - rewrite (at_key_dict _ _ _ _ E). unfold same_nodeinfo. cbn [snd Py.getitem].
    now rewrite dict_get_set_other by congruence.
  - now rewrite (at_key_missing _ _ _ E).
Qed.

Lemma mark_online_same_nodeinfo (now : DateTime.datetime) :
  preserves same_nodeinfo (Nodes.mark_online now).
Proof.
  unfold Nodes.mark_online.
  apply (preserves_bind _ same_nodeinfo_trans);
    [apply setitem_same_nodeinfo; discriminate|].
  intros _. apply (preserves_bind _ same_nodeinfo_trans);
    [apply setdefault_same_nodeinfo; discriminate|].
  intros _. apply at_key_same_nodeinfo. discriminate.
Qed.

Lemma statistics_same_nodeinfo (d : value) :
  preserves same_nodeinfo (Nodes.extract d ;;; Nodes.mark_uplink d).
Proof.
  assert (A : forall target source f,
             preserves same_nodeinfo (Nodes.add d target source f)).
  { intros target source f. unfold Nodes.add. apply preserves_try_except.
    apply (preserves_bind _ same_nodeinfo_trans);
      [apply (preserves_lift _ same_nodeinfo_refl)|].
    intros v. apply at_key_same_nodeinfo. discriminate. }
  apply (preserves_bind _ same_nodeinfo_trans).
  - unfold Nodes.extract.
    repeat (apply preserves_bind; [exact same_nodeinfo_trans | apply A | intros _]).
    apply A.
  - intros _. unfold Nodes.mark_uplink. apply preserves_try_except.
    apply (preserves_bind _ same_nodeinfo_trans);
      [apply (preserves_lift _ same_nodeinfo_refl)|].
    intros peers. destruct peers; [apply (preserves_ret _ same_nodeinfo_refl)|].
    apply (preserves_bind _ same_nodeinfo_trans);
      [apply at_key_same_nodeinfo; discriminate|].
    intros _. apply at_key_same_nodeinfo. discriminate.
Qed.

(** The two [try] blocks read the record through [node['nodeinfo']]
    only. *)
Lemma build_mac_table_node_same (node_id : string) (node node' : value) :
  same_nodeinfo node node' ->
  Nodes.build_mac_table_node (node_id, node')
  = Nodes.build_mac_table_node (node_id, node).
Proof.
  intros H. unfold Nodes.build_mac_table_node. cbn [Nodes.walk]. now rewrite H.
Qed.

Lemma build_mac_table_aligned (nodes nodes' : Nodes.store) :
  aligned same_nodeinfo nodes nodes' ->
  Nodes.build_mac_table nodes' = Nodes.build_mac_table nodes.
Proof.
  intros H. unfold Nodes.build_mac_table.
  assert (E : forall macs,
             for_each nodes' Nodes.build_mac_table_node macs
             = for_each nodes Nodes.build_mac_table_node macs).
  { induction H as [|[k n] [k' n'] nodes nodes' [E1 E2] _ IH]; intros macs;
      [reflexivity|].
    cbn [fst snd] in *. subst k'. cbn [for_each].
    rewrite (build_mac_table_node_same k n n' E2). unfold bind.
    destruct (Nodes.build_mac_table_node (k, n) macs) as [[[]|e|] macs1]; auto. }
  now rewrite E.
Qed.

Lemma import_statistics_aligned (nodes : Nodes.store) (stats : list value) :
  aligned same_nodeinfo nodes (snd (Nodes.import_statistics nodes stats)).
Proof.
  pose proof (aligned_refl _ same_nodeinfo_refl) as Hr.
  pose proof (aligned_trans same_nodeinfo same_nodeinfo_trans) as Ht.
  unfold Nodes.import_statistics.
  destruct (Nodes.build_mac_table nodes); cbn [snd]; auto.
  apply (preserves_for_each _ Hr Ht). intros d _ s.
  unfold Nodes.import_statistics_doc.
  apply (preserves_bind _ Ht); [apply (preserves_lift _ Hr)|].
  intros has. destruct has; [|apply (preserves_ret _ Hr)].
  apply (preserves_bind _ Ht); [apply (preserves_lift _ Hr)|].
  intros known. destruct known; [|apply (preserves_ret _ Hr)].
  apply (preserves_bind _ Ht); [apply (preserves_lift _ Hr)|].
  intros node_id. apply (at_node_aligned _ same_nodeinfo_refl).
  apply statistics_same_nodeinfo.
Qed.

Lemma mark_vis_data_online_aligned (set_order : Nodes.pyset -> list string)
    (nodes : Nodes.store) (vis_data : list value) (now : DateTime.datetime) :
  aligned same_nodeinfo nodes
    (snd (Nodes.mark_vis_data_online set_order nodes vis_data now)).
Proof.
  pose proof (aligned_refl _ same_nodeinfo_refl) as Hr.
  pose proof (aligned_trans same_nodeinfo same_nodeinfo_trans) as Ht.
  unfold Nodes.mark_vis_data_online.
  destruct (Nodes.build_mac_table nodes) as [macs| |]; cbn [snd]; auto.
  destruct (Nodes.online_set vis_data) as [[[]| |] online]; cbn [snd]; auto.
  apply (preserves_for_each _ Hr Ht). intros mac _.
  destruct (dict_get mac macs) as [node_id|].
  - apply (at_node_aligned _ same_nodeinfo_refl). apply mark_online_same_nodeinfo.
  - apply (preserves_lift _ Hr).
Qed.

(** X23.  The Address Index depends on the [nodeinfo] of the records
    only, so the stages that leave [nodeinfo] alone all work with the same
    index: built after the Statistics Resetter, the Statistics Importer,
    the vis client count or vis online marking, whether the stage returned
    or raised, it is the index built before. *)
Theorem index_is_stable :
  (forall nodes,
      Nodes.build_mac_table (snd (Nodes.reset_statistics nodes))
      = Nodes.build_mac_table nodes) /\
  (forall nodes stats,
      Nodes.build_mac_table (snd (Nodes.import_statistics nodes stats))
      = Nodes.build_mac_table nodes) /\
  (forall nodes vis_data,
      Nodes.build_mac_table (snd (Nodes.import_vis_clientcount nodes vis_data))
      = Nodes.build_mac_table nodes) /\
  (forall set_order nodes vis_data now,
      Nodes.build_mac_table (snd (Nodes.mark_vis_data_online set_order nodes vis_data now))
      = Nodes.build_mac_table nodes).
Proof.
  pose proof (aligned_refl _ same_nodeinfo_refl) as Hr.
  pose proof (aligned_trans same_nodeinfo same_nodeinfo_trans) as Ht.
  split; [|split; [|split]].
  - intros nodes. apply build_mac_table_aligned. unfold Nodes.reset_statistics.
    apply (preserves_for_each _ Hr Ht). intros node_id _.
    apply (at_node_aligned _ same_nodeinfo_refl).
    apply setitem_same_nodeinfo. discriminate.
  - intros nodes stats. apply build_mac_table_aligned, import_statistics_aligned.
  - intros nodes vis_data. apply build_mac_table_aligned.
    unfold Nodes.import_vis_clientcount.
    destruct (Nodes.build_mac_table nodes) as [macs| |]; cbn [snd]; auto.
    destruct (Nodes.client_nodes macs vis_data) as [data| |]; cbn [snd]; auto.
    apply (preserves_for_each _ Hr Ht). intros [node_id n] _.
    apply (at_node_aligned _ same_nodeinfo_refl).
    apply at_key_same_nodeinfo. discriminate.
  - intros set_order nodes vis_data now.
    apply build_mac_table_aligned, mark_vis_data_online_aligned.
Qed.

(* ===================================================================== *)
(** * Marking the same vis data online twice *)
(* ===================================================================== *)

Lemma mark_online_seen (now : DateTime.datetime) (node node' : value) :
  Nodes.mark_online now node = (Ok tt, node') -> seen now node'.
Proof.
  intros H. destruct node as [| | | | | |fields]; try discriminate H.
  destruct (mark_online_unfold now fields) as (f2 & E & Hf). rewrite E in H.
  destruct (dict_get "flags" fields) as [fl|] eqn:F.
  - destruct fl as [| | | | | |flags];
      try (rewrite (at_key_dict _ _ _ _ Hf) in H; discriminate H).
    destruct (mark_online_effect now fields flags F) as (f' & Run & L & Fs & O & _).
    rewrite <- E, Run in H. injection H as <-.
    exists f', (dict_set "online" (VBool true) flags). eexists.
    split; [reflexivity|]. split; [exact L|]. split; [exact Fs|].
    split; [exact O | apply dict_get_set_same].
  - rewrite (at_key_missing _ _ _ Hf) in H. discriminate H.
Qed.

Lemma seen_fixed (now : DateTime.datetime) (node : value) :
  seen now node -> Nodes.mark_online now node = (Ok tt, node).
Proof.
  intros (fields & flags & first & -> & L & F & G & O).
  exact (mark_online_fixed now fields flags first L F G O).
Qed.

Section SeenLoop.

Variables (macs : Nodes.mac_table) (now : DateTime.datetime).

Let body (mac : string) : M Nodes.store unit :=
  match dict_get mac macs with
  | Some node_id => Nodes.at_node node_id (Nodes.mark_online now)
  | None => lift (Raise KeyError)
  end.

Let stays (node node' : value) : Prop := seen now node -> seen now node'.

Lemma seen_loop_stays (l : list string) :
  preserves (each_node stays) (for_each l body).
Proof.
  apply preserves_for_each.
  - apply each_node_refl. now intros v H.
  - apply each_node_trans. intros a b c H1 H2 H. auto.
  - intros x _. unfold body. destruct (dict_get x macs).
    + apply preserves_at_node; [now intros v H|].
      intros node S. now rewrite (seen_fixed now node S).
    + apply preserves_lift, each_node_refl. now intros v H.
Qed.

Lemma seen_loop_first (l : list string) (nodes nodes' : Nodes.store) :
  for_each l body nodes = (Ok tt, nodes') ->
  forall mac node_id, In mac l -> dict_get mac macs = Some node_id ->
    exists node', dict_get node_id nodes' = Some node' /\ seen now node'.
Proof.
  revert nodes. induction l as [|mac0 l IH]; intros nodes Hrun mac node_id Hin Hm;
    [destruct Hin|].
  cbn [for_each] in Hrun. unfold bind in Hrun.
  destruct (body mac0 nodes) as [[[]|e|] nodes1] eqn:E1; try discriminate.
  destruct Hin as [->|Hin]; [|eauto].
  unfold body in E1. rewrite Hm in E1. unfold Nodes.at_node in E1.
  destruct (dict_get node_id nodes) as [node|] eqn:G; [|discriminate].
  destruct (Nodes.mark_online now node) as [r n1] eqn:M1.
  injection E1 as -> <-. apply mark_online_seen in M1.
  pose proof (seen_loop_stays l (dict_set node_id n1 nodes) node_id n1
                (dict_get_set_same _ _ _)) as P.
  rewrite Hrun in P. destruct P as (node' & G' & S). eauto.
Qed.

Lemma seen_loop_again (l : list string) (nodes : Nodes.store) :
  (forall mac, In mac l ->
     exists node_id node,
       dict_get mac macs = Some node_id /\
       dict_get node_id nodes = Some node /\ seen now node) ->
  for_each l body nodes = (Ok tt, nodes).
Proof.
  induction l as [|mac l IH]; intros H; [reflexivity|].
  cbn [for_each]. rewrite (bind_ok _ _ nodes nodes tt).
  - apply IH. intros m Hm. apply H. now right.
  - destruct (H mac (or_introl eq_refl)) as (node_id & node & Hm & G & S).
    unfold body. rewrite Hm. unfold Nodes.at_node. rewrite G.
    rewrite (seen_fixed now node S). now rewrite (dict_set_same _ _ _ G).
Qed.

End SeenLoop.

(** X24.  Vis online marking is idempotent: when [mark_vis_data_online]
    returns, running it again on the store it left, with the same vis data
    and the same [now], returns the same store. *)
Theorem mark_vis_data_online_idempotent :
  forall (set_order : Nodes.pyset -> list string) (nodes nodes' : Nodes.store)
         (vis_data : list value) (now : DateTime.datetime),
    Nodes.mark_vis_data_online set_order nodes vis_data now = (Ok tt, nodes') ->
    Nodes.mark_vis_data_online set_order nodes' vis_data now = (Ok tt, nodes').
Proof.
  intros set_order nodes nodes' vis_data now H.
  pose proof (mark_vis_data_online_aligned set_order nodes vis_data now) as A.
  rewrite H in A. cbn [snd] in A. apply build_mac_table_aligned in A.
  unfold Nodes.mark_vis_data_online in *. rewrite A.
  destruct (Nodes.build_mac_table nodes) as [macs| |]; try discriminate H.
  destruct (Nodes.online_set vis_data) as [[[]| |] online]; try discriminate H.
  apply seen_loop_again. intros mac Hin.
  apply filter_In in Hin. destruct Hin as [Hin Hm]. unfold dict_mem in Hm.
  destruct (dict_get mac macs) as [node_id|] eqn:G; [|discriminate].
  destruct (seen_loop_first macs now _ _ _ H mac node_id) as (node' & G' & S); auto.
  - apply filter_In. split; auto. unfold dict_mem. now rewrite G.
  - eauto.
Qed.

Lemma mark_vis_data_online_idempotent_witness :
  Nodes.mark_vis_data_online (fun s => s)
    (snd (Nodes.mark_vis_data_online (fun s => s)
            [("n1", VDict [("flags", VDict []);
                           ("nodeinfo", VDict [("network",
                              VDict [("mesh_interfaces", VList [VStr "A"])])])])]
            [VDict [("primary", VStr "A")]]
            (DateTime.mk 2020 1 1 0 0 0 0)))
    [VDict [("primary", VStr "A")]]
    (DateTime.mk 2020 1 1 0 0 0 0)
  = (Ok tt,
     snd (Nodes.mark_vis_data_online (fun s => s)
            [("n1", VDict [("flags", VDict []);
                           ("nodeinfo", VDict [("network",
                              VDict [("mesh_interfaces", VList [VStr "A"])])])])]
            [VDict [("primary", VStr "A")]]
            (DateTime.mk 2020 1 1 0 0 0 0))).
Proof.
  apply (mark_vis_data_online_idempotent (fun s => s)
           [("n1", VDict [("flags", VDict []);
                          ("nodeinfo", VDict [("network",
                             VDict [("mesh_interfaces", VList [VStr "A"])])])])]).
  vm_compute. reflexivity.
Defined.

(* ===================================================================== *)
(** * The Statistics Importer on a list of documents *)
(* ===================================================================== *)

Section KeepsStatistics.

(** The statistics stay a dict and change at most in [vpn_peers]. *)
Let keeps (node node' : value) : Prop :=
  forall fields st,
    node = VDict fields -> dict_get "statistics" fields = Some (VDict st) ->
    exists fields' st',
      node' = VDict fields' /\
      dict_get "statistics" fields' = Some (VDict st') /\
      forall k, k <> "vpn_peers" -> dict_get k st' = dict_get k st.

Lemma keeps_refl : forall v, keeps v v.
Proof. intros v fields st -> H. eauto. Qed.

Lemma keeps_trans : forall a b c, keeps a b -> keeps b c -> keeps a c.
Proof.
  intros a b c H1 H2 fields st E H.
  destruct (H1 fields st E H) as (f1 & s1 & E1 & G1 & K1).
  destruct (H2 f1 s1 E1 G1) as (f2 & s2 & E2 & G2 & K2).
  exists f2, s2. split; [exact E2|]. split; [exact G2|].
  intros k N. now rewrite K2, K1.
Qed.

Lemma set_flag_keeps (f : string) (v : value) :
  preserves keeps (Py.at_key "flags" (Py.setitem f v)).
Proof.
  intros node fields st -> H.
  destruct (dict_get "flags" fields) as [fl|] eqn:E.
  - rewrite (at_key_dict _ _ _ _ E). cbn [snd]. eexists. exists st.
    split; [reflexivity|]. split; [|auto].
    now rewrite dict_get_set_other by discriminate.
  - rewrite (at_key_missing _ _ _ E). cbn [snd]. eauto.
Qed.

Lemma set_peers_keeps (v : value) :
  preserves keeps (Py.at_key "statistics" (Py.setitem "vpn_peers" v)).
Proof.
  intros node fields st -> H.
  rewrite (at_key_dict _ _ _ _ H). cbn [Py.setitem snd].
  eexists. eexists. split; [reflexivity|]. split; [apply dict_get_set_same|].
  intros k N. now apply dict_get_set_other.
Qed.

Lemma mark_uplink_keeps (stats : value) (fields st : list (string * value)) :
  dict_get "statistics" fields = Some (VDict st) ->
  exists fields' st',
    snd (Nodes.mark_uplink stats (VDict fields)) = VDict fields' /\
    dict_get "statistics" fields' = Some (VDict st') /\
    forall k, k <> "vpn_peers" -> dict_get k st' = dict_get k st.
Proof.
  intros H.
  assert (P : preserves keeps (Nodes.mark_uplink stats)).
  { unfold Nodes.mark_uplink. apply preserves_try_except.
    apply (preserves_bind _ keeps_trans); [apply (preserves_lift _ keeps_refl)|].
    intros peers. destruct peers; [apply (preserves_ret _ keeps_refl)|].
    apply (preserves_bind _ keeps_trans); [apply set_flag_keeps|].
    intros _. apply set_peers_keeps. }
  exact (P (VDict fields) fields st eq_refl H).
Qed.

End KeepsStatistics.

(** The store after the import of a document that names a record. *)
Lemma import_statistics_doc_named (d node : value) (node_id : string)
    (nodes : Nodes.store) :
  doc_id d = Some node_id ->
  dict_get node_id nodes = Some node ->
  snd (Nodes.import_statistics_doc d nodes)
  = dict_set node_id (snd ((Nodes.extract d ;;; Nodes.mark_uplink d) node)) nodes.
Proof.
  intros K Hn. apply doc_id_getitem in K. unfold Nodes.import_statistics_doc.
  unfold bind at 1, lift at 1. rewrite (contains_node_id _ _ K).
  unfold bind at 1, lift at 1. rewrite K. cbn [rbind Py.key_in].
  unfold dict_mem. rewrite Hn.
  unfold bind at 1, lift at 1. cbn [Py.as_key].
  unfold Nodes.at_node. rewrite Hn.
  destruct ((Nodes.extract d ;;; Nodes.mark_uplink d) node) as [r node']. reflexivity.
Qed.

Lemma imported_cons (node_id : string) (source : list string)
    (f : value -> result value) (d : value) (docs : list value) (before : option value) :
  imported node_id source f (d :: docs) before
  = imported node_id source f docs
      (match doc_id d with
       | Some k =>
           if String.eqb k node_id
           then match extracted d source f with
                | Ok v => Some v
                | _ => before
                end
           else before
       | None => before
       end).
Proof. reflexivity. Qed.

(** The loop of the importer: every document is taken, and the record
    holds for each target what the documents that name it yielded. *)
Lemma import_statistics_values (node_id : string) (docs : list value) :
  Forall sound_document docs ->
  forall (nodes : Nodes.store) (fields st : list (string * value)),
    (forall i node, dict_get i nodes = Some node -> record_like node) ->
    dict_get node_id nodes = Some (VDict fields) ->
    dict_get "statistics" fields = Some (VDict st) ->
    exists nodes' fields' st',
      for_each docs Nodes.import_statistics_doc nodes = (Ok tt, nodes') /\
      dict_get node_id nodes' = Some (VDict fields') /\
      dict_get "statistics" fields' = Some (VDict st') /\
      forall target source f,
        In (target, source, f) extractions ->
        dict_get target st' = imported node_id source f docs (dict_get target st).
Proof.
  induction 1 as [|d docs Hd _ IH]; intros nodes fields st Hrec Hn Hs.
  - exists nodes, fields, st. split; [reflexivity|]. split; [exact Hn|].
    split; [exact Hs|]. reflexivity.
  - destruct (import_statistics_doc_sound d nodes Hd Hrec) as [Hok Hrec1].
    destruct (Nodes.import_statistics_doc d nodes) as [r nodes1] eqn:Run.
    cbn [fst snd] in Hok, Hrec1. subst r.
    assert (Step : exists fields1 st1,
               dict_get node_id nodes1 = Some (VDict fields1) /\
               dict_get "statistics" fields1 = Some (VDict st1) /\
               forall target source f,
                 In (target, source, f) extractions ->
                 dict_get target st1 =
                 match doc_id d with
                 | Some k =>
                     if String.eqb k node_id
                     then match extracted d source f with
                          | Ok v => Some v
                          | _ => dict_get target st
                          end
                     else dict_get target st
                 | None => dict_get target st
                 end).
    { destruct (option_map (fun k => String.eqb k node_id) (doc_id d)) as [[]|] eqn:K.
      - destruct (doc_id d) as [k|] eqn:Kd; [|discriminate]. cbn in K.
        injection K as K. apply String.eqb_eq in K. subst k.
        pose proof (import_statistics_doc_named d _ node_id nodes Kd Hn) as E.
        rewrite Run in E. cbn [snd] in E.
        destruct Hd as (_ & Hm & _).
        pose proof (extract_written d fields st Hs Hm) as X.
        unfold bind at 1 in E. rewrite X in E.
        match type of E with
        | context [Nodes.mark_uplink d (VDict (dict_set "statistics" (VDict ?W) fields))] =>
            destruct (mark_uplink_keeps d (dict_set "statistics" (VDict W) fields) W
                        (dict_get_set_same _ _ _))
              as (fields1 & st1 & E1 & G1 & K1)
        end.
        rewrite E1 in E. exists fields1, st1.
        split; [rewrite E; apply dict_get_set_same|]. split; [exact G1|].
        intros target source f Hin. rewrite String.eqb_refl.
        assert (N : target <> "vpn_peers").
        { cbn in Hin.
          repeat (destruct Hin as [Hin|Hin]; [injection Hin as <- <- <-; discriminate|]).
          destruct Hin. }
        rewrite (K1 target N), !written_get. cbn in Hin.
        repeat (destruct Hin as [Hin|Hin];
                [injection Hin as <- <- <-;
                 cbn [String.eqb Ascii.eqb Bool.eqb andb]; reflexivity|]).
        destruct Hin.
      - destruct (doc_id d) as [k|] eqn:Kd; [|discriminate]. cbn in K.
        injection K as K. rewrite K.
        pose proof (untouched_import_statistics_doc node_id d) as U.
        assert (N : Py.getitem d "node_id" <> Ok (VStr node_id)).
        { intros G. apply doc_id_getitem in G. rewrite Kd in G. injection G as ->.
          rewrite String.eqb_refl in K. discriminate. }
        specialize (U N nodes). rewrite Run in U. cbn [snd] in U.
        exists fields, st. rewrite U. auto.
      - destruct (doc_id d) as [k|] eqn:Kd; [discriminate|].
        pose proof (untouched_import_statistics_doc node_id d) as U.
        assert (N : Py.getitem d "node_id" <> Ok (VStr node_id)).
        { intros G. apply doc_id_getitem in G. congruence. }
        specialize (U N nodes). rewrite Run in U. cbn [snd] in U.
        exists fields, st. rewrite U. auto. }
    destruct Step as (fields1 & st1 & Hn1 & Hs1 & V1).
    destruct (IH nodes1 fields1 st1 Hrec1 Hn1 Hs1) as (nodes' & fields' & st' & R & G & S & V).
    exists nodes', fields', st'. split.
    + cbn [for_each]. rewrite (bind_ok _ _ nodes nodes1 tt) by exact Run. exact R.
    + split; [exact G|]. split; [exact S|].
      intros target source f Hin. rewrite imported_cons, (V target source f Hin).
      now rewrite (V1 target source f Hin).
Qed.

(** C1.  Each of the six extractions is fail-soft on its own.  On a record
    with a dict of statistics, an extraction that yields a value writes its
    target field and one that meets a missing key, a wrong type or a
    division by zero leaves the statistics as they were; after the six
    of them each target field holds what its own extraction yielded, or
    what it held before when that extraction failed, and the other fields
    are untouched.  On any object the six extractions end without
    exception, unless the memory figures overflow a float.  On records
    whose flags and statistics are dicts where present, the importer goes
    through a list of documents to the end whatever faults their
    extractions meet, and every document is taken: a record with
    statistics holds, under each of the six targets, the value of the last
    document that names the record and whose extraction for that target
    yielded one, or what it held before the import when there is none. *)
Theorem import_statistics_fail_soft :
  (forall (stats : value) (target : string) (source : list string)
          (f : value -> result value) (fields st : list (string * value)),
      dict_get "statistics" fields = Some (VDict st) ->
      raises_only handled_faults (extracted stats source f) ->
      Nodes.add stats target source f (VDict fields)
      = (Ok tt, VDict (dict_set "statistics"
                         (VDict (written (extracted stats source f) target st)) fields))) /\
  (forall (stats : value) (fields st : list (string * value)),
      dict_get "statistics" fields = Some (VDict st) ->
      extracted stats ["memory"] Nodes.memory_usage <> Raise OverflowError ->
      exists st',
        Nodes.extract stats (VDict fields)
        = (Ok tt, VDict (dict_set "statistics" (VDict st') fields)) /\
        (forall target source f,
            In (target, source, f) extractions ->
            dict_get target st' =
            match extracted stats source f with
            | Ok v => Some v
            | _ => dict_get target st
            end) /\
        (forall k, ~ In k (map (fun e => fst (fst e)) extractions) ->
                   dict_get k st' = dict_get k st)) /\
  (forall (stats node : value),
      fst (Nodes.extract stats node) = Ok tt \/
      fst (Nodes.extract stats node) = Raise OverflowError) /\
  (forall (nodes : Nodes.store) (docs : list value) (macs : Nodes.mac_table),
      Nodes.build_mac_table nodes = Ok macs ->
      (forall node_id node, dict_get node_id nodes = Some node -> record_like node) ->
      Forall sound_document docs ->
      fst (Nodes.import_statistics nodes docs) = Ok tt) /\
  (forall (nodes : Nodes.store) (docs : list value) (macs : Nodes.mac_table)
          (node_id : string) (fields st : list (string * value)),
      Nodes.build_mac_table nodes = Ok macs ->
      (forall i node, dict_get i nodes = Some node -> record_like node) ->
      Forall sound_document docs ->
      dict_get node_id nodes = Some (VDict fields) ->
      dict_get "statistics" fields = Some (VDict st) ->
      exists nodes' node',
        Nodes.import_statistics nodes docs = (Ok tt, nodes') /\
        dict_get node_id nodes' = Some node' /\
        forall target source f,
          In (target, source, f) extractions ->
          statistic target node'
          = imported node_id source f docs (dict_get target st)).
Proof.
  split; [exact add_written|].
  split; [|split; [exact extract_outcome|split]].
  - intros stats fields st Hs Hm. eexists.
    split; [apply (extract_written _ _ _ Hs Hm)|]. split.
    + intros target source f Hin. rewrite !written_get.
      simpl in Hin.
      repeat (destruct Hin as [Hin|Hin];
              [injection Hin as <- <- <-;
               cbn [String.eqb Ascii.eqb Bool.eqb andb]; reflexivity|]).
      destruct Hin.
    + intros k Hk. rewrite !written_get. simpl in Hk.
      repeat match goal with
             | |- context [String.eqb k ?t] =>
                 let E := fresh "E" in
                 destruct (String.eqb k t) eqn:E;
                 [apply String.eqb_eq in E; subst k; exfalso; apply Hk; tauto|]
             end.
      reflexivity.
  - intros nodes docs macs Hm Hrec Hd. unfold Nodes.import_statistics. rewrite Hm.
    now apply import_statistics_loop.
  - intros nodes docs macs node_id fields st Hm Hrec Hd Hn Hs.
    destruct (import_statistics_values node_id docs Hd nodes fields st Hrec Hn Hs)
      as (nodes' & fields' & st' & R & G & S & V).
    exists nodes', (VDict fields'). unfold Nodes.import_statistics. rewrite Hm.
    split; [exact R|]. split; [exact G|].
    intros target source f Hin. unfold statistic. cbn [field]. rewrite S.
    cbn [field]. now apply V.
Qed.

Lemma import_statistics_fail_soft_witness :
  exists nodes' node',
    Nodes.import_statistics
      [("n1", VDict [("flags", VDict []); ("statistics", VDict [("clients", VInt 0)])]);
       ("n2", VDict [("flags", VDict []); ("statistics", VDict [("clients", VInt 0)])])]
      [VDict [("node_id", VStr "n1"); ("clients", VInt 7); ("uptime", VInt 60);
              ("memory", VDict [("free", VInt 1); ("buffers", VInt 1);
                                ("cached", VInt 1); ("total", VInt 0)])];
       VDict [("node_id", VStr "n2"); ("uptime", VInt 5)];
       VDict [("uptime", VInt 9)];
       VDict [("node_id", VStr "n1"); ("loadavg", VInt 2);
              ("mesh_vpn", VDict [("groups", VDict [("backbone", example_group)])])]]
    = (Ok tt, nodes') /\
    dict_get "n1" nodes' = Some node' /\
    forall target source f,
      In (target, source, f) extractions ->
      statistic target node'
      = imported "n1" source f
          [VDict [("node_id", VStr "n1"); ("clients", VInt 7); ("uptime", VInt 60);
                  ("memory", VDict [("free", VInt 1); ("buffers", VInt 1);
                                    ("cached", VInt 1); ("total", VInt 0)])];
           VDict [("node_id", VStr "n2"); ("uptime", VInt 5)];
           VDict [("uptime", VInt 9)];
           VDict [("node_id", VStr "n1"); ("loadavg", VInt 2);
                  ("mesh_vpn", VDict [("groups", VDict [("backbone", example_group)])])]]
          (dict_get target [("clients", VInt 0)]).
Proof.
  apply (proj2 (proj2 (proj2 (proj2 import_statistics_fail_soft))) _ _ [] "n1"
           [("flags", VDict []); ("statistics", VDict [("clients", VInt 0)])]
           [("clients", VInt 0)]).
  - reflexivity.
  - intros i node H. cbn [dict_get] in H.
    destruct (String.eqb i "n1");
      [injection H as <-; eexists; split; [reflexivity|]; split; exact I|].
    destruct (String.eqb i "n2"); [|discriminate].
    injection H as <-. eexists. split; [reflexivity|]. split; exact I.
  - apply Forall_cons;
      [|apply Forall_cons; [|apply Forall_cons; [|apply Forall_cons; [|apply Forall_nil]]]].
    + split; [eexists; split; [reflexivity | right; eexists; reflexivity]|].
      split; [vm_compute; discriminate | vm_compute; auto].
    + split; [eexists; split; [reflexivity | right; eexists; reflexivity]|].
      split; [vm_compute; discriminate | vm_compute; auto].
    + split; [eexists; split; [reflexivity | left; reflexivity]|].
      split; [vm_compute; discriminate | vm_compute; auto].
    + split; [eexists; split; [reflexivity | right; eexists; reflexivity]|].
      split; [vm_compute; discriminate | vm_compute; auto].
  - reflexivity.
  - reflexivity.
Defined.

(** The same run, computed: the first document leaves [uptime] although
    its [clients] and its memory figures are faulty, the second goes to
    the other record, the third names no node, and the fourth adds
    [loadavg] and the uplink peers. *)
Example import_statistics_every_document :
  Nodes.import_statistics
    [("n1", VDict [("flags", VDict []); ("statistics", VDict [("clients", VInt 0)])]);
     ("n2", VDict [("flags", VDict []); ("statistics", VDict [("clients", VInt 0)])])]
    [VDict [("node_id", VStr "n1"); ("clients", VInt 7); ("uptime", VInt 60);
            ("memory", VDict [("free", VInt 1); ("buffers", VInt 1);
                              ("cached", VInt 1); ("total", VInt 0)])];
     VDict [("node_id", VStr "n2"); ("uptime", VInt 5)];
     VDict [("uptime", VInt 9)];
     VDict [("node_id", VStr "n1"); ("loadavg", VInt 2);
            ("mesh_vpn", VDict [("groups", VDict [("backbone", example_group)])])]]
  = (Ok tt,
     [("n1", VDict [("flags", VDict [("uplink", VBool true)]);
                    ("statistics", VDict [("clients", VInt 0); ("uptime", VInt 60);
                                          ("loadavg", VInt 2);
                                          ("vpn_peers", VList [VStr "aa:bb"])])]);
      ("n2", VDict [("flags", VDict []);
                    ("statistics", VDict [("clients", VInt 0); ("uptime", VInt 5)])])]).
Proof. vm_compute. reflexivity. Qed.

(* ===================================================================== *)
(** * Interface reconciliation on every group *)
(* ===================================================================== *)

Lemma walk_network (fields ni nw : list (string * value)) (path : list string) :
  dict_get "nodeinfo" fields = Some (VDict ni) ->
  dict_get "network" ni = Some (VDict nw) ->
  Nodes.walk (VDict fields) ("nodeinfo" :: "network" :: path) = Nodes.walk (VDict nw) path.
Proof.
  intros H1 H2. cbn [Nodes.walk Py.getitem]. rewrite H1. cbn [rbind Py.getitem].
  now rewrite H2.
Qed.

Lemma with_interfaces_reconcilable (l : list string) (node : value) :
  reconcilable node -> reconcilable (with_interfaces l node).
Proof.
  intros (Hk & fields & ni & nw & -> & Hni & Hnw).
  unfold with_interfaces. rewrite Hni, Hnw.
  set (nw' := dict_set "mesh_interfaces" (VList (map VStr l)) nw).
  set (ni' := dict_set "network" (VDict nw') ni).
  set (fields' := dict_set "nodeinfo" (VDict ni') fields).
  assert (Hni' : dict_get "nodeinfo" fields' = Some (VDict ni')) by apply dict_get_set_same.
  assert (Hnw' : dict_get "network" ni' = Some (VDict nw')) by apply dict_get_set_same.
  split; [|exists fields', ni', nw'; auto].
  assert (M : forall rest,
             shape ("nodeinfo" :: "network" :: "mesh" :: rest) address_list (VDict fields) ->
             shape ("nodeinfo" :: "network" :: "mesh" :: rest) address_list (VDict fields')).
  { intros rest. unfold shape.
    rewrite (walk_network fields ni nw _ Hni Hnw), (walk_network fields' ni' nw' _ Hni' Hnw').
    cbn [Nodes.walk Py.getitem]. unfold nw'.
    now rewrite dict_get_set_other by discriminate. }
  unfold known_shapes, known_paths in *.
  inversion Hk as [|? ? S1 Hk1]; subst. inversion Hk1 as [|? ? S2 Hk2]; subst.
  inversion Hk2 as [|? ? S3 Hk3]; subst. inversion Hk3 as [|? ? S4 _]; subst.
  repeat apply Forall_cons; try apply Forall_nil; try (now apply M).
  unfold shape. rewrite (walk_network fields' ni' nw' _ Hni' Hnw').
  cbn [Nodes.walk Py.getitem rbind]. unfold nw'. rewrite dict_get_set_same.
  now exists l.
Qed.

Section Reconciliation.

Variable set_order : Nodes.pyset -> list string.
Hypothesis order_ok : set_iteration set_order.
Variable macs : Nodes.mac_table.

(** The body of the second loop, on one group. *)
Let body (ifs : Nodes.pyset) : M Nodes.store unit :=
  match Nodes.if_to_node set_order macs ifs with
  | Some (node_id, group) => Nodes.at_node node_id (Nodes.merge_ifs set_order group)
  | None => ret tt
  end.

(** Every record the index points to can be written to. *)
Let ready (nodes : Nodes.store) : Prop :=
  forall a node_id,
    dict_get a macs = Some node_id ->
    exists node, dict_get node_id nodes = Some node /\ reconcilable node.

Lemma merge_ifs_with (group : Nodes.pyset) (node : value) :
  reconcilable node ->
  exists l,
    Nodes.merge_ifs set_order group node = (Ok tt, with_interfaces l node) /\
    NoDup l /\
    (forall x, In x l <-> In x (known_addresses node) \/ In x group).
Proof.
  intros (Hk & fields & ni & nw & -> & Hni & Hnw).
  destruct (merge_ifs_union set_order order_ok group fields ni nw Hk Hni Hnw)
    as (l & Run & ND & Hin).
  exists l. unfold with_interfaces. rewrite Hni, Hnw. auto.
Qed.

Lemma reconcile_group (ifs : Nodes.pyset) (nodes : Nodes.store) :
  ready nodes ->
  exists nodes',
    body ifs nodes = (Ok tt, nodes') /\
    reconciles macs ifs nodes nodes' /\
    ready nodes'.
Proof.
  intros Hr. unfold body.
  pose proof (if_to_node_resolves set_order order_ok macs ifs) as R.
  destruct (Nodes.if_to_node set_order macs ifs) as [[node_id group]|].
  - destruct R as (-> & x & Hx & Hm).
    destruct (Hr x node_id Hm) as (node & G & Hn).
    destruct (merge_ifs_with ifs node Hn) as (l & Run & ND & Hin).
    exists (dict_set node_id (with_interfaces l node) nodes).
    split; [unfold Nodes.at_node; now rewrite G, Run|]. split.
    + right. exists x, node_id, node, l.
      split; [exact Hx|]. split; [exact Hm|]. split; [exact G|].
      split; [exact ND|]. split; [exact Hin | reflexivity].
    + intros a i Ha. rewrite dict_get_set.
      destruct (String.eqb i node_id) eqn:E.
      * eexists. split; [reflexivity|]. now apply with_interfaces_reconcilable.
      * now apply (Hr a).
  - exists nodes. split; [reflexivity|]. split; [now left | exact Hr].
Qed.

Lemma reconcile_loop (groups : list Nodes.pyset) (nodes : Nodes.store) :
  ready nodes ->
  exists nodes',
    for_each groups body nodes = (Ok tt, nodes') /\
    reconciled macs groups nodes nodes'.
Proof.
  revert nodes. induction groups as [|ifs groups IH]; intros nodes Hr.
  - exists nodes. split; [reflexivity | constructor].
  - destruct (reconcile_group ifs nodes Hr) as (nodes1 & Run & Step & Hr1).
    destruct (IH nodes1 Hr1) as (nodes' & Rest & Rel).
    exists nodes'. split.
    + cbn [for_each]. now rewrite (bind_ok _ _ nodes nodes1 tt Run).
    + econstructor; eauto.
Qed.

Lemma reconcile_frame (groups : list Nodes.pyset) (node_id : string) :
  (forall ifs x, In ifs groups -> In x ifs -> dict_get x macs <> Some node_id) ->
  forall nodes,
    dict_get node_id (snd (for_each groups body nodes)) = dict_get node_id nodes.
Proof.
  intros H.
  apply (preserves_for_each _ (untouched_refl node_id) (untouched_trans node_id)).
  intros ifs Hin nodes. unfold body.
  pose proof (if_to_node_resolves set_order order_ok macs ifs) as R.
  destruct (Nodes.if_to_node set_order macs ifs) as [[owner group]|]; [|reflexivity].
  destruct R as (-> & x & Hx & Hm). apply at_node_other.
  intros ->. exact (H ifs x Hin Hx Hm).
Qed.

End Reconciliation.

(** C5.  The secondary-link lines are grouped by the primary address each
    line states: the group under a primary holds that primary and the
    secondaries of the lines that name it, and nothing else, so groups
    under different primaries are never merged.  A group in which no
    address is in the Address Index goes to no record; otherwise it goes
    to the owner of one of its addresses.  On that record the addresses
    found in the flat list and in the wireless, tunnel and other lists of
    the group [bat0] are united with the group, and the union, each
    address once, replaces [nodeinfo.network.mesh_interfaces]; nothing
    else in the record changes.  A record that knows [A] and the line
    [{of: A, secondary: B}] give the record the interfaces [A] and [B].
    The importer does this with every group in turn, each on the store
    the group before it left, and returns; a record to which no address
    of any group resolves is left as it was. *)
Theorem import_mesh_ifs_vis_data_union :
  (forall (vis_data : list value) (groups : dict Nodes.pyset),
      Nodes.mesh_groups vis_data = (Ok tt, groups) ->
      forall p x,
        (exists s, dict_get p groups = Some s /\ In x s) <->
        (exists line y, In line vis_data /\ link line p y /\ (x = p \/ x = y))) /\
  (forall (set_order : Nodes.pyset -> list string) (macs : Nodes.mac_table)
          (ifs : Nodes.pyset),
      set_iteration set_order ->
      match Nodes.if_to_node set_order macs ifs with
      | Some (node_id, group) =>
          group = ifs /\ exists x, In x ifs /\ dict_get x macs = Some node_id
      | None => forall x, In x ifs -> dict_get x macs = None
      end) /\
  (forall (set_order : Nodes.pyset -> list string) (group : Nodes.pyset)
          (fields ni nw : list (string * value)),
      set_iteration set_order ->
      known_shapes (VDict fields) ->
      dict_get "nodeinfo" fields = Some (VDict ni) ->
      dict_get "network" ni = Some (VDict nw) ->
      exists l,
        Nodes.merge_ifs set_order group (VDict fields)
        = (Ok tt,
           VDict (dict_set "nodeinfo"
                    (VDict (dict_set "network"
                              (VDict (dict_set "mesh_interfaces" (VList (map VStr l)) nw))
                              ni))
                    fields)) /\
        NoDup l /\
        (forall x, In x l <-> In x (known_addresses (VDict fields)) \/ In x group)) /\
  (forall (set_order : Nodes.pyset -> list string) (node_id A B : string),
      set_iteration set_order ->
      exists l,
        Nodes.import_mesh_ifs_vis_data set_order
          [(node_id, VDict [("nodeinfo",
                             VDict [("network", VDict [("mesh_interfaces", VList [VStr A])])])])]
          [VDict [("of", VStr A); ("secondary", VStr B)]]
        = (Ok tt,
           [(node_id, VDict [("nodeinfo",
                              VDict [("network",
                                      VDict [("mesh_interfaces", VList (map VStr l))])])])]) /\
        NoDup l /\
        (forall x, In x l <-> x = A \/ x = B)) /\
  (forall (set_order : Nodes.pyset -> list string) (nodes : Nodes.store)
          (vis_data : list value) (macs : Nodes.mac_table) (groups : dict Nodes.pyset),
      set_iteration set_order ->
      Nodes.build_mac_table nodes = Ok macs ->
      Nodes.mesh_groups vis_data = (Ok tt, groups) ->
      (forall a node_id,
          dict_get a macs = Some node_id ->
          exists node, dict_get node_id nodes = Some node /\ reconcilable node) ->
      exists nodes',
        Nodes.import_mesh_ifs_vis_data set_order nodes vis_data = (Ok tt, nodes') /\
        reconciled macs (map snd groups) nodes nodes') /\
  (forall (set_order : Nodes.pyset -> list string) (nodes : Nodes.store)
          (vis_data : list value) (macs : Nodes.mac_table) (groups : dict Nodes.pyset)
          (node_id : string),
      set_iteration set_order ->
      Nodes.build_mac_table nodes = Ok macs ->
      Nodes.mesh_groups vis_data = (Ok tt, groups) ->
      (forall p ifs x, In (p, ifs) groups -> In x ifs -> dict_get x macs <> Some node_id) ->
      dict_get node_id (snd (Nodes.import_mesh_ifs_vis_data set_order nodes vis_data))
      = dict_get node_id nodes).
Proof.
  split; [exact mesh_groups_links|].
  split; [intros; now apply if_to_node_resolves|].
  split; [intros; now apply merge_ifs_union|].
  split; [exact import_mesh_ifs_example|].
  split.
  - intros set_order nodes vis_data macs groups Ho Hm Hg Hr.
    unfold Nodes.import_mesh_ifs_vis_data. rewrite Hm, Hg.
    now apply reconcile_loop.
  - intros set_order nodes vis_data macs groups node_id Ho Hm Hg H.
    unfold Nodes.import_mesh_ifs_vis_data. rewrite Hm, Hg.
    apply reconcile_frame; [exact Ho|].
    intros ifs x Hin Hx. apply in_map_iff in Hin. destruct Hin as ([p g] & E & Hin).
    cbn [snd] in E. subst g. exact (H p ifs x Hin Hx).
Qed.

Lemma import_mesh_ifs_vis_data_union_witness :
  exists nodes',
    Nodes.import_mesh_ifs_vis_data (fun s => s)
      [("n1", VDict [("nodeinfo", VDict [("network",
                        VDict [("mesh_interfaces", VList [VStr "A"])])])]);
       ("n2", VDict [("nodeinfo", VDict [("network",
                        VDict [("mesh_interfaces", VList [VStr "C"])])])]);
       ("n3", VDict [("nodeinfo", VDict [("network",
                        VDict [("mesh_interfaces", VList [VStr "E"])])])])]
      [VDict [("of", VStr "A"); ("secondary", VStr "B")];
       VDict [("of", VStr "X"); ("secondary", VStr "Y")];
       VDict [("of", VStr "C"); ("secondary", VStr "D")];
       VDict [("of", VStr "E"); ("secondary", VStr "F")]]
    = (Ok tt, nodes') /\
    reconciled [("A", "n1"); ("C", "n2"); ("E", "n3")]
      (map snd [("A", ["A"; "B"]); ("X", ["X"; "Y"]); ("C", ["C"; "D"]); ("E", ["E"; "F"])])
      [("n1", VDict [("nodeinfo", VDict [("network",
                        VDict [("mesh_interfaces", VList [VStr "A"])])])]);
       ("n2", VDict [("nodeinfo", VDict [("network",
                        VDict [("mesh_interfaces", VList [VStr "C"])])])]);
       ("n3", VDict [("nodeinfo", VDict [("network",
                        VDict [("mesh_interfaces", VList [VStr "E"])])])])]
      nodes'.
Proof.
  apply (proj1 (proj2 (proj2 (proj2 (proj2 import_mesh_ifs_vis_data_union))))
           (fun s => s)).
  - intros s. apply Permutation_refl.
  - reflexivity.
  - reflexivity.
  - intros a node_id H. cbn [dict_get] in H.
    destruct (String.eqb a "A").
    { injection H as <-. eexists. split; [reflexivity|]. split.
      - apply Forall_cons; [exists ["A"]; reflexivity|].
        apply Forall_cons; [exact I|]. apply Forall_cons; [exact I|].
        apply Forall_cons; [exact I | apply Forall_nil].
      - eexists. eexists. eexists. split; [reflexivity|]. split; reflexivity. }
    destruct (String.eqb a "C").
    { injection H as <-. eexists. split; [reflexivity|]. split.
      - apply Forall_cons; [exists ["C"]; reflexivity|].
        apply Forall_cons; [exact I|]. apply Forall_cons; [exact I|].
        apply Forall_cons; [exact I | apply Forall_nil].
      - eexists. eexists. eexists. split; [reflexivity|]. split; reflexivity. }
    destruct (String.eqb a "E"); [|discriminate].
    injection H as <-. eexists. split; [reflexivity|]. split.
    + apply Forall_cons; [exists ["E"]; reflexivity|].
      apply Forall_cons; [exact I|]. apply Forall_cons; [exact I|].
      apply Forall_cons; [exact I | apply Forall_nil].
    + eexists. eexists. eexists. split; [reflexivity|]. split; reflexivity.
Defined.

(** The same run, computed: the three groups with a known address each
    reach their record, the group of [X] and [Y] reaches none. *)
Example import_mesh_ifs_every_group :
  let node l := VDict [("nodeinfo", VDict [("network",
                         VDict [("mesh_interfaces", VList (map VStr l))])])] in
  Nodes.import_mesh_ifs_vis_data (fun s => s)
    [("n1", node ["A"]); ("n2", node ["C"]); ("n3", node ["E"])]
    [VDict [("of", VStr "A"); ("secondary", VStr "B")];
     VDict [("of", VStr "X"); ("secondary", VStr "Y")];
     VDict [("of", VStr "C"); ("secondary", VStr "D")];
     VDict [("of", VStr "E"); ("secondary", VStr "F")]]
  = (Ok tt, [("n1", node ["A"; "B"]); ("n2", node ["C"; "D"]); ("n3", node ["E"; "F"])]).
Proof. vm_compute. reflexivity. Qed.
